(** * Resumable Social Blade enrichment pipeline (main.py)

    A shallow embedding of the scraper ([SocialBladeScraper]), of the
    checkpointed enrichment loop ([SocialBladeEnhancer]) and of the
    [enhance] command, followed by the properties of the specification
    that concern them.

    Conventions of the embedding.
    - A Python call that may raise has type [py A]; only subclasses of
      [Exception] are values of [exn].  [KeyboardInterrupt] is not an
      [Exception]: it is modelled in the pipeline as an interruption that
      cuts the sequence of atomic actions of the run.
    - Dynamically typed data (JSON bodies, DataFrame cells, checkpoint
      contents) are values of [pyval].
    - The libraries the program calls but does not define are parameters
      of the sections: the CSS selector engine of BeautifulSoup, the
      remote service answering HTTP requests, [json.dumps], [pd.read_csv]
      and [pd.merge]. *)

From Stdlib Require Import List String Ascii ZArith Bool Arith Lia.
Import ListNotations.
Open Scope string_scope.
Open Scope list_scope.

Set Warnings "-register-all,-notation-for-abbreviation".

(** ** Exceptions and the error monad *)

Inductive exn : Type :=
| AttributeError
| IndexError
| KeyError
| TypeError
| ValueError
| JSONDecodeError
| UnicodeDecodeError
| FileNotFoundError
| SelectorSyntaxError
| RequestException
| EmptyDataError.

Inductive py (A : Type) : Type :=
| Ok (a : A)
| Exc (e : exn).

Arguments Ok {A} a.
Arguments Exc {A} e.

Definition py_bind {A B : Type} (c : py A) (k : A -> py B) : py B :=
  match c with
  | Ok a => k a
  | Exc e => Exc e
  end.

(** [try: body except Exception: handler] *)
Definition try_except {A : Type} (body : py A) (handler : exn -> py A) : py A :=
  match body with
  | Ok a => Ok a
  | Exc e => handler e
  end.

Declare Scope py_scope.
Delimit Scope py_scope with py.
Notation "x <- c ;; k" := (py_bind c (fun x => k))
  (at level 61, c at next level, right associativity) : py_scope.
Open Scope py_scope.

Fixpoint mapM {A B : Type} (f : A -> py B) (l : list A) : py (list B) :=
  match l with
  | [] => Ok []
  | a :: l' => b <- f a ;; bs <- mapM f l' ;; Ok (b :: bs)
  end.

(** ** Python values *)

Inductive pyval : Type :=
| PNone
| PNaN
| PBool (b : bool)
| PInt (z : Z)
| PFloat (mantissa exponent10 : Z)
| PStr (s : string)
| PList (items : list pyval)
| PDict (entries : list (string * pyval)).

(** Python truthiness, as used by [if v:] and [v or d]. *)
Definition truthy (v : pyval) : bool :=
  match v with
  | PNone => false
  | PNaN => true
  | PBool b => b
  | PInt z => negb (z =? 0)%Z
  | PFloat m _ => negb (m =? 0)%Z
  | PStr s => negb (s =? EmptyString)
  | PList l => match l with [] => false | _ => true end
  | PDict d => match d with [] => false | _ => true end
  end.

Fixpoint assoc {A : Type} (k : string) (d : list (string * A)) : option A :=
  match d with
  | [] => None
  | (k', v) :: d' => if k' =? k then Some v else assoc k d'
  end.

(** [v[0]] *)
Definition getitem_0 (v : pyval) : py pyval :=
  match v with
  | PList (x :: _) => Ok x
  | PList [] => Exc IndexError
  | PStr (String c _) => Ok (PStr (String c EmptyString))
  | PStr EmptyString => Exc IndexError
  | PDict _ => Exc KeyError
  | _ => Exc TypeError
  end.

(** [v[key]] for a string key *)
Definition getitem_str (v : pyval) (key : string) : py pyval :=
  match v with
  | PDict d => match assoc key d with
               | Some x => Ok x
               | None => Exc KeyError
               end
  | _ => Exc TypeError
  end.

Fixpoint pyval_eqb (a b : pyval) {struct a} : bool :=
  let fix list_eqb (l1 l2 : list pyval) {struct l1} : bool :=
    match l1, l2 with
    | [], [] => true
    | x :: l1', y :: l2' => pyval_eqb x y && list_eqb l1' l2'
    | _, _ => false
    end in
  let fix dict_eqb (d1 d2 : list (string * pyval)) {struct d1} : bool :=
    match d1, d2 with
    | [], [] => true
    | (k1, x) :: d1', (k2, y) :: d2' => (k1 =? k2) && pyval_eqb x y && dict_eqb d1' d2'
    | _, _ => false
    end in
  match a, b with
  | PNone, PNone => true
  | PNaN, PNaN => true
  | PBool x, PBool y => Bool.eqb x y
  | PInt x, PInt y => (x =? y)%Z
  | PFloat m1 e1, PFloat m2 e2 => (m1 =? m2)%Z && (e1 =? e2)%Z
  | PStr x, PStr y => x =? y
  | PList l1, PList l2 => list_eqb l1 l2
  | PDict d1, PDict d2 => dict_eqb d1 d2
  | _, _ => false
  end.

(** [x in s] for a set kept as a duplicate-free list *)
Definition mem (x : pyval) (s : list pyval) : bool :=
  existsb (pyval_eqb x) s.

(** [s.add(x)] *)
Definition set_add (x : pyval) (s : list pyval) : list pyval :=
  if mem x s then s else s ++ [x].

(** ** Parsed documents (BeautifulSoup) *)

Inductive node : Type :=
| NavigableString (s : string)
| Tag (name : string) (attrs : list (string * string)) (children : list node).

(** [not element]: a Tag is always true, a string is true when non-empty. *)
Definition node_truthy (n : node) : bool :=
  match n with
  | Tag _ _ _ => true
  | NavigableString s => negb (s =? EmptyString)
  end.

(** [element.text]: every string below the node, concatenated. *)
Fixpoint text (n : node) : string :=
  match n with
  | NavigableString s => s
  | Tag _ _ cs => String.concat EmptyString (map text cs)
  end.

(** [element.get(attr, default)] *)
Definition get (element : node) (attr default : string) : py string :=
  match element with
  | Tag _ attrs _ => match assoc attr attrs with
                     | Some v => Ok v
                     | None => Ok default
                     end
  | NavigableString _ => Exc AttributeError
  end.

(** [element.contents[0]] *)
Definition contents_0 (element : node) : py node :=
  match element with
  | Tag _ _ (c :: _) => Ok c
  | Tag _ _ [] => Exc IndexError
  | NavigableString _ => Exc AttributeError
  end.

(** [element.find(string=True, recursive=False)]: the first direct child
    that is a string, or None. *)
Definition find_string (element : node) : py (option string) :=
  match element with
  | Tag _ _ cs =>
      Ok (match filter (fun c => match c with NavigableString _ => true | _ => false end) cs with
          | NavigableString s :: _ => Some s
          | _ => None
          end)
  | NavigableString _ => Exc AttributeError
  end.

(** [str.strip()], on the ASCII white space of [str.isspace]. *)
Definition is_space (c : ascii) : bool :=
  let n := nat_of_ascii c in
  (((9 <=? n) && (n <=? 13)) || ((28 <=? n) && (n <=? 32)))%nat.

Fixpoint lstrip_chars (l : list ascii) : list ascii :=
  match l with
  | c :: l' => if is_space c then lstrip_chars l' else l
  | [] => []
  end.

Definition strip (s : string) : string :=
  string_of_list_ascii
    (rev (lstrip_chars (rev (lstrip_chars (list_ascii_of_string s))))).

(** ** Dataclasses *)

Module DailyStats.
Record t : Type := mk {
  date : string;
  day : string;
  subscriber_growth : string;
  total_subscribers : string;
  video_views : string;
  total_views : string;
  estimated_earnings : string
}.

(** [vars(stat)] *)
Definition vars (d : t) : pyval :=
  PDict [("date", PStr (date d));
         ("day", PStr (day d));
         ("subscriber_growth", PStr (subscriber_growth d));
         ("total_subscribers", PStr (total_subscribers d));
         ("video_views", PStr (video_views d));
         ("total_views", PStr (total_views d));
         ("estimated_earnings", PStr (estimated_earnings d))].
End DailyStats.

Module AverageStats.
Record t : Type := mk {
  name : string;
  subscriber_growth : string;
  view_growth : string;
  estimated_earnings : string
}.

Definition vars (a : t) : pyval :=
  PDict [("name", PStr (name a));
         ("subscriber_growth", PStr (subscriber_growth a));
         ("view_growth", PStr (view_growth a));
         ("estimated_earnings", PStr (estimated_earnings a))].
End AverageStats.

Module SocialBladeStats.
(** The five attributes declared with the default [None] are options;
    [last_video_upload_date] receives whatever the video list carries
    under [created_at], hence a [pyval]. *)
Record t : Type := mk {
  avatar : string;
  name : string;
  username : string;
  profile_url : string;
  subscribers : string;
  total_views : string;
  uploads : string;
  country : string;
  channel_type : string;
  created : string;
  subscribers_last_30_days : string;
  subscribers_growth_30_days : string;
  estimated_monthly_earnings : string;
  video_views_last_30_days : string;
  video_views_growth_30_days : string;
  recent_daily_stats_json : option (list DailyStats.t);
  daily_average_stats_json : option AverageStats.t;
  weekly_average_stats_json : option AverageStats.t;
  monthly_average_stats_json : option AverageStats.t;
  last_video_upload_date : pyval;
  last_50_videos_stats_json : option string
}.

Definition set_videos (s : t) (d : pyval) (v : option string) : t :=
  mk (avatar s) (name s) (username s) (profile_url s) (subscribers s)
     (total_views s) (uploads s) (country s) (channel_type s) (created s)
     (subscribers_last_30_days s) (subscribers_growth_30_days s)
     (estimated_monthly_earnings s) (video_views_last_30_days s)
     (video_views_growth_30_days s) (recent_daily_stats_json s)
     (daily_average_stats_json s) (weekly_average_stats_json s)
     (monthly_average_stats_json s) d v.

Definition set_recent_daily (s : t) (r : option (list DailyStats.t)) : t :=
  mk (avatar s) (name s) (username s) (profile_url s) (subscribers s)
     (total_views s) (uploads s) (country s) (channel_type s) (created s)
     (subscribers_last_30_days s) (subscribers_growth_30_days s)
     (estimated_monthly_earnings s) (video_views_last_30_days s)
     (video_views_growth_30_days s) r
     (daily_average_stats_json s) (weekly_average_stats_json s)
     (monthly_average_stats_json s) (last_video_upload_date s)
     (last_50_videos_stats_json s).

Definition set_averages (s : t) (d w m : option AverageStats.t) : t :=
  mk (avatar s) (name s) (username s) (profile_url s) (subscribers s)
     (total_views s) (uploads s) (country s) (channel_type s) (created s)
     (subscribers_last_30_days s) (subscribers_growth_30_days s)
     (estimated_monthly_earnings s) (video_views_last_30_days s)
     (video_views_growth_30_days s) (recent_daily_stats_json s)
     d w m (last_video_upload_date s) (last_50_videos_stats_json s).
End SocialBladeStats.

(** ** The remote service *)

(** [ProfilePage c] is the GET of
    [https://socialblade.com/youtube/channel/{c}]; [VideoList c] is the
    POST to [.../js/class/youtube-video-recent] with [{"channelid": c}]. *)
Inductive request : Type :=
| ProfilePage (channel_id : pyval)
| VideoList (channel_id : pyval).

(** A response: its status, its body as parsed by
    [BeautifulSoup(response.text, "html.parser")], and the outcome of
    [response.json()]. *)
Record response : Type := mk_response {
  status_code : Z;
  html : node;
  json : py pyval
}.

(** Computations that issue requests: the log of the requests sent so
    far is threaded through, and kept when an exception is raised. *)
Definition net (A : Type) : Type := list request -> py A * list request.

Definition net_ret {A : Type} (a : A) : net A := fun log => (Ok a, log).

Definition net_bind {A B : Type} (c : net A) (k : A -> net B) : net B :=
  fun log =>
    match c log with
    | (Ok a, log') => k a log'
    | (Exc e, log') => (Exc e, log')
    end.

Definition net_lift {A : Type} (c : py A) : net A := fun log => (c, log).

Definition net_try {A : Type} (body : net A) (handler : exn -> net A) : net A :=
  fun log =>
    match body log with
    | (Ok a, log') => (Ok a, log')
    | (Exc e, log') => handler e log'
    end.

Declare Scope net_scope.
Delimit Scope net_scope with net.
Notation "x <- c ;; k" := (net_bind c (fun x => k))
  (at level 61, c at next level, right associativity) : net_scope.

(** ** SocialBladeScraper *)

Section Scraper.

(** [css_select element selector] is [element.select(selector)]: the
    elements below [element] that match, in document order, or the
    exception raised by the selector engine. *)
Variable css_select : node -> string -> py (list node).

(** [json.dumps] *)
Variable json_dumps : pyval -> string.

(** The remote service. *)
Variable http : request -> py response.

(** [soup.select(selector)], where [soup] may be None. *)
Definition select (soup : option node) (selector : string) : py (list node) :=
  match soup with
  | None => Exc AttributeError
  | Some el => css_select el selector
  end.

(** [soup.select_one(selector)]: the first match, or None. *)
Definition select_one (soup : option node) (selector : string) : py (option node) :=
  l <- select soup selector ;; Ok (hd_error l).

Definition attr_given (attr : option string) : bool :=
  match attr with
  | Some a => negb (a =? EmptyString)
  | None => false
  end.

Definition _get_text (soup : option node) (selector : string)
           (attr : option string) (call_firstChild : bool) : py string :=
  try_except
    (element <- select_one soup selector ;;
     match element with
     | None => Ok "N/A"
     | Some el =>
         if negb (node_truthy el) then Ok "N/A"
         else if attr_given attr then
           get el (match attr with Some a => a | None => EmptyString end) "N/A"
         else if call_firstChild then
           c <- contents_0 el ;; Ok (strip (text c))
         else Ok (strip (text el))
     end)
    (fun _ => Ok "N/A").

Definition _get_first_text (element : option node) (selector : string) : py string :=
  try_except
    (selected <- select_one element selector ;;
     match selected with
     | None => Ok "N/A"
     | Some el =>
         if negb (node_truthy el) then Ok "N/A"
         else
           s <- find_string el ;;
           match s with
           | Some s' => Ok (strip s')
           | None => Exc AttributeError
           end
     end)
    (fun _ => Ok "N/A").

(** [x or "--"] on strings *)
Definition or_dashes (s : string) : string :=
  if s =? EmptyString then "--" else s.

(** The body of the loop of [_extract_recent_daily_stats]. *)
Definition daily_stat (element : node) : py DailyStats.t :=
  date <- _get_text (Some element) "div:nth-child(1)" None false ;;
  day <- _get_text (Some element) "div:nth-child(2)" None false ;;
  subscriber_growth <-
    _get_text (Some element) "div:nth-child(3) div:nth-child(1) span" None false ;;
  total_subscribers <-
    _get_text (Some element) "div:nth-child(3) div:nth-child(2)" None false ;;
  video_views <-
    _get_text (Some element) "div:nth-child(4) div:nth-child(1) span" None false ;;
  total_views <-
    _get_text (Some element) "div:nth-child(4) div:nth-child(2)" None false ;;
  estimated_earnings <- _get_text (Some element) "div:nth-child(5)" None false ;;
  Ok (DailyStats.mk date day (or_dashes subscriber_growth) total_subscribers
                    video_views total_views estimated_earnings).

(** [l[6:20]] *)
Definition slice_6_20 {A : Type} (l : list A) : list A :=
  firstn 14 (skipn 6 l).

Definition _extract_recent_daily_stats (soup : option node) : py (list DailyStats.t) :=
  try_except
    (all_divs <- select soup "#socialblade-user-content > div" ;;
     mapM daily_stat (slice_6_20 all_divs))
    (fun _ => Ok []).

Definition _extract_daily_average (soup : option node) : py (option AverageStats.t) :=
  try_except
    (daily_div <- select_one soup "#socialblade-user-content > div:nth-child(21)" ;;
     name <- _get_first_text daily_div "div:nth-child(1)" ;;
     subscriber_growth <- _get_text daily_div "#averagedailysubs span" None false ;;
     view_growth <- _get_text daily_div "#averagedailyviews span" None false ;;
     estimated_earnings <- _get_text daily_div "div:nth-child(4)" None false ;;
     Ok (Some (AverageStats.mk name subscriber_growth view_growth estimated_earnings)))
    (fun _ => Ok None).

Definition _extract_average (soup : option node) (period : string)
  : py (option AverageStats.t) :=
  try_except
    (let selector :=
       if period =? "weekly" then "div:nth-child(22)" else "div:nth-child(23)" in
     avg_div <- select_one soup ("#socialblade-user-content > " ++ selector)%string ;;
     name <- _get_first_text avg_div "div:nth-child(1)" ;;
     subscriber_growth <- _get_text avg_div "div:nth-child(2) span" None false ;;
     view_growth <- _get_text avg_div "div:nth-child(3) span" None false ;;
     estimated_earnings <- _get_text avg_div "div:nth-child(4) span" None false ;;
     Ok (Some (AverageStats.mk name subscriber_growth view_growth estimated_earnings)))
    (fun _ => Ok None).

(** [session.get] and [session.post]: the request is logged, then
    answered by the remote service.  The headers (a random user agent)
    and the waits of the rate limiter do not change the answer and are
    left out. *)
Definition send (r : request) : net response :=
  fun log => (http r, log ++ [r]).

Definition fetch_video_stats (channel_id : pyval) : net (option (pyval * pyval)) :=
  net_try
    (response <- send (VideoList channel_id) ;;
     if negb (status_code response =? 200)%Z then net_ret None
     else
       video_stats <- net_lift (json response) ;;
       last_video_upload_date <-
         net_lift (if truthy video_stats
                   then (first <- getitem_0 video_stats ;;
                         getitem_str first "created_at")%py
                   else Ok (PStr "N/A")) ;;
       net_ret (Some (last_video_upload_date, video_stats)))%net
    (fun _ => net_ret None).

(** The fifteen profile locators, evaluated in the order of the call
    [SocialBladeStats(avatar=..., ...)]; the other attributes keep
    their defaults. *)
Definition profile_stats (soup : option node) : py SocialBladeStats.t :=
  avatar <- _get_text soup "#YouTubeUserTopInfoAvatar" (Some "src") false ;;
  name <- _get_text soup "#YouTubeUserTopInfoBlockTop h1" None false ;;
  username <- _get_text soup "#YouTubeUserTopInfoBlockTop h4 a" None false ;;
  profile_url <- _get_text soup "#YouTubeUserTopInfoBlockTop h4 a" (Some "href") false ;;
  subscribers <-
    _get_text soup
      "#YouTubeUserTopInfoBlock div.YouTubeUserTopInfo:nth-child(3) > span:nth-child(3)"
      None false ;;
  total_views <-
    _get_text soup
      "#YouTubeUserTopInfoBlock div.YouTubeUserTopInfo:nth-child(4) > span:nth-child(3)"
      None false ;;
  uploads <-
    _get_text soup
      "#YouTubeUserTopInfoBlock .YouTubeUserTopInfo:nth-child(2) span:nth-child(3)"
      None false ;;
  country <- _get_text soup "#youtube-user-page-country" None false ;;
  channel_type <- _get_text soup "#youtube-user-page-channeltype" None false ;;
  created <-
    _get_text soup
      "#YouTubeUserTopInfoBlock .YouTubeUserTopInfo:nth-child(7) span:nth-child(3)"
      None false ;;
  subscribers_last_30_days <-
    _get_text soup
      "#socialblade-user-content > div:nth-child(3) > div:nth-child(1) > p:nth-child(1)"
      None true ;;
  subscribers_growth_30_days <-
    _get_text soup
      "#socialblade-user-content > div:nth-child(3) > div:nth-child(1) > p:nth-child(1) > sup:nth-child(1) > span:nth-child(1)"
      None false ;;
  estimated_monthly_earnings <-
    _get_text soup
      "#socialblade-user-content > div:nth-child(3) > div:nth-child(2) > p:nth-child(1)"
      None false ;;
  video_views_last_30_days <-
    _get_text soup
      "#socialblade-user-content > div:nth-child(3) > div:nth-child(3) > p:nth-child(1)"
      None true ;;
  video_views_growth_30_days <-
    _get_text soup
      "#socialblade-user-content > div:nth-child(3) > div:nth-child(3) > p:nth-child(1) > sup:nth-child(1) > span:nth-child(1)"
      None false ;;
  Ok (SocialBladeStats.mk avatar name username profile_url subscribers
        total_views uploads country channel_type created
        subscribers_last_30_days subscribers_growth_30_days
        estimated_monthly_earnings video_views_last_30_days
        video_views_growth_30_days
        None None None None (PStr "N/A") None).

Definition fetch_channel_stats (channel_id : pyval) : net (option SocialBladeStats.t) :=
  net_try
    (response <- send (ProfilePage channel_id) ;;
     if negb (status_code response =? 200)%Z then net_ret None
     else
       let soup := Some (html response) in
       stats <- net_lift (profile_stats soup) ;;
       video_result <- fetch_video_stats channel_id ;;
       let stats :=
         match video_result with
         | Some (last_video_upload_date, last_50_videos_stats) =>
             SocialBladeStats.set_videos stats last_video_upload_date
               (Some (json_dumps last_50_videos_stats))
         | None => stats
         end in
       recent <- net_lift (_extract_recent_daily_stats soup) ;;
       let stats := SocialBladeStats.set_recent_daily stats (Some recent) in
       daily <- net_lift (_extract_daily_average soup) ;;
       weekly <- net_lift (_extract_average soup "weekly") ;;
       monthly <- net_lift (_extract_average soup "monthly") ;;
       net_ret (Some (SocialBladeStats.set_averages stats daily weekly monthly)))%net
    (fun _ => net_ret None).

End Scraper.

(** ** DataFrames and files *)

(** A table: its column labels, and its rows in index order (the index
    is the default [RangeIndex], so the label of a row is its position).
    A row maps column labels to cells; a label it does not bind reads as
    NaN. *)
Record DataFrame : Type := mk_df {
  columns : list string;
  rows : list (list (string * pyval))
}.

Definition cell (row : list (string * pyval)) (col : string) : pyval :=
  match assoc col row with
  | Some v => v
  | None => PNaN
  end.

Fixpoint assoc_set {A : Type} (k : string) (v : A) (d : list (string * A))
  : list (string * A) :=
  match d with
  | [] => [(k, v)]
  | (k', x) :: d' => if k' =? k then (k, v) :: d' else (k', x) :: assoc_set k v d'
  end.

Fixpoint update_nth {A : Type} (n : nat) (f : A -> A) (l : list A) : list A :=
  match l, n with
  | [], _ => []
  | x :: l', O => f x :: l'
  | x :: l', S n' => x :: update_nth n' f l'
  end.

(** [df.at[idx, col] = value]: the cell is overwritten; a label that is
    not yet a column becomes the last column (NaN in the other rows).
    [idx] always comes from [iterrows], so it is a row of the table. *)
Definition at_set (df : DataFrame) (idx : nat) (col : string) (value : pyval)
  : DataFrame :=
  mk_df (if existsb (String.eqb col) (columns df) then columns df
         else columns df ++ [col])
        (update_nth idx (assoc_set col value) (rows df)).

(** [df.iterrows()] *)
Definition iterrows (df : DataFrame) : list (nat * list (string * pyval)) :=
  combine (seq 0 (List.length (rows df))) (rows df).

(** [row["channel_id"]] *)
Definition row_channel_id (df : DataFrame) (row : list (string * pyval)) : py pyval :=
  if existsb (String.eqb "channel_id") (columns df)
  then Ok (cell row "channel_id")
  else Exc KeyError.

(** [row["channel_title"]], read for the log line of a subject that is
    not skipped *)
Definition row_channel_title (df : DataFrame) (row : list (string * pyval)) : py pyval :=
  if existsb (String.eqb "channel_title") (columns df)
  then Ok (cell row "channel_title")
  else Exc KeyError.

(** [df.iloc[-1].values[-1]] *)
Definition last_row_last_value (df : DataFrame) : py pyval :=
  match rev (rows df) with
  | [] => Exc IndexError
  | row :: _ =>
      match rev (columns df) with
      | [] => Exc IndexError
      | col :: _ => Ok (cell row col)
      end
  end.

(** [df.replace(a, b)], cell by cell *)
Definition replace (a b : pyval) (df : DataFrame) : DataFrame :=
  mk_df (columns df)
        (map (fun row =>
                map (fun col =>
                       (col, if pyval_eqb (cell row col) a then b else cell row col))
                    (columns df))
             (rows df)).

(** [df.drop(columns=cols)] *)
Definition drop (cols : list string) (df : DataFrame) : py DataFrame :=
  if forallb (fun c => existsb (String.eqb c) (columns df)) cols
  then
    let keep := fun c : string => negb (existsb (String.eqb c) cols) in
    Ok (mk_df (filter keep (columns df))
              (map (filter (fun kv : string * pyval => keep (fst kv))) (rows df)))
  else Exc KeyError.

(** The content of a CSV file: the table last written by [to_csv], or
    bytes of another origin. *)
Inductive csv_file : Type :=
| CsvText (written : DataFrame)
| CsvRaw (bytes : string).

(** The content of the progress file, by what [json.load] makes of it. *)
Inductive file_text : Type :=
| JsonText (value : pyval)
| MalformedJson
| UndecodableBytes.

Definition json_load (f : file_text) : py pyval :=
  match f with
  | JsonText v => Ok v
  | MalformedJson => Exc JSONDecodeError
  | UndecodableBytes => Exc UnicodeDecodeError
  end.

(** The files of a run: the subscription file it reads, the enriched
    file and the progress file of the output directory, taken to be
    three distinct paths. *)
Record files : Type := mk_files {
  input_file : option csv_file;
  enhanced_file : option csv_file;
  progress_file : option file_text
}.

(** [set(v)], the set being kept in insertion order. *)
Definition hashable (v : pyval) : bool :=
  match v with
  | PList _ | PDict _ => false
  | _ => true
  end.

Definition set_of_list (l : list pyval) : list pyval :=
  fold_left (fun acc x => set_add x acc) l [].

Definition py_set (v : pyval) : py (list pyval) :=
  match v with
  | PList l => if forallb hashable l then Ok (set_of_list l) else Exc TypeError
  | PStr s =>
      Ok (set_of_list (map (fun c => PStr (String c EmptyString)) (list_ascii_of_string s)))
  | PDict d => Ok (set_of_list (map (fun kv => PStr (fst kv)) d))
  | _ => Exc TypeError
  end.

(** ** SocialBladeEnhancer *)

(** The atomic actions of a run.  [Fetch] is the call of the scraper
    (with the requests it sent), [SetCell] one assignment
    [df.at[idx, col] = value], [AddProcessed] the update of the in-memory
    set, [SaveProgress] the rewrite of the progress file, [ToCsv] the
    rewrite of the enriched file, [RemoveProgress] its [os.remove], and
    [LogCompleted] the closing log lines of the [try] block. *)
Inductive action : Type :=
| Fetch (channel_id : pyval) (sent : list request)
| SetCell (idx : nat) (col : string) (value : pyval)
| AddProcessed (channel_id : pyval)
| SaveProgress
| ToCsv
| RemoveProgress
| LogCompleted.

Record state : Type := mk_state {
  df : DataFrame;
  processed_channels : list pyval;
  disk : files;
  trace : list action
}.

(** [json.dump({"processed_channels": processed_channels}, f)] *)
Definition progress_json (processed : list pyval) : file_text :=
  JsonText (PDict [("processed_channels", PList processed)]).

Definition apply (a : action) (st : state) : state :=
  let tr := trace st ++ [a] in
  match a with
  | Fetch _ _ | LogCompleted =>
      mk_state (df st) (processed_channels st) (disk st) tr
  | SetCell idx col value =>
      mk_state (at_set (df st) idx col value) (processed_channels st) (disk st) tr
  | AddProcessed c =>
      mk_state (df st) (set_add c (processed_channels st)) (disk st) tr
  | SaveProgress =>
      mk_state (df st) (processed_channels st)
               (mk_files (input_file (disk st)) (enhanced_file (disk st))
                         (Some (progress_json (processed_channels st))))
               tr
  | ToCsv =>
      mk_state (df st) (processed_channels st)
               (mk_files (input_file (disk st)) (Some (CsvText (df st)))
                         (progress_file (disk st)))
               tr
  | RemoveProgress =>
      mk_state (df st) (processed_channels st)
               (mk_files (input_file (disk st)) (enhanced_file (disk st)) None)
               tr
  end.

(** The outcome of a stretch of the [try] block: it ran to its end
    (with what is left of the delay before the signal), it was cut by
    [KeyboardInterrupt], or it raised an [Exception]. *)
Inductive flow : Type :=
| Normal (st : state) (signal : option nat)
| Interrupt (st : state)
| Raise (e : exn) (st : state).

(** [signal = Some k]: [KeyboardInterrupt] is delivered once [k] more
    atomic actions have run; [None]: no signal. *)
Fixpoint exec (acts : list action) (st : state) (signal : option nat) : flow :=
  match acts with
  | [] => Normal st signal
  | a :: acts' =>
      match signal with
      | Some O => Interrupt st
      | Some (S k) => exec acts' (apply a st) (Some k)
      | None => exec acts' (apply a st) None
      end
  end.

Section Enhancer.

Variable css_select : node -> string -> py (list node).
Variable json_dumps : pyval -> string.
Variable http : request -> py response.

(** [pd.read_csv] *)
Variable pd_read_csv : csv_file -> py DataFrame.

(** [pd.merge(left, right, on="channel_id", how="left")] *)
Variable pd_merge : DataFrame -> DataFrame -> py DataFrame.

Definition read_csv_pandas (f : csv_file) : option DataFrame :=
  match pd_read_csv f with
  | Ok table => Some (replace (PStr "--") PNone (replace PNaN PNone table))
  | Exc _ => None
  end.

Definition load_progress (d : files) : py pyval :=
  let fresh := Ok (PDict [("processed_channels", PList [])]) in
  match progress_file d with
  | Some f =>
      match json_load f with
      | Ok v => Ok v
      | Exc JSONDecodeError => fresh
      | Exc e => Exc e
      end
  | None => fresh
  end.

(** [stats_dict] once the nested attributes have been serialised: the
    entries of [vars(stats)], in the order of the fields. *)
Definition average_cell (a : option AverageStats.t) : pyval :=
  match a with
  | Some avg => PStr (json_dumps (AverageStats.vars avg))
  | None => PNone
  end.

Definition stats_dict (s : SocialBladeStats.t) : list (string * pyval) :=
  [("avatar", PStr (SocialBladeStats.avatar s));
   ("name", PStr (SocialBladeStats.name s));
   ("username", PStr (SocialBladeStats.username s));
   ("profile_url", PStr (SocialBladeStats.profile_url s));
   ("subscribers", PStr (SocialBladeStats.subscribers s));
   ("total_views", PStr (SocialBladeStats.total_views s));
   ("uploads", PStr (SocialBladeStats.uploads s));
   ("country", PStr (SocialBladeStats.country s));
   ("channel_type", PStr (SocialBladeStats.channel_type s));
   ("created", PStr (SocialBladeStats.created s));
   ("subscribers_last_30_days", PStr (SocialBladeStats.subscribers_last_30_days s));
   ("subscribers_growth_30_days", PStr (SocialBladeStats.subscribers_growth_30_days s));
   ("estimated_monthly_earnings", PStr (SocialBladeStats.estimated_monthly_earnings s));
   ("video_views_last_30_days", PStr (SocialBladeStats.video_views_last_30_days s));
   ("video_views_growth_30_days", PStr (SocialBladeStats.video_views_growth_30_days s));
   ("recent_daily_stats_json",
    match SocialBladeStats.recent_daily_stats_json s with
    | Some [] => PList []
    | Some l => PStr (json_dumps (PList (map DailyStats.vars l)))
    | None => PNone
    end);
   ("daily_average_stats_json",
    average_cell (SocialBladeStats.daily_average_stats_json s));
   ("weekly_average_stats_json",
    average_cell (SocialBladeStats.weekly_average_stats_json s));
   ("monthly_average_stats_json",
    average_cell (SocialBladeStats.monthly_average_stats_json s));
   ("last_video_upload_date", SocialBladeStats.last_video_upload_date s);
   ("last_50_videos_stats_json",
    match SocialBladeStats.last_50_videos_stats_json s with
    | Some dumped => PStr dumped
    | None => PNone
    end)].

(** [self.scraper.fetch_channel_stats(channel_id)]: its result (it
    never raises an [Exception]) and the requests it sent. *)
Definition scrape (channel_id : pyval) : option SocialBladeStats.t * list request :=
  match fetch_channel_stats css_select json_dumps http channel_id [] with
  | (Ok r, sent) => (r, sent)
  | (Exc _, sent) => (None, sent)
  end.

(** The actions of one turn of the loop of [enhance_data], for the row
    of label [idx] and identifier [channel_id]: none when the subject is
    skipped. *)
Definition loop_body (idx : nat) (channel_id : pyval) (processed : list pyval)
  : list action :=
  if mem channel_id processed then []
  else
    let (stats, sent) := scrape channel_id in
    [Fetch channel_id sent]
    ++ match stats with
       | Some s =>
           map (fun kv => SetCell idx ("socialblade_" ++ fst kv)%string (snd kv))
               (stats_dict s)
           ++ [AddProcessed channel_id; SaveProgress]
       | None => []
       end
    ++ (if (Nat.modulo idx 10 =? 0)%nat then [ToCsv] else []).

(** One turn of the loop: the skip test on [row["channel_id"]], the log
    line, which reads [row["channel_title"]], and the actions of the
    turn. *)
Definition turn (table : DataFrame) (idx : nat) (row : list (string * pyval))
           (st : state) (signal : option nat) : flow :=
  match row_channel_id table row with
  | Exc e => Raise e st
  | Ok channel_id =>
      if mem channel_id (processed_channels st) then Normal st signal
      else
        match row_channel_title table row with
        | Exc e => Raise e st
        | Ok _ => exec (loop_body idx channel_id (processed_channels st)) st signal
        end
  end.

Fixpoint iterate (table : DataFrame) (its : list (nat * list (string * pyval)))
         (st : state) (signal : option nat) : flow :=
  match its with
  | [] => Normal st signal
  | (idx, row) :: rest =>
      match turn table idx row st signal with
      | Normal st' signal' => iterate table rest st' signal'
      | stopped => stopped
      end
  end.

(** The [try] block from the loop on: the loop, the final save, the
    removal of the progress file and the closing log lines. *)
Definition try_block (st : state) (signal : option nat) : flow :=
  match iterate (df st) (iterrows (df st)) st signal with
  | Normal st1 signal1 =>
      match exec [ToCsv] st1 signal1 with
      | Normal st2 signal2 =>
          exec (match progress_file (disk st2) with
                | Some _ => [RemoveProgress]
                | None => []
                end ++ [LogCompleted]) st2 signal2
      | stopped => stopped
      end
  | stopped => stopped
  end.

(** The handler of [KeyboardInterrupt]. *)
Definition on_interrupt (st : state) : state :=
  apply SaveProgress (apply ToCsv st).

Inductive outcome : Type :=
| Done (st : state)
| Interrupted (st : state)
| Failed (e : exn) (d : files) (tr : list action).

(** [set(progress["processed_channels"])] on the loaded progress *)
Definition load_checkpoint (d : files) (resume : bool) : py (list pyval) :=
  progress <- (if resume then load_progress d
               else Ok (PDict [("processed_channels", PList [])])) ;;
  ids <- getitem_str progress "processed_channels" ;;
  py_set ids.

(** The merge of an existing enriched file onto the base list. *)
Definition merge_existing (d : files) (base : DataFrame) : py DataFrame :=
  match enhanced_file d with
  | Some f =>
      enhanced_df <- match read_csv_pandas f with
                     | Some t => Ok t
                     | None => Exc AttributeError
                     end ;;
      right <- drop ["channel_title"; "youtube_url"; "social_blade_url"; "fetch_date"]
                    enhanced_df ;;
      pd_merge base right
  | None => Ok base
  end.

(** [enhance_data]: the signal, if any, is counted from the first
    action of the loop. *)
Definition enhance_data (d : files) (resume : bool) (signal : option nat) : outcome :=
  match input_file d with
  | None => Failed FileNotFoundError d []
  | Some f =>
      match read_csv_pandas f with
      | None => Failed TypeError d []
      | Some base =>
          match load_checkpoint d resume with
          | Exc e => Failed e d []
          | Ok processed =>
              match merge_existing d base with
              | Exc e => Failed e d []
              | Ok table =>
                  match try_block (mk_state table processed d []) signal with
                  | Normal st _ => Done st
                  | Interrupt st => Interrupted (on_interrupt st)
                  | Raise e st => Failed e (disk st) (trace st)
                  end
              end
          end
      end
  end.

(** The [enhance] command. *)
Inductive cli_outcome : Type :=
| AlreadyCompleted
| Ran (o : outcome)
| CommandFailed (e : exn).

Definition completion_check (d : files) : py bool :=
  match enhanced_file d with
  | Some f =>
      table <- match read_csv_pandas f with
               | Some t => Ok t
               | None => Exc AttributeError
               end ;;
      last_row_last_value <- last_row_last_value table ;;
      match last_row_last_value with
      | PNone => Ok false
      | _ => Ok (5 <? List.length (columns table))%nat
      end
  | None => Ok false
  end.

Definition enhance (d : files) (resume : bool) (signal : option nat) : cli_outcome :=
  match completion_check d with
  | Exc e => CommandFailed e
  | Ok true => AlreadyCompleted
  | Ok false => Ran (enhance_data d resume signal)
  end.

End Enhancer.

(** ** Reference instances of the parameters

    They serve the examples: a selector engine for the fragment
    [#id], [#id > tag], [tag] and [tag:nth-child(k)] with one digit (any
    other selector matches nothing),
    a serialiser without escaping, a reader that returns the table last
    written, and a left join on unique identifiers. *)

Fixpoint descendants (n : node) : list node :=
  match n with
  | Tag _ _ cs => flat_map (fun c => c :: descendants c) cs
  | NavigableString _ => []
  end.

Definition has_id (i : string) (n : node) : bool :=
  match n with
  | Tag _ attrs _ => match assoc "id" attrs with
                     | Some v => v =? i
                     | None => false
                     end
  | NavigableString _ => false
  end.

Definition is_tag (t : string) (n : node) : bool :=
  match n with
  | Tag name _ _ => name =? t
  | NavigableString _ => false
  end.

Definition children_of (n : node) : list node :=
  match n with
  | Tag _ _ cs => cs
  | NavigableString _ => []
  end.

Definition is_element (n : node) : bool :=
  match n with
  | Tag _ _ _ => true
  | NavigableString _ => false
  end.

(** The elements below [root] of tag [t] that are the [k]-th element
    child of their parent. *)
Definition nth_children (t : string) (k : nat) (root : node) : list node :=
  flat_map (fun parent =>
              match nth_error (filter is_element (children_of parent)) (k - 1) with
              | Some c => if is_tag t c then [c] else []
              | None => []
              end)
           (root :: descendants root).

Definition basic_select (root : node) (selector : string) : py (list node) :=
  match selector with
  | EmptyString => Exc SelectorSyntaxError
  | String "#" rest =>
      match index 0 " > " rest with
      | Some k =>
          let i := substring 0 k rest in
          let t := substring (k + 3) (String.length rest - (k + 3)) rest in
          Ok (flat_map (fun n => filter (is_tag t) (children_of n))
                       (filter (has_id i) (descendants root)))
      | None => Ok (filter (has_id rest) (descendants root))
      end
  | _ =>
      match index 0 ":nth-child(" selector with
      | Some k =>
          match String.get (k + 11) selector with
          | Some digit =>
              if (String.length selector =? k + 13)%nat
              then Ok (nth_children (substring 0 k selector)
                                    (nat_of_ascii digit - 48) root)
              else Ok []
          | None => Ok []
          end
      | None => Ok (filter (is_tag selector) (descendants root))
      end
  end.

Definition dquote : ascii := ascii_of_nat 34.

Definition comma_join (l : list string) : string := String.concat ", " l.

Fixpoint plain_dumps (v : pyval) : string :=
  match v with
  | PNone => "null"
  | PNaN => "NaN"
  | PBool true => "true"
  | PBool false => "false"
  | PInt z => if (z =? 0)%Z then "0" else "<int>"
  | PFloat _ _ => "<float>"
  | PStr s => String dquote (s ++ String dquote EmptyString)
  | PList l => "[" ++ comma_join (map plain_dumps l) ++ "]"
  | PDict d =>
      "{" ++ comma_join (map (fun kv => String dquote (fst kv ++ String dquote EmptyString)
                                          ++ ": " ++ plain_dumps (snd kv)) d)
          ++ "}"
  end%string.

Definition reread (f : csv_file) : py DataFrame :=
  match f with
  | CsvText t => Ok t
  | CsvRaw _ => Exc EmptyDataError
  end.

Definition left_join (l r : DataFrame) : py DataFrame :=
  if existsb (String.eqb "channel_id") (columns l)
     && existsb (String.eqb "channel_id") (columns r)
  then
    let other := fun c : string => negb (c =? "channel_id") in
    Ok (mk_df (columns l ++ filter other (columns r))
              (map (fun row =>
                      row ++ match find (fun rr => pyval_eqb (cell rr "channel_id")
                                                             (cell row "channel_id"))
                                        (rows r) with
                             | Some rr => filter (fun kv => other (fst kv)) rr
                             | None => []
                             end)
                   (rows l)))
  else Exc KeyError.

(** ** Sample data for the examples *)

Definition empty_page : node := Tag "[document]" [] [].

Definition sample_block (label : string) : node :=
  Tag "div" []
    [Tag "div" [] [NavigableString label];
     Tag "div" [] [NavigableString " Mon "]].

Definition sample_labels : list string :=
  ["b1"; "b2"; "b3"; "b4"; "b5"; "b6"; "b7"; "b8"; "b9"; "b10"; "b11";
   "b12"; "b13"; "b14"; "b15"; "b16"; "b17"; "b18"; "b19"; "b20"; "b21"; "b22"].

Definition sample_page : node :=
  Tag "[document]" []
    [Tag "img" [("id", "YouTubeUserTopInfoAvatar"); ("src", "https://img.example/a.png")] [];
     Tag "span" [("id", "youtube-user-page-country")] [NavigableString " US "];
     Tag "div" [("id", "socialblade-user-content")] (map sample_block sample_labels)].

(** The profile page of [UC_down] answers 500; the video list is served
    for [UC_a] only. *)
Definition sample_http (r : request) : py response :=
  match r with
  | ProfilePage (PStr "UC_down") => Ok (mk_response 500 empty_page (Exc JSONDecodeError))
  | ProfilePage (PStr _) => Ok (mk_response 200 sample_page (Exc JSONDecodeError))
  | VideoList (PStr "UC_a") =>
      Ok (mk_response 200 empty_page
            (Ok (PList [PDict [("created_at", PStr "2024-01-02"); ("title", PStr "t")]])))
  | VideoList (PStr _) => Ok (mk_response 500 empty_page (Exc JSONDecodeError))
  | _ => Exc RequestException
  end.

Definition sample_row (channel_id title : string) : list (string * pyval) :=
  [("channel_id", PStr channel_id);
   ("channel_title", PStr title);
   ("social_blade_url", PStr "https://socialblade.com/youtube/channel/x");
   ("youtube_url", PStr "https://youtube.com/channel/x");
   ("fetch_date", PStr "2024-01-01T00:00:00")].

Definition base_columns : list string :=
  ["channel_id"; "channel_title"; "social_blade_url"; "youtube_url"; "fetch_date"].

Definition sample_table : DataFrame :=
  mk_df base_columns
        [sample_row "UC_a" "A"; sample_row "UC_b" "B"; sample_row "UC_down" "D"].

Definition sample_files : files :=
  mk_files (Some (CsvText sample_table)) None None.

(** The sample table as [read_csv_pandas] returns it. *)
Definition sample_base : DataFrame :=
  replace (PStr "--") PNone (replace PNaN PNone sample_table).

Definition sample_scrape : pyval -> option SocialBladeStats.t * list request :=
  scrape basic_select plain_dumps sample_http.

Definition sample_start (processed : list pyval) : state :=
  mk_state sample_table processed sample_files [].

(** ** Notions used by the statements *)

(** The value of a call that does not raise. *)
Definition value_of {A : Type} (c : py A) (default : A) : A :=
  match c with
  | Ok a => a
  | Exc _ => default
  end.

Section ScraperNotions.

Variable css_select : node -> string -> py (list node).
Variable json_dumps : pyval -> string.
Variable http : request -> py response.

(** The string [_get_text] returns. *)
Definition text_at (soup : option node) (selector : string)
           (attr : option string) (call_firstChild : bool) : string :=
  match _get_text css_select soup selector attr call_firstChild with
  | Ok s => s
  | Exc _ => "N/A"
  end.

(** The [DailyStats] built from one block. *)
Definition daily_record (element : node) : DailyStats.t :=
  let field := fun selector => text_at (Some element) selector None false in
  DailyStats.mk
    (field "div:nth-child(1)")
    (field "div:nth-child(2)")
    (or_dashes (field "div:nth-child(3) div:nth-child(1) span"))
    (field "div:nth-child(3) div:nth-child(2)")
    (field "div:nth-child(4) div:nth-child(1) span")
    (field "div:nth-child(4) div:nth-child(2)")
    (field "div:nth-child(5)").

(** The ways in which [_get_text] finds nothing to return: no
    document, an error of the selector engine, no matching element, an
    absent attribute, an absent first child, a match that is not an
    element. *)
Inductive unavailable (soup : option node) (selector : string)
          (attr : option string) (call_firstChild : bool) : Prop :=
| no_document :
    soup = None -> unavailable soup selector attr call_firstChild
| engine_error (e : exn) :
    select_one css_select soup selector = Exc e ->
    unavailable soup selector attr call_firstChild
| no_match :
    select_one css_select soup selector = Ok None ->
    unavailable soup selector attr call_firstChild
| attribute_absent (tag a : string) (attrs : list (string * string)) (cs : list node) :
    select_one css_select soup selector = Ok (Some (Tag tag attrs cs)) ->
    attr = Some a -> a <> EmptyString -> assoc a attrs = None ->
    unavailable soup selector attr call_firstChild
| child_absent (tag : string) (attrs : list (string * string)) :
    select_one css_select soup selector = Ok (Some (Tag tag attrs [])) ->
    attr_given attr = false -> call_firstChild = true ->
    unavailable soup selector attr call_firstChild
| not_an_element (s : string) :
    select_one css_select soup selector = Ok (Some (NavigableString s)) ->
    attr_given attr = true \/ call_firstChild = true ->
    unavailable soup selector attr call_firstChild.

(** The same for [_get_first_text]: the selected element has no direct
    string child. *)
Inductive first_text_unavailable (element : option node) (selector : string) : Prop :=
| ft_no_document :
    element = None -> first_text_unavailable element selector
| ft_engine_error (e : exn) :
    select_one css_select element selector = Exc e ->
    first_text_unavailable element selector
| ft_no_match :
    select_one css_select element selector = Ok None ->
    first_text_unavailable element selector
| ft_no_string (el : node) :
    select_one css_select element selector = Ok (Some el) ->
    find_string el = Ok None ->
    first_text_unavailable element selector
| ft_not_an_element (s : string) :
    select_one css_select element selector = Ok (Some (NavigableString s)) ->
    first_text_unavailable element selector.


(** The constructor call of [fetch_channel_stats] as a table:
    attribute, selector, [attr], [call_firstChild]. *)
Definition profile_locators : list (string * (string * option string * bool)) :=
  [("avatar", ("#YouTubeUserTopInfoAvatar", Some "src", false));
   ("name", ("#YouTubeUserTopInfoBlockTop h1", None, false));
   ("username", ("#YouTubeUserTopInfoBlockTop h4 a", None, false));
   ("profile_url", ("#YouTubeUserTopInfoBlockTop h4 a", Some "href", false));
   ("subscribers",
    ("#YouTubeUserTopInfoBlock div.YouTubeUserTopInfo:nth-child(3) > span:nth-child(3)",
     None, false));
   ("total_views",
    ("#YouTubeUserTopInfoBlock div.YouTubeUserTopInfo:nth-child(4) > span:nth-child(3)",
     None, false));
   ("uploads",
    ("#YouTubeUserTopInfoBlock .YouTubeUserTopInfo:nth-child(2) span:nth-child(3)",
     None, false));
   ("country", ("#youtube-user-page-country", None, false));
   ("channel_type", ("#youtube-user-page-channeltype", None, false));
   ("created",
    ("#YouTubeUserTopInfoBlock .YouTubeUserTopInfo:nth-child(7) span:nth-child(3)",
     None, false));
   ("subscribers_last_30_days",
    ("#socialblade-user-content > div:nth-child(3) > div:nth-child(1) > p:nth-child(1)",
     None, true));
   ("subscribers_growth_30_days",
    ("#socialblade-user-content > div:nth-child(3) > div:nth-child(1) > p:nth-child(1) > sup:nth-child(1) > span:nth-child(1)",
     None, false));
   ("estimated_monthly_earnings",
    ("#socialblade-user-content > div:nth-child(3) > div:nth-child(2) > p:nth-child(1)",
     None, false));
   ("video_views_last_30_days",
    ("#socialblade-user-content > div:nth-child(3) > div:nth-child(3) > p:nth-child(1)",
     None, true));
   ("video_views_growth_30_days",
    ("#socialblade-user-content > div:nth-child(3) > div:nth-child(3) > p:nth-child(1) > sup:nth-child(1) > span:nth-child(1)",
     None, false))].

(** The value of each profile attribute on a page. *)
Definition profile_entries (page : node) : list (string * pyval) :=
  map (fun entry =>
         match entry with
         | (attribute, (selector, attr, call_firstChild)) =>
             (attribute, PStr (text_at (Some page) selector attr call_firstChild))
         end)
      profile_locators.

(** The result of [fetch_video_stats]. *)
Definition video_result (channel_id : pyval) : option (pyval * pyval) :=
  value_of (fst (fetch_video_stats http channel_id [])) None.

(** The record built by the constructor call on a page. *)
Definition profile_record (page : node) : SocialBladeStats.t :=
  let field := fun attribute =>
                 match assoc attribute profile_locators with
                 | Some (selector, attr, call_firstChild) =>
                     text_at (Some page) selector attr call_firstChild
                 | None => "N/A"
                 end in
  SocialBladeStats.mk
    (field "avatar") (field "name") (field "username") (field "profile_url")
    (field "subscribers") (field "total_views") (field "uploads")
    (field "country") (field "channel_type") (field "created")
    (field "subscribers_last_30_days") (field "subscribers_growth_30_days")
    (field "estimated_monthly_earnings") (field "video_views_last_30_days")
    (field "video_views_growth_30_days")
    None None None None (PStr "N/A") None.

(** What a fetch extracts from the profile page alone: the record,
    the recent daily stats and the three averages; the video
    attributes keep their defaults. *)
Definition page_stats (page : node) : SocialBladeStats.t :=
  SocialBladeStats.set_averages
    (SocialBladeStats.set_recent_daily
       (profile_record page)
       (Some (value_of (_extract_recent_daily_stats css_select (Some page)) [])))
    (value_of (_extract_daily_average css_select (Some page)) None)
    (value_of (_extract_average css_select (Some page) "weekly") None)
    (value_of (_extract_average css_select (Some page) "monthly") None).

(** The result of a fetch whose profile page was served. *)
Definition fetched (channel_id : pyval) (page : node) : SocialBladeStats.t :=
  match video_result channel_id with
  | Some (last_video_upload_date, last_50_videos_stats) =>
      SocialBladeStats.set_videos (page_stats page) last_video_upload_date
        (Some (json_dumps last_50_videos_stats))
  | None => page_stats page
  end.

End ScraperNotions.

(** Every attribute of every result of a successful fetch is non-null:
    no entry of [vars(stats)] is None. *)
Definition every_attribute_non_null : Prop :=
  forall css_select json_dumps http channel_id log log' s,
    fetch_channel_stats css_select json_dumps http channel_id log = (Ok (Some s), log') ->
    forall attribute value,
      In (attribute, value) (stats_dict json_dumps s) -> value <> PNone.

(** The state after a list of actions, none of them interrupted. *)
Definition run (acts : list action) (st : state) : state :=
  fold_left (fun s a => apply a s) acts st.

Definition flow_state (f : flow) : state :=
  match f with
  | Normal st _ => st
  | Interrupt st => st
  | Raise _ st => st
  end.

(** [P] holds at every point of the execution of [acts] from [st]: a
    signal may cut it after any number of actions. *)
Definition at_every_point (P : state -> Prop) (acts : list action) (st : state) : Prop :=
  forall k, P (run (firstn k acts) st).

(** The identifiers held by the persisted checkpoint. *)
Definition checkpoint_ids (d : files) : list pyval :=
  match progress_file d with
  | Some (JsonText (PDict entries)) =>
      match assoc "processed_channels" entries with
      | Some (PList ids) => ids
      | _ => []
      end
  | _ => []
  end.

(** The table held by the persisted enriched file. *)
Definition persisted_table (d : files) : option DataFrame :=
  match enhanced_file d with
  | Some (CsvText t) => Some t
  | _ => None
  end.

(** Row [idx] of [t] holds the merged entries of a StatsResult. *)
Definition row_holds (t : DataFrame) (idx : nat) (entries : list (string * pyval)) : Prop :=
  exists row,
    nth_error (rows t) idx = Some row
    /\ forall k v, In (k, v) entries -> assoc ("socialblade_" ++ k)%string row = Some v.

(** The rows of [table] whose identifier is in the persisted checkpoint
    hold a StatsResult in the persisted dataset. *)
Definition checkpoint_covered (json_dumps : pyval -> string) (table : DataFrame)
           (d : files) : Prop :=
  forall idx row channel_id,
    In (idx, row) (iterrows table) ->
    row_channel_id table row = Ok channel_id ->
    In channel_id (checkpoint_ids d) ->
    exists t s, persisted_table d = Some t /\ row_holds t idx (stats_dict json_dumps s).

Section RunInvariants.

Variable css_select : node -> string -> py (list node).
Variable json_dumps : pyval -> string.
Variable http : request -> py response.

(** The state in which the loop starts. *)
Variable st0 : state.

(** The cells written by the merge of one StatsResult into row [idx]. *)
Definition merge_actions (idx : nat) (entries : list (string * pyval)) : list action :=
  map (fun kv => SetCell idx ("socialblade_" ++ fst kv)%string (snd kv)) entries.

(** The periodic save at the end of a turn of the loop. *)
Definition flush_at (idx : nat) : list action :=
  if (Nat.modulo idx 10 =? 0)%nat then [ToCsv] else [].

(** Every identifier that the run has added to the in-memory set has
    the StatsResult of its fetch in its in-memory row. *)
Definition recorded_rows_enriched (st : state) : Prop :=
  forall c,
    In c (processed_channels st) ->
    In c (processed_channels st0)
    \/ exists idx row s sent,
        In (idx, row) (iterrows (df st0))
        /\ row_channel_id (df st0) row = Ok c
        /\ scrape css_select json_dumps http c = (Some s, sent)
        /\ row_holds (df st) idx (stats_dict json_dumps s).

(** The persisted checkpoint is the one found at the start, or it is
    within the in-memory set. *)
Definition checkpoint_within_memory (st : state) : Prop :=
  checkpoint_ids (disk st) = checkpoint_ids (disk st0)
  \/ incl (checkpoint_ids (disk st)) (processed_channels st).

Definition same_rows (st : state) : Prop :=
  List.length (rows (df st)) = List.length (rows (df st0)).

Definition memory_covers (st : state) : Prop :=
  recorded_rows_enriched st /\ checkpoint_within_memory st /\ same_rows st.

End RunInvariants.

(** The checkpoint never runs ahead of the persisted dataset: if it is
    covered when the loop starts, it is covered after any number [k] of
    atomic actions of the run. *)
Definition checkpoint_never_ahead : Prop :=
  forall css_select json_dumps http st0 k st,
    trace st0 = [] ->
    checkpoint_covered json_dumps (df st0) (disk st0) ->
    try_block css_select json_dumps http st0 (Some k) = Interrupt st ->
    checkpoint_covered json_dumps (df st0) (disk st).

(** The dataset is flushed at every subject whose position is a multiple
    of ten, whatever happens to that subject. *)
Definition flushed_at_every_tenth : Prop :=
  forall css_select json_dumps http idx channel_id processed,
    Nat.modulo idx 10 = 0 ->
    In ToCsv (loop_body css_select json_dumps http idx channel_id processed).

(** The stored checkpoint cannot be read back as a set of identifiers. *)
Definition unreadable (f : file_text) : Prop :=
  exists e,
    (v <- json_load f ;; ids <- getitem_str v "processed_channels" ;; py_set ids) = Exc e.

(** Every unreadable checkpoint is loaded as the empty set. *)
Definition unreadable_checkpoint_starts_fresh : Prop :=
  forall d f,
    progress_file d = Some f -> unreadable f -> load_checkpoint d true = Ok [].

(** An enriched file with its header and no row. *)
Definition header_only : files :=
  mk_files (Some (CsvText sample_table))
           (Some (CsvText (mk_df base_columns [])))
           None.

(** The state of a fresh run on the sample data once [k] actions have
    been executed. *)
Definition sample_point (k : nat) : state :=
  flow_state (try_block basic_select plain_dumps sample_http (sample_start []) (Some k)).

(** The state in which a fresh, uninterrupted run on the sample data
    ends. *)
Definition sample_completed : state :=
  flow_state (try_block basic_select plain_dumps sample_http (sample_start []) None).

(** Files whose progress file is the JSON text of an empty object. *)
Definition empty_object_progress : files :=
  mk_files (Some (CsvText sample_table)) None (Some (JsonText (PDict []))).

(** Files whose progress file is not JSON. *)
Definition malformed_progress : files :=
  mk_files (Some (CsvText sample_table)) None (Some MalformedJson).

(** ** YouTubeSubsFetcher *)

(** [for x in v]: the elements a loop over [v] visits. *)
Definition py_iter (v : pyval) : py (list pyval) :=
  match v with
  | PList l => Ok l
  | PStr s => Ok (map (fun c => PStr (String c EmptyString)) (list_ascii_of_string s))
  | PDict d => Ok (map (fun kv => PStr (fst kv)) d)
  | _ => Exc TypeError
  end.

(** [v.get(key)] *)
Definition dict_get (v : pyval) (key : string) : py pyval :=
  match v with
  | PDict d => Ok (match assoc key d with
                   | Some x => x
                   | None => PNone
                   end)
  | _ => Exc AttributeError
  end.

(** [pd.DataFrame(records)] for records that bind the same keys in the
    same order, as those of [fetch_subscriptions] do. *)
Definition dataframe_of_records (records : list (list (string * pyval))) : DataFrame :=
  mk_df (match records with
         | [] => []
         | r :: _ => map fst r
         end)
        records.

(** The outcome of the paging loop: it broke out with the rows
    collected, or a page failed; with the page tokens requested. *)
Inductive pages_result : Type :=
| Collected (subscriptions : list (list (string * pyval))) (calls : list pyval)
| PageFailed (e : exn) (calls : list pyval).

Section SubsFetcher.

(** [_fetch_page(page_token)]: the answer of the subscriptions
    endpoint, or the exception of the client. *)
Variable youtube_list : pyval -> py pyval.

(** The successive readings of [datetime.datetime.now().isoformat()]. *)
Variable now_isoformat : nat -> string.

(** [str(v)] for a value that is not a string. *)
Variable str_of : pyval -> string.

(** The interpolation of a value in an f-string. *)
Definition fstr (v : pyval) : string :=
  match v with
  | PStr s => s
  | _ => str_of v
  end.

(** The record built for one item; [n] readings of the clock precede
    it. *)
Definition channel_data (item : pyval) (n : nat) : py (list (string * pyval)) :=
  snippet <- getitem_str item "snippet" ;;
  resourceId <- getitem_str snippet "resourceId" ;;
  channelId <- getitem_str resourceId "channelId" ;;
  title <- getitem_str snippet "title" ;;
  Ok [("channel_id", channelId);
      ("channel_title", title);
      ("social_blade_url",
       PStr ("https://socialblade.com/youtube/channel/" ++ fstr channelId)%string);
      ("youtube_url", PStr ("https://youtube.com/channel/" ++ fstr channelId)%string);
      ("fetch_date", PStr (now_isoformat n))].

(** The loop over the items of a page. *)
Fixpoint add_items (items : list pyval) (subscriptions : list (list (string * pyval)))
  : py (list (list (string * pyval))) :=
  match items with
  | [] => Ok subscriptions
  | item :: rest =>
      record <- channel_data item (List.length subscriptions) ;;
      add_items rest (subscriptions ++ [record])
  end.

(** One turn of [while True]: the rows after the page, and the token of
    the next one. *)
Definition page_turn (token : pyval) (subscriptions : list (list (string * pyval)))
  : py (list (list (string * pyval)) * pyval) :=
  response <- youtube_list token ;;
  items <- getitem_str response "items" ;;
  items <- py_iter items ;;
  subscriptions' <- add_items items subscriptions ;;
  next_page_token <- dict_get response "nextPageToken" ;;
  Ok (subscriptions', next_page_token).

(** The paging loop; [None] when [fuel] turns do not reach its end. *)
Fixpoint fetch_pages (fuel : nat) (token : pyval)
         (subscriptions : list (list (string * pyval))) (calls : list pyval)
  : option pages_result :=
  match fuel with
  | O => None
  | S fuel' =>
      match page_turn token subscriptions with
      | Exc e => Some (PageFailed e (calls ++ [token]))
      | Ok (subscriptions', next_page_token) =>
          if truthy next_page_token
          then fetch_pages fuel' next_page_token subscriptions' (calls ++ [token])
          else Some (Collected subscriptions' (calls ++ [token]))
      end
  end.

(** [fetch_subscriptions]: the subscription file it leaves and the page
    tokens it requested. *)
Definition fetch_subscriptions (fuel : nat) (resume : bool) (subs_file : option csv_file)
  : option (option csv_file * list pyval) :=
  match resume, subs_file with
  | true, Some _ => Some (subs_file, [])
  | _, _ =>
      match fetch_pages fuel PNone [] [] with
      | None => None
      | Some (PageFailed _ calls) => Some (subs_file, calls)
      | Some (Collected subscriptions calls) =>
          Some (Some (CsvText (dataframe_of_records subscriptions)), calls)
      end
  end.

(** The pages served from [token] on hold [items], in [k] requests: each
    answer is a dictionary with iterable [items], and the last one has
    no next token. *)
Inductive served (token : pyval) : list pyval -> nat -> Prop :=
| served_last (response next : pyval) (items : list pyval) :
    youtube_list token = Ok response ->
    (i <- getitem_str response "items" ;; py_iter i) = Ok items ->
    dict_get response "nextPageToken" = Ok next ->
    truthy next = false ->
    served token items 1
| served_more (response next : pyval) (items items' : list pyval) (k : nat) :
    youtube_list token = Ok response ->
    (i <- getitem_str response "items" ;; py_iter i) = Ok items ->
    dict_get response "nextPageToken" = Ok next ->
    truthy next = true ->
    served next items' k ->
    served token (items ++ items') (S k).

(** The [k]-th request from [token] on fails, after [k - 1] turns that
    went well. *)
Inductive breaks (token : pyval) (subscriptions : list (list (string * pyval)))
  : nat -> Prop :=
| breaks_here (e : exn) :
    page_turn token subscriptions = Exc e ->
    breaks token subscriptions 1
| breaks_later (subscriptions' : list (list (string * pyval))) (next : pyval) (k : nat) :
    page_turn token subscriptions = Ok (subscriptions', next) ->
    truthy next = true ->
    breaks next subscriptions' k ->
    breaks token subscriptions (S k).

End SubsFetcher.

(** A service with three subscriptions on two pages, and one whose
    second page fails. *)
Definition sample_item (channel_id title : string) : pyval :=
  PDict [("snippet",
          PDict [("title", PStr title);
                 ("resourceId", PDict [("channelId", PStr channel_id)])])].

Definition sample_youtube (token : pyval) : py pyval :=
  match token with
  | PNone =>
      Ok (PDict [("items", PList [sample_item "UC_a" "A"; sample_item "UC_b" "B"]);
                 ("nextPageToken", PStr "page2")])
  | PStr "page2" => Ok (PDict [("items", PList [sample_item "UC_down" "D"])])
  | _ => Exc RequestException
  end.

Definition broken_youtube (token : pyval) : py pyval :=
  match token with
  | PNone =>
      Ok (PDict [("items", PList [sample_item "UC_a" "A"; sample_item "UC_b" "B"]);
                 ("nextPageToken", PStr "page2")])
  | _ => Exc RequestException
  end.

Definition sample_clock (n : nat) : string :=
  match n with
  | 0 => "2024-01-01T00:00:00"
  | 1 => "2024-01-01T00:00:01"
  | _ => "2024-01-01T00:00:02"
  end.

(** ** YouTubeAuth *)

Module YouTubeAuth.

(** What the program reads of a [Credentials] object. *)
Record Credentials : Type := mk_credentials {
  valid : bool;
  expired : bool;
  refresh_token : pyval
}.

(** The content of the token file: the credentials last saved by
    [_save_token], or something else. *)
Inductive token_text : Type :=
| SavedToken (creds : Credentials)
| OtherToken (bytes : string).

(** The token file and the credentials file, taken to be two distinct
    paths. *)
Record auth_files : Type := mk_auth_files {
  token_file : option token_text;
  credentials_file : option string
}.

(** The exceptions [get_credentials] raises. *)
Inductive failure : Type :=
| CredentialsFileNotFound
| AuthenticationFailed (cause : exn).

Section GetCredentials.

(** [Credentials.from_authorized_user_file(token_file, SCOPES)] *)
Variable from_authorized_user_file : token_text -> py Credentials.

(** [creds.refresh(Request())]: the credentials after the refresh. *)
Variable refresh : Credentials -> py Credentials.

(** [InstalledAppFlow.from_client_secrets_file(...).run_local_server(port=0)] *)
Variable run_local_server : string -> py Credentials.

(** [_save_token]: its own exceptions are caught and logged; the write
    is taken to succeed. *)
Definition _save_token (creds : Credentials) (fs : auth_files) : auth_files :=
  mk_auth_files (Some (SavedToken creds)) (credentials_file fs).

(** The first step: the credentials loaded from the token file, if any;
    a token file that fails to load is removed. *)
Definition load_token (fs : auth_files) : option Credentials * auth_files :=
  match token_file fs with
  | Some t =>
      match from_authorized_user_file t with
      | Ok creds => (Some creds, fs)
      | Exc _ => (None, mk_auth_files None (credentials_file fs))
      end
  | None => (None, fs)
  end.

(** The refresh of credentials that are expired and have a refresh
    token; other credentials are left as they are. *)
Definition try_refresh (creds : option Credentials) (fs : auth_files)
  : option Credentials * auth_files :=
  match creds with
  | Some c =>
      if expired c && truthy (refresh_token c)
      then match refresh c with
           | Ok c' => (Some c', _save_token c' fs)
           | Exc _ => (None, fs)
           end
      else (creds, fs)
  | None => (None, fs)
  end.

Definition get_credentials (fs : auth_files) : (Credentials + failure) * auth_files :=
  let (creds, fs1) := load_token fs in
  if match creds with
     | Some c => negb (valid c)
     | None => true
     end
  then
    let (creds2, fs2) := try_refresh creds fs1 in
    match creds2 with
    | Some c => (inl c, fs2)
    | None =>
        match credentials_file fs2 with
        | None => (inr CredentialsFileNotFound, fs2)
        | Some secrets =>
            match run_local_server secrets with
            | Ok c => (inl c, _save_token c fs2)
            | Exc e => (inr (AuthenticationFailed e), fs2)
            end
        end
    end
  else
    match creds with
    | Some c => (inl c, fs1)
    | None => (inr CredentialsFileNotFound, fs1)
    end.

End GetCredentials.

End YouTubeAuth.

(** ** Further notions *)

(** [s.startswith(p)] *)
Fixpoint starts_with (p s : string) : bool :=
  match p, s with
  | EmptyString, _ => true
  | String a p', String b s' => Ascii.eqb a b && starts_with p' s'
  | _, _ => false
  end.

(** The column is one of those the merge writes. *)
Definition enrichment_column (col : string) : bool :=
  starts_with "socialblade_" col.

(** ** Further sample data *)

(** A service on which every profile page and every video list is
    served, the video list being empty. *)
Definition quiet_http (r : request) : py response :=
  match r with
  | ProfilePage _ => Ok (mk_response 200 sample_page (Exc JSONDecodeError))
  | VideoList _ => Ok (mk_response 200 empty_page (Ok (PList [])))
  end.

(** Files whose enriched file cannot be read, and files whose enriched
    file lacks the [fetch_date] column. *)
Definition unreadable_enriched : files :=
  mk_files (Some (CsvText sample_table)) (Some (CsvRaw "garbled")) None.

Definition narrow_enriched : files :=
  mk_files (Some (CsvText sample_table))
           (Some (CsvText (mk_df ["channel_id"; "channel_title"]
                                 [[("channel_id", PStr "UC_a"); ("channel_title", PStr "A")]])))
           None.

(** Files whose input table has no [channel_id] column. *)
Definition titles_only : files :=
  mk_files (Some (CsvText (mk_df ["channel_title"] [[("channel_title", PStr "A")]])))
           None None.

(** Token files are loaded when they were saved by the program; the
    refresh and the interactive flow succeed. *)
Definition sample_loader (t : YouTubeAuth.token_text) : py YouTubeAuth.Credentials :=
  match t with
  | YouTubeAuth.SavedToken c => Ok c
  | YouTubeAuth.OtherToken _ => Exc ValueError
  end.

Definition sample_refresh (c : YouTubeAuth.Credentials) : py YouTubeAuth.Credentials :=
  Ok (YouTubeAuth.mk_credentials true false (YouTubeAuth.refresh_token c)).

Definition sample_flow (secrets : string) : py YouTubeAuth.Credentials :=
  Ok (YouTubeAuth.mk_credentials true false (PStr "refresh-1")).


(** Credentials that are neither valid nor expired. *)
Definition stale_credentials : YouTubeAuth.Credentials :=
  YouTubeAuth.mk_credentials false false (PStr "refresh-0").

Definition stale_token : YouTubeAuth.auth_files :=
  YouTubeAuth.mk_auth_files (Some (YouTubeAuth.SavedToken stale_credentials)) (Some "secrets").

(** The record of a subscription, stamped with the [n]-th reading of
    the sample clock. *)
Definition sample_subscription (channel_id title : string) (n : nat)
  : list (string * pyval) :=
  [("channel_id", PStr channel_id);
   ("channel_title", PStr title);
   ("social_blade_url", PStr ("https://socialblade.com/youtube/channel/" ++ channel_id)%string);
   ("youtube_url", PStr ("https://youtube.com/channel/" ++ channel_id)%string);
   ("fetch_date", PStr (sample_clock n))].

(** Credentials that are expired and can be refreshed. *)
Definition expired_credentials : YouTubeAuth.Credentials :=
  YouTubeAuth.mk_credentials false true (PStr "refresh-0").

Definition expired_token : YouTubeAuth.auth_files :=
  YouTubeAuth.mk_auth_files (Some (YouTubeAuth.SavedToken expired_credentials))
                            (Some "secrets").

(** The state in which a run on the sample data is cut after [k]
    actions, the two flushes of the handler done. *)
Definition sample_cut (k : nat) : state := on_interrupt (sample_point k).

(** The identifiers of the three sample subjects. *)
Definition sample_all : list pyval := [PStr "UC_a"; PStr "UC_b"; PStr "UC_down"].

(** The actions an outcome records and the files it leaves. *)
Definition outcome_trace (o : outcome) : list action :=
  match o with
  | Done st | Interrupted st => trace st
  | Failed _ _ tr => tr
  end.

Definition outcome_files (o : outcome) : files :=
  match o with
  | Done st | Interrupted st => disk st
  | Failed _ d _ => d
  end.



(** A table whose first subject is refused and whose last subject is
    served, and the first run of the command on it. *)
Definition retry_table : DataFrame :=
  mk_df base_columns [sample_row "UC_down" "D"; sample_row "UC_a" "A"].

Definition retry_files : files :=
  mk_files (Some (CsvText retry_table)) None None.




(** The state in which the first run on [retry_table] ends. *)
Definition retry_done : state :=
  flow_state (try_block basic_select plain_dumps sample_http
                        (mk_state (replace (PStr "--") PNone
                                           (replace PNaN PNone retry_table))
                                  [] retry_files [])
                        None).

(** The enriched file reads as a table with more than five columns
    whose last row ends with a value that is not null. *)
Definition looks_complete (pd_read_csv : csv_file -> py DataFrame) (f : csv_file) : Prop :=
  exists table v,
    read_csv_pandas pd_read_csv f = Some table
    /\ last_row_last_value table = Ok v
    /\ v <> PNone
    /\ 5 < List.length (columns table).

(** When the enriched file exists, the command declares the enhancement
    completed if the file looks complete, and otherwise proceeds with
    the pipeline. *)
Definition heuristic_decides : Prop :=
  forall css_select json_dumps http pd_read_csv pd_merge d resume signal f,
    enhanced_file d = Some f ->
    (looks_complete pd_read_csv f ->
     enhance css_select json_dumps http pd_read_csv pd_merge d resume signal
     = AlreadyCompleted)
    /\ (~ looks_complete pd_read_csv f ->
        enhance css_select json_dumps http pd_read_csv pd_merge d resume signal
        = Ran (enhance_data css_select json_dumps http pd_read_csv pd_merge
                            d resume signal)).

(** A selector engine that, besides the fragment of [basic_select],
    resolves the growth locator of a daily block to the [span] elements
    below the block; a block whose growth element is empty, and a page
    of 22 such blocks. *)
Definition growth_select (root : node) (selector : string) : py (list node) :=
  if (selector =? "div:nth-child(3) div:nth-child(1) span")%string
  then Ok (filter (is_tag "span") (descendants root))
  else basic_select root selector.

Definition growth_block (label : string) : node :=
  Tag "div" []
    [Tag "div" [] [NavigableString label];
     Tag "div" [] [NavigableString "Mon"];
     Tag "div" [] [Tag "div" [] [Tag "span" [] []]]].

Definition growth_page : node :=
  Tag "[document]" []
    [Tag "div" [("id", "socialblade-user-content")] (map growth_block sample_labels)].

(** * Properties *)

(** ** Values and sets *)

Lemma pyval_eqb_eq : forall a b : pyval, pyval_eqb a b = true -> a = b.
Proof.
  fix IH 1.
  intros a b; destruct a as [| |x|x|m1 e1|x|l1|d1];
    destruct b as [| |y|y|m2 e2|y|l2|d2]; simpl; intro H; try discriminate H.
  - reflexivity.
  - reflexivity.
  - apply Bool.eqb_prop in H. now subst.
  - apply Z.eqb_eq in H. now subst.
  - apply andb_prop in H. destruct H as [H1 H2].
    apply Z.eqb_eq in H1. apply Z.eqb_eq in H2. now subst.
  - apply String.eqb_eq in H. now subst.
  - f_equal. revert l2 H.
    induction l1 as [|x l1 IHl]; intros [|y l2] H; try discriminate H.
    + reflexivity.
    + apply andb_prop in H. destruct H as [H1 H2].
      f_equal; [apply IH; exact H1 | apply IHl; exact H2].
  - f_equal. revert d2 H.
    induction d1 as [|[k1 x] d1 IHd]; intros [|[k2 y] d2] H; try discriminate H.
    + reflexivity.
    + apply andb_prop in H. destruct H as [H12 H3].
      apply andb_prop in H12. destruct H12 as [H1 H2].
      apply String.eqb_eq in H1. subst k2.
      f_equal; [f_equal; apply IH; exact H2 | apply IHd; exact H3].
Qed.

Lemma pyval_eqb_refl : forall a : pyval, pyval_eqb a a = true.
Proof.
  fix IH 1.
  intros a; destruct a as [| |x|x|m1 e1|x|l1|d1]; simpl.
  - reflexivity.
  - reflexivity.
  - apply Bool.eqb_reflx.
  - apply Z.eqb_refl.
  - now rewrite !Z.eqb_refl.
  - apply String.eqb_refl.
  - induction l1 as [|x l1 IHl]; [reflexivity|].
    now rewrite IH, IHl.
  - induction d1 as [|[k1 x] d1 IHd]; [reflexivity|].
    now rewrite String.eqb_refl, IH, IHd.
Qed.

Lemma mem_In (x : pyval) (s : list pyval) : mem x s = true <-> In x s.
Proof.
  unfold mem. rewrite existsb_exists. split.
  - intros [y [Hy E]]. apply pyval_eqb_eq in E. now subst.
  - intros H. exists x. split; [exact H | apply pyval_eqb_refl].
Qed.

Lemma mem_false_not_In (x : pyval) (s : list pyval) : mem x s = false <-> ~ In x s.
Proof.
  rewrite <- mem_In. destruct (mem x s); split; congruence.
Qed.

Lemma In_set_add (x y : pyval) (s : list pyval) :
  In y (set_add x s) <-> y = x \/ In y s.
Proof.
  unfold set_add. destruct (mem x s) eqn:E.
  - apply mem_In in E. split; [auto | intros [->|H]; assumption].
  - rewrite in_app_iff. simpl. intuition congruence.
Qed.

(** ** The scraper *)

Lemma try_except_default {A : Type} (body : py A) (d : A) :
  try_except body (fun _ => Ok d) = Ok (value_of body d).
Proof. destruct body; reflexivity. Qed.

Lemma mapM_pure {A B : Type} (f : A -> py B) (g : A -> B) (l : list A) :
  (forall a, f a = Ok (g a)) -> mapM f l = Ok (map g l).
Proof.
  intros H. induction l as [|a l IH]; simpl.
  - reflexivity.
  - now rewrite H, IH.
Qed.

Section ScraperProperties.

Variable css_select : node -> string -> py (list node).
Variable json_dumps : pyval -> string.
Variable http : request -> py response.

Lemma get_text_value soup selector attr call_firstChild :
  _get_text css_select soup selector attr call_firstChild
  = Ok (text_at css_select soup selector attr call_firstChild).
Proof.
  unfold text_at. unfold _get_text at 1 2. rewrite try_except_default. reflexivity.
Qed.

Lemma get_first_text_value element selector :
  exists s, _get_first_text css_select element selector = Ok s.
Proof. unfold _get_first_text. rewrite try_except_default. eauto. Qed.

Lemma get_text_unavailable soup selector attr call_firstChild :
  unavailable css_select soup selector attr call_firstChild ->
  _get_text css_select soup selector attr call_firstChild = Ok "N/A".
Proof.
  intros H. unfold _get_text.
  destruct H as [H|e H|H|tag a attrs cs H Ha Hne Hassoc|tag attrs H Ha Hc|s H Hm].
  - subst soup. reflexivity.
  - now rewrite H.
  - now rewrite H.
  - rewrite H. subst attr. simpl.
    destruct (a =? EmptyString) eqn:E.
    + apply String.eqb_eq in E. contradiction.
    + simpl. now rewrite Hassoc.
  - rewrite H. simpl. rewrite Ha. subst call_firstChild. reflexivity.
  - rewrite H. simpl. destruct (negb (negb (s =? EmptyString))); [reflexivity|].
    destruct Hm as [Hm|Hm]; rewrite Hm; [reflexivity|].
    destruct (attr_given attr); reflexivity.
Qed.

Lemma get_first_text_unavailable element selector :
  first_text_unavailable css_select element selector ->
  _get_first_text css_select element selector = Ok "N/A".
Proof.
  intros H. unfold _get_first_text.
  destruct H as [H|e H|H|el H Hs|s H].
  - subst element. reflexivity.
  - now rewrite H.
  - now rewrite H.
  - rewrite H. simpl. destruct (negb (node_truthy el)); [reflexivity|].
    now rewrite Hs.
  - rewrite H. simpl. destruct (negb (negb (s =? EmptyString))); reflexivity.
Qed.

(** C5.  The field extractor is total: [_get_text] and
    [_get_first_text] return a string for every document, selector and
    mode, and never raise; when no element matches, when the requested
    attribute or the first child is absent, or when a step of the
    extraction fails, the string is the sentinel ["N/A"]. *)
Theorem field_extractor_total :
  forall soup selector attr call_firstChild,
    (exists s, _get_text css_select soup selector attr call_firstChild = Ok s)
    /\ (exists s, _get_first_text css_select soup selector = Ok s)
    /\ (unavailable css_select soup selector attr call_firstChild ->
        _get_text css_select soup selector attr call_firstChild = Ok "N/A")
    /\ (first_text_unavailable css_select soup selector ->
        _get_first_text css_select soup selector = Ok "N/A").
Proof.
  intros soup selector attr call_firstChild. repeat split.
  - rewrite get_text_value. eauto.
  - apply get_first_text_value.
  - apply get_text_unavailable.
  - apply get_first_text_unavailable.
Qed.

Lemma daily_stat_value element :
  daily_stat css_select element = Ok (daily_record css_select element).
Proof.
  unfold daily_stat, daily_record. rewrite !get_text_value. reflexivity.
Qed.

(** C9.  The recent daily stats are the blocks [all_divs[6:20]] of the
    container, each mapped to one [DailyStats], in document order: at
    most 14 entries; when the selection of the blocks raises, the
    result is the empty list; the extraction itself never raises. *)
Theorem recent_daily_stats_window :
  forall soup,
    (forall all_divs,
        select css_select soup "#socialblade-user-content > div" = Ok all_divs ->
        _extract_recent_daily_stats css_select soup
        = Ok (map (daily_record css_select) (firstn 14 (skipn 6 all_divs))))
    /\ (forall e,
           select css_select soup "#socialblade-user-content > div" = Exc e ->
           _extract_recent_daily_stats css_select soup = Ok [])
    /\ (exists l, _extract_recent_daily_stats css_select soup = Ok l
                  /\ List.length l <= 14).
Proof.
  intros soup.
  assert (Hok : forall all_divs,
             select css_select soup "#socialblade-user-content > div" = Ok all_divs ->
             _extract_recent_daily_stats css_select soup
             = Ok (map (daily_record css_select) (firstn 14 (skipn 6 all_divs)))).
  { intros all_divs H. unfold _extract_recent_daily_stats. rewrite H. simpl.
    unfold slice_6_20. rewrite (mapM_pure _ _ _ daily_stat_value). reflexivity. }
  assert (Hexc : forall e,
             select css_select soup "#socialblade-user-content > div" = Exc e ->
             _extract_recent_daily_stats css_select soup = Ok []).
  { intros e H. unfold _extract_recent_daily_stats. now rewrite H. }
  split; [exact Hok|]. split; [exact Hexc|].
  destruct (select css_select soup "#socialblade-user-content > div") as [all_divs|e] eqn:E.
  - eexists. split; [apply Hok; reflexivity|].
    rewrite length_map. apply firstn_le_length.
  - exists []. split; [apply (Hexc e); reflexivity | simpl; lia].
Qed.

End ScraperProperties.

Section FetchLemmas.

Variable css_select : node -> string -> py (list node).
Variable json_dumps : pyval -> string.
Variable http : request -> py response.

Lemma fetch_video_stats_value channel_id log :
  fetch_video_stats http channel_id log
  = (Ok (video_result http channel_id), log ++ [VideoList channel_id]).
Proof.
  unfold video_result, fetch_video_stats, net_try, net_bind, send, net_lift, net_ret.
  simpl. destruct (http (VideoList channel_id)) as [r|e]; simpl; [|reflexivity].
  destruct (negb (status_code r =? 200)%Z); simpl; [reflexivity|].
  destruct (json r) as [v|e]; simpl; [|reflexivity].
  destruct (if truthy v then _ else _); reflexivity.
Qed.


Lemma profile_stats_value page :
  profile_stats css_select (Some page) = Ok (profile_record css_select page).
Proof.
  unfold profile_stats. rewrite !get_text_value. reflexivity.
Qed.

Lemma extract_recent_total soup :
  exists l, _extract_recent_daily_stats css_select soup = Ok l.
Proof. unfold _extract_recent_daily_stats. rewrite try_except_default. eauto. Qed.

Lemma extract_daily_average_total soup :
  exists a, _extract_daily_average css_select soup = Ok a.
Proof. unfold _extract_daily_average. rewrite try_except_default. eauto. Qed.

Lemma extract_average_total soup period :
  exists a, _extract_average css_select soup period = Ok a.
Proof. unfold _extract_average. rewrite try_except_default. eauto. Qed.

Lemma fetch_served channel_id log r :
  http (ProfilePage channel_id) = Ok r -> status_code r = 200%Z ->
  fetch_channel_stats css_select json_dumps http channel_id log
  = (Ok (Some (fetched css_select json_dumps http channel_id (html r))),
     log ++ [ProfilePage channel_id; VideoList channel_id]).
Proof.
  intros H Hs. apply Z.eqb_eq in Hs.
  unfold fetched, page_stats.
  unfold fetch_channel_stats, net_try, net_bind, send, net_lift, net_ret.
  rewrite H, Hs. simpl. rewrite profile_stats_value, fetch_video_stats_value.
  destruct (extract_recent_total (Some (html r))) as [l ->].
  destruct (extract_daily_average_total (Some (html r))) as [d ->].
  destruct (extract_average_total (Some (html r)) "weekly") as [w ->].
  destruct (extract_average_total (Some (html r)) "monthly") as [m ->].
  rewrite <- app_assoc. simpl.
  destruct (video_result http channel_id) as [[dt v]|]; reflexivity.
Qed.

Lemma fetch_refused channel_id log r :
  http (ProfilePage channel_id) = Ok r -> status_code r <> 200%Z ->
  fetch_channel_stats css_select json_dumps http channel_id log
  = (Ok None, log ++ [ProfilePage channel_id]).
Proof.
  intros H Hs. apply Z.eqb_neq in Hs.
  unfold fetch_channel_stats, net_try, net_bind, send, net_lift, net_ret.
  now rewrite H, Hs.
Qed.

Lemma fetch_unreachable channel_id log e :
  http (ProfilePage channel_id) = Exc e ->
  fetch_channel_stats css_select json_dumps http channel_id log
  = (Ok None, log ++ [ProfilePage channel_id]).
Proof.
  intros H.
  unfold fetch_channel_stats, net_try, net_bind, send, net_lift, net_ret.
  now rewrite H.
Qed.

Lemma fetch_success_served channel_id log log' s :
  fetch_channel_stats css_select json_dumps http channel_id log = (Ok (Some s), log') ->
  exists r,
    http (ProfilePage channel_id) = Ok r /\ status_code r = 200%Z
    /\ s = fetched css_select json_dumps http channel_id (html r).
Proof.
  intros H. destruct (http (ProfilePage channel_id)) as [r|e] eqn:E.
  - destruct (Z.eq_dec (status_code r) 200) as [Hs|Hs].
    + rewrite (fetch_served _ _ _ E Hs) in H. exists r. repeat split; congruence.
    + rewrite (fetch_refused _ _ _ E Hs) in H. discriminate H.
  - rewrite (fetch_unreachable _ _ _ E) in H. discriminate H.
Qed.

Lemma fetch_never_raises channel_id log :
  exists result sent,
    fetch_channel_stats css_select json_dumps http channel_id log
    = (Ok result, log ++ sent).
Proof.
  destruct (http (ProfilePage channel_id)) as [r|e] eqn:E.
  - destruct (Z.eq_dec (status_code r) 200) as [Hs|Hs].
    + rewrite (fetch_served _ _ _ E Hs). eauto.
    + rewrite (fetch_refused _ _ _ E Hs). eauto.
  - rewrite (fetch_unreachable _ _ _ E). eauto.
Qed.

Lemma fetched_profile_entries channel_id page :
  firstn 15 (stats_dict json_dumps (fetched css_select json_dumps http channel_id page))
  = profile_entries css_select page.
Proof.
  unfold fetched. destruct (video_result http channel_id) as [[d v]|]; reflexivity.
Qed.


End FetchLemmas.

Section FetchProperties.

Variable css_select : node -> string -> py (list node).
Variable json_dumps : pyval -> string.
Variable http : request -> py response.

(** C6 (amended).  For every successful fetch the fifteen profile
    attributes are strings, each the text extracted at its locator or
    the sentinel, and [recent_daily_stats_json] is a list; when the
    video list is omitted, [last_video_upload_date] is the sentinel. *)
Theorem profile_attributes_never_null :
  forall channel_id log log' s,
    fetch_channel_stats css_select json_dumps http channel_id log = (Ok (Some s), log') ->
    (exists r,
        http (ProfilePage channel_id) = Ok r
        /\ firstn 15 (stats_dict json_dumps s) = profile_entries css_select (html r))
    /\ (forall attribute value,
           In (attribute, value) (firstn 15 (stats_dict json_dumps s)) ->
           exists text, value = PStr text)
    /\ (exists l, SocialBladeStats.recent_daily_stats_json s = Some l)
    /\ (SocialBladeStats.last_50_videos_stats_json s = None ->
        SocialBladeStats.last_video_upload_date s = PStr "N/A").
Proof.
  intros channel_id log log' s H.
  destruct (fetch_success_served _ _ _ _ _ _ _ H) as [r [E [Hs ->]]].
  repeat split.
  - exists r. split; [exact E | apply fetched_profile_entries].
  - intros attribute value Hin. rewrite fetched_profile_entries in Hin.
    unfold profile_entries in Hin. apply in_map_iff in Hin.
    destruct Hin as [[a [[sel at'] fc]] [Heq _]]. inversion Heq. eauto.
  - unfold fetched. destruct (video_result http channel_id) as [[d v]|]; simpl; eauto.
  - unfold fetched. destruct (video_result http channel_id) as [[d v]|]; simpl.
    + discriminate.
    + reflexivity.
Qed.


End FetchProperties.

(** ** Tables *)

Lemma assoc_set_same {A : Type} (k : string) (v : A) (d : list (string * A)) :
  assoc k (assoc_set k v d) = Some v.
Proof.
  induction d as [|[k' x] d IH]; simpl.
  - now rewrite String.eqb_refl.
  - destruct (k' =? k) eqn:E; simpl.
    + now rewrite String.eqb_refl.
    + now rewrite E.
Qed.

Lemma assoc_set_other {A : Type} (k k' : string) (v : A) (d : list (string * A)) :
  k' <> k -> assoc k' (assoc_set k v d) = assoc k' d.
Proof.
  intros Hne. induction d as [|[k0 x] d IH]; simpl.
  - destruct (k =? k') eqn:E; [apply String.eqb_eq in E; congruence | reflexivity].
  - destruct (k0 =? k) eqn:E; simpl.
    + apply String.eqb_eq in E. subst k0.
      destruct (k =? k') eqn:E'; [apply String.eqb_eq in E'; congruence | reflexivity].
    + destruct (k0 =? k'); [reflexivity | exact IH].
Qed.

Lemma update_nth_length {A : Type} (n : nat) (f : A -> A) (l : list A) :
  List.length (update_nth n f l) = List.length l.
Proof.
  revert n. induction l as [|x l IH]; intros [|n]; simpl; auto.
Qed.

Lemma nth_error_update_nth_same {A : Type} (n : nat) (f : A -> A) (l : list A) (x : A) :
  nth_error l n = Some x -> nth_error (update_nth n f l) n = Some (f x).
Proof.
  revert n. induction l as [|y l IH]; intros [|n]; simpl; intros H;
    try discriminate H.
  - now inversion H.
  - now apply IH.
Qed.

Lemma nth_error_update_nth_other {A : Type} (n m : nat) (f : A -> A) (l : list A) :
  n <> m -> nth_error (update_nth n f l) m = nth_error l m.
Proof.
  revert n m. induction l as [|y l IH]; intros [|n] [|m] H; simpl; auto.
  - congruence.
Qed.


Lemma iterrows_In (t : DataFrame) (idx : nat) (row : list (string * pyval)) :
  In (idx, row) (iterrows t) <-> nth_error (rows t) idx = Some row.
Proof.
  unfold iterrows. generalize (rows t) as l. intros l.
  assert (G : forall start, In (idx, row) (combine (seq start (List.length l)) l)
                            <-> start <= idx /\ nth_error l (idx - start) = Some row).
  { induction l as [|x l IH]; intros start; simpl.
    - split; [tauto|]. intros [_ H]. destruct (idx - start); discriminate H.
    - rewrite IH. split.
      + intros [H|[H1 H2]].
        * inversion H. subst. rewrite Nat.sub_diag. split; [lia | reflexivity].
        * split; [lia|]. replace (idx - start) with (S (idx - S start)) by lia.
          exact H2.
      + intros [H1 H2]. destruct (idx - start) as [|n] eqn:E.
        * left. inversion H2. f_equal. lia.
        * right. split; [lia|]. replace (idx - S start) with n by lia. exact H2. }
  rewrite G. rewrite Nat.sub_0_r. intuition lia.
Qed.

(** ** Execution of actions *)

Lemma run_app (a b : list action) (st : state) : run (a ++ b) st = run b (run a st).
Proof. unfold run. apply fold_left_app. Qed.

Lemma exec_cases (acts : list action) (st : state) (signal : option nat) :
  (exists signal', exec acts st signal = Normal (run acts st) signal')
  \/ (exists k, k < List.length acts
                /\ signal = Some k
                /\ exec acts st signal = Interrupt (run (firstn k acts) st)).
Proof.
  revert st signal. induction acts as [|a acts IH]; intros st signal; simpl.
  - left. eauto.
  - destruct signal as [[|k]|].
    + right. exists 0. repeat split. lia.
    + destruct (IH (apply a st) (Some k)) as [[s' H]|[k' [Hk [Hs H]]]].
      * left. eauto.
      * right. exists (S k'). inversion Hs. subst k'. repeat split; [lia | exact H].
    + destruct (IH (apply a st) None) as [[s' H]|[k' [Hk [Hs H]]]].
      * left. eauto.
      * discriminate Hs.
Qed.

Lemma exec_never_raises (acts : list action) (st : state) (signal : option nat)
      (e : exn) (st' : state) :
  exec acts st signal <> Raise e st'.
Proof.
  destruct (exec_cases acts st signal) as [[s' H]|[k [_ [_ H]]]]; rewrite H; discriminate.
Qed.

Lemma exec_at_every_point (P : state -> Prop) (acts : list action) (st : state)
      (signal : option nat) :
  at_every_point P acts st -> P (flow_state (exec acts st signal)).
Proof.
  intros H. destruct (exec_cases acts st signal) as [[s' E]|[k [_ [_ E]]]];
    rewrite E; simpl.
  - rewrite <- (firstn_all acts). apply H.
  - apply H.
Qed.

Lemma exec_unsignalled (acts : list action) (st st' : state) (signal signal' : option nat) :
  exec acts st signal = Normal st' signal' -> exec acts st None = Normal st' None.
Proof.
  revert st signal. induction acts as [|a acts IH]; intros st signal; simpl.
  - intros H. inversion H. reflexivity.
  - destruct signal as [[|k]|]; intros H.
    + discriminate H.
    + exact (IH _ _ H).
    + exact (IH _ _ H).
Qed.

Lemma at_every_point_nil (P : state -> Prop) (st : state) :
  P st -> at_every_point P [] st.
Proof. intros H k. now rewrite firstn_nil. Qed.

Lemma at_every_point_cons (P : state -> Prop) (a : action) (acts : list action)
      (st : state) :
  P st -> at_every_point P acts (apply a st) -> at_every_point P (a :: acts) st.
Proof.
  intros H0 H [|k]; simpl.
  - exact H0.
  - apply H.
Qed.

Lemma at_every_point_app (P : state -> Prop) (a b : list action) (st : state) :
  at_every_point P a st -> at_every_point P b (run a st) ->
  at_every_point P (a ++ b) st.
Proof.
  intros Ha Hb k. rewrite firstn_app, run_app.
  destruct (Nat.le_gt_cases (List.length a) k) as [Hk|Hk].
  - rewrite (firstn_all2 a) by exact Hk. apply Hb.
  - replace (k - List.length a) with 0 by lia. simpl. apply Ha.
Qed.


Lemma at_every_point_end (P : state -> Prop) (acts : list action) (st : state) :
  at_every_point P acts st -> P (run acts st).
Proof. intros H. rewrite <- (firstn_all acts). apply H. Qed.

Lemma at_every_point_each (P : state -> Prop) (acts : list action) (st : state) :
  (forall a s, In a acts -> P s -> P (apply a s)) -> P st -> at_every_point P acts st.
Proof.
  revert st. induction acts as [|a acts IH]; intros st Hstep H.
  - now apply at_every_point_nil.
  - apply at_every_point_cons; [exact H|]. apply IH.
    + intros a' s Ha'. apply Hstep. now right.
    + apply Hstep; [now left | exact H].
Qed.

Lemma at_every_point_stable (P : state -> Prop) (acts : list action) (st : state) :
  (forall a s, P s -> P (apply a s)) -> P st -> at_every_point P acts st.
Proof.
  intros Hstep. revert st. induction acts as [|a acts IH]; intros st H.
  - now apply at_every_point_nil.
  - apply at_every_point_cons; [exact H | apply IH, Hstep, H].
Qed.

(** ** The enrichment loop *)

Section LoopLemmas.

Variable css_select : node -> string -> py (list node).
Variable json_dumps : pyval -> string.
Variable http : request -> py response.

Local Notation body := (loop_body css_select json_dumps http).
Local Notation scraped := (scrape css_select json_dumps http).
Local Notation entries_of := (stats_dict json_dumps).

Lemma loop_body_skip idx c processed :
  mem c processed = true -> body idx c processed = [].
Proof. intros H. unfold loop_body. now rewrite H. Qed.

Lemma loop_body_failure idx c processed sent :
  mem c processed = false -> scraped c = (None, sent) ->
  body idx c processed = [Fetch c sent] ++ flush_at idx.
Proof. intros H E. unfold loop_body. now rewrite H, E. Qed.

Lemma loop_body_success idx c processed s sent :
  mem c processed = false -> scraped c = (Some s, sent) ->
  body idx c processed
  = [Fetch c sent]
      ++ (merge_actions idx (entries_of s) ++ [AddProcessed c; SaveProgress])
      ++ flush_at idx.
Proof. intros H E. unfold loop_body. now rewrite H, E. Qed.

Lemma turn_cases table idx row st signal :
  (exists e, turn css_select json_dumps http table idx row st signal = Raise e st)
  \/ (exists c,
         row_channel_id table row = Ok c
         /\ turn css_select json_dumps http table idx row st signal
            = exec (body idx c (processed_channels st)) st signal).
Proof.
  unfold turn. destruct (row_channel_id table row) as [c|e]; [|left; eauto].
  destruct (mem c (processed_channels st)) eqn:M.
  - right. exists c. split; [reflexivity|]. now rewrite loop_body_skip.
  - destruct (row_channel_title table row) as [t|e]; [|left; eauto].
    right. eauto.
Qed.

Lemma iterate_at_every_point (P : state -> Prop) table its st signal :
  (forall idx row c s,
      In (idx, row) its -> row_channel_id table row = Ok c -> P s ->
      at_every_point P (body idx c (processed_channels s)) s) ->
  P st ->
  P (flow_state (iterate css_select json_dumps http table its st signal)).
Proof.
  revert st signal. induction its as [|[idx row] its IH]; intros st signal Hbody H.
  - exact H.
  - simpl. destruct (turn_cases table idx row st signal) as [[e Ht]|[c [E Ht]]];
      rewrite Ht; [exact H|].
    assert (Hp := exec_at_every_point P _ st signal
                    (Hbody idx row c st (or_introl eq_refl) E H)).
    destruct (exec (body idx c (processed_channels st)) st signal)
      as [st' signal'|st'|e st'] eqn:Ex; simpl in Hp.
    + apply IH; [|exact Hp].
      intros idx' row' c' s Hin. apply Hbody. now right.
    + exact Hp.
    + exact Hp.
Qed.

Lemma try_block_at_every_point (P : state -> Prop) st signal :
  (forall idx row c s,
      In (idx, row) (iterrows (df st)) -> row_channel_id (df st) row = Ok c -> P s ->
      at_every_point P (body idx c (processed_channels s)) s) ->
  (forall a s, In a [ToCsv; RemoveProgress; LogCompleted] -> P s -> P (apply a s)) ->
  P st ->
  P (flow_state (try_block css_select json_dumps http st signal)).
Proof.
  intros Hbody Hfinal H. unfold try_block.
  assert (H1 := iterate_at_every_point P (df st) (iterrows (df st)) st signal Hbody H).
  destruct (iterate css_select json_dumps http (df st) (iterrows (df st)) st signal)
    as [st1 signal1|st1|e st1]; simpl in H1; [|exact H1|exact H1].
  assert (Hstable : forall acts s,
             (forall a, In a acts -> In a [ToCsv; RemoveProgress; LogCompleted]) ->
             P s -> at_every_point P acts s).
  { induction acts as [|a acts IHa]; intros s Hin Hs.
    - now apply at_every_point_nil.
    - apply at_every_point_cons; [exact Hs|].
      apply IHa; [intros a' Ha'; apply Hin; now right|].
      apply Hfinal; [apply Hin; now left | exact Hs]. }
  assert (H2 := exec_at_every_point P [ToCsv] st1 signal1).
  destruct (exec [ToCsv] st1 signal1) as [st2 signal2|st2|e st2] eqn:E2; simpl in H2.
  - apply exec_at_every_point. apply Hstable.
    + intros a Ha. apply in_app_or in Ha. destruct Ha as [Ha|Ha].
      * destruct (progress_file (disk st2)); simpl in Ha; [|contradiction].
        destruct Ha as [<-|[]]. simpl. auto.
      * destruct Ha as [<-|[]]. simpl. auto.
    + apply H2, Hstable; [|exact H1]. intros a [<-|[]]. simpl. auto.
  - apply H2, Hstable; [|exact H1]. intros a [<-|[]]. simpl. auto.
  - apply H2, Hstable; [|exact H1]. intros a [<-|[]]. simpl. auto.
Qed.

End LoopLemmas.

Lemma exec_normal_run (acts : list action) (st st' : state) (signal signal' : option nat) :
  exec acts st signal = Normal st' signal' -> st' = run acts st.
Proof.
  intros H. destruct (exec_cases acts st signal) as [[s' E]|[k [_ [_ E]]]];
    rewrite E in H; [now inversion H | discriminate H].
Qed.


(** *** The merge of one StatsResult *)

Lemma run_merge_frame (idx : nat) (entries : list (string * pyval)) (st : state) :
  processed_channels (run (merge_actions idx entries) st) = processed_channels st
  /\ disk (run (merge_actions idx entries) st) = disk st
  /\ List.length (rows (df (run (merge_actions idx entries) st)))
     = List.length (rows (df st))
  /\ forall j, j <> idx ->
               nth_error (rows (df (run (merge_actions idx entries) st))) j
               = nth_error (rows (df st)) j.
Proof.
  revert st. induction entries as [|[k v] entries IH]; intros st.
  - simpl. auto.
  - change (run (merge_actions idx ((k, v) :: entries)) st)
      with (run (merge_actions idx entries)
                (apply (SetCell idx ("socialblade_" ++ k) v) st)).
    destruct (IH (apply (SetCell idx ("socialblade_" ++ k) v) st))
      as [H1 [H2 [H3 H4]]].
    split; [|split; [|split]].
    + now rewrite H1.
    + now rewrite H2.
    + rewrite H3. simpl. apply update_nth_length.
    + intros j Hj. rewrite (H4 j Hj). simpl.
      apply nth_error_update_nth_other. congruence.
Qed.

Lemma firstn_merge_actions (k idx : nat) (entries : list (string * pyval)) :
  firstn k (merge_actions idx entries) = merge_actions idx (firstn k entries).
Proof. unfold merge_actions. apply firstn_map. Qed.

Lemma run_merge_row (idx : nat) (entries : list (string * pyval)) (st : state)
      (row : list (string * pyval)) :
  nth_error (rows (df st)) idx = Some row ->
  nth_error (rows (df (run (merge_actions idx entries) st))) idx
  = Some (fold_left (fun r kv => assoc_set ("socialblade_" ++ fst kv)%string (snd kv) r)
                    entries row).
Proof.
  revert st row. induction entries as [|[k v] entries IH]; intros st row H.
  - exact H.
  - change (run (merge_actions idx ((k, v) :: entries)) st)
      with (run (merge_actions idx entries)
                (apply (SetCell idx ("socialblade_" ++ k) v) st)).
    simpl fold_left. apply IH. simpl. now apply nth_error_update_nth_same.
Qed.

Lemma assoc_fold_other (col : string) (entries : list (string * pyval))
      (row : list (string * pyval)) :
  ~ In col (map (fun kv => "socialblade_" ++ fst kv)%string entries) ->
  assoc col (fold_left (fun r kv => assoc_set ("socialblade_" ++ fst kv)%string (snd kv) r)
                       entries row)
  = assoc col row.
Proof.
  revert row. induction entries as [|[k v] entries IH]; intros row H.
  - reflexivity.
  - simpl in *. rewrite IH by tauto. apply assoc_set_other. intros ->. tauto.
Qed.

Lemma assoc_fold_written (entries : list (string * pyval)) (row : list (string * pyval))
      (k : string) (v : pyval) :
  NoDup (map (fun kv => "socialblade_" ++ fst kv)%string entries) ->
  In (k, v) entries ->
  assoc ("socialblade_" ++ k)%string
        (fold_left (fun r kv => assoc_set ("socialblade_" ++ fst kv)%string (snd kv) r)
                   entries row)
  = Some v.
Proof.
  revert row. induction entries as [|[k' v'] entries IH]; intros row Hnd Hin.
  - contradiction.
  - simpl in *. inversion Hnd as [|x l Hnot Hnd']. subst.
    destruct Hin as [Heq|Hin].
    + inversion Heq. subst k' v'. rewrite assoc_fold_other by exact Hnot.
      apply assoc_set_same.
    + now apply IH.
Qed.

Lemma stats_dict_columns (json_dumps : pyval -> string) (s : SocialBladeStats.t) :
  NoDup (map (fun kv => "socialblade_" ++ fst kv)%string (stats_dict json_dumps s)).
Proof.
  simpl. repeat (constructor; [simpl; intuition discriminate|]). constructor.
Qed.

Lemma run_merge_holds (json_dumps : pyval -> string) (idx : nat)
      (s : SocialBladeStats.t) (st : state) :
  idx < List.length (rows (df st)) ->
  row_holds (df (run (merge_actions idx (stats_dict json_dumps s)) st)) idx
            (stats_dict json_dumps s).
Proof.
  intros Hidx. destruct (nth_error (rows (df st)) idx) as [row|] eqn:E.
  - eexists. split; [apply run_merge_row; exact E|].
    intros k v Hin. apply assoc_fold_written; [apply stats_dict_columns | exact Hin].
  - apply nth_error_None in E. lia.
Qed.

(** *** The in-memory dataset covers what the run records *)

Section CoverInvariant.

Variable css_select : node -> string -> py (list node).
Variable json_dumps : pyval -> string.
Variable http : request -> py response.
Variable st0 : state.

Local Notation covers := (memory_covers css_select json_dumps http st0).
Local Notation body := (loop_body css_select json_dumps http).

Lemma memory_covers_start : covers st0.
Proof.
  repeat split.
  - intros c H. now left.
  - now left.
Qed.

Lemma memory_covers_stable a s :
  match a with SetCell _ _ _ | AddProcessed _ => False | _ => True end ->
  covers s -> covers (apply a s).
Proof.
  intros Ha [H1 [H2 H3]]. destruct a; try contradiction; (split; [|split]);
    try exact H1; try exact H2; try exact H3.
  - right. unfold checkpoint_ids. simpl. apply incl_refl.
  - right. unfold checkpoint_ids. simpl. intros x [].
Qed.

Lemma memory_covers_merge idx row c s k st :
  In (idx, row) (iterrows (df st0)) ->
  row_channel_id (df st0) row = Ok c ->
  mem c (processed_channels st) = false ->
  covers st ->
  covers (run (firstn k (merge_actions idx (stats_dict json_dumps s))) st).
Proof.
  intros Hin Hc Hmem [H1 [H2 H3]]. rewrite firstn_merge_actions.
  destruct (run_merge_frame idx (firstn k (stats_dict json_dumps s)) st)
    as [F1 [F2 [F3 F4]]].
  split; [|split].
  - intros c' Hc'. rewrite F1 in Hc'. destruct (H1 c' Hc') as [Hp|Hw]; [now left|].
    right. destruct Hw as [idx' [row' [s' [sent' [Hin' [Hc0 [Hs' Hh]]]]]]].
    exists idx', row', s', sent'. repeat split; try assumption.
    destruct (Nat.eq_dec idx' idx) as [->|Hne].
    + exfalso. apply iterrows_In in Hin. apply iterrows_In in Hin'.
      rewrite Hin in Hin'. inversion Hin'. subst row'.
      rewrite Hc in Hc0. inversion Hc0. subst c'.
      apply mem_false_not_In in Hmem. contradiction.
    + destruct Hh as [r [Hr Hall]]. exists r. split; [|exact Hall].
      now rewrite F4.
  - unfold checkpoint_within_memory. now rewrite F1, F2.
  - unfold same_rows. now rewrite F3.
Qed.

(** The end of a successful turn, from the state [s] in which the
    merge has left the dataset. *)
Lemma memory_covers_record idx row c r sent s :
  In (idx, row) (iterrows (df st0)) ->
  row_channel_id (df st0) row = Ok c ->
  scrape css_select json_dumps http c = (Some r, sent) ->
  row_holds (df s) idx (stats_dict json_dumps r) ->
  covers s ->
  at_every_point covers [AddProcessed c; SaveProgress] s.
Proof.
  intros Hin Hc E Hrow Hs.
  assert (Hadd : covers (apply (AddProcessed c) s)).
  { destruct Hs as [I1 [I2 I3]]. split; [|split].
    - intros c' Hc'. simpl in Hc'. apply In_set_add in Hc'.
      destruct Hc' as [->|Hc'].
      + right. exists idx, row, r, sent. repeat split; assumption.
      + exact (I1 c' Hc').
    - destruct I2 as [I2|I2]; [now left|]. right.
      intros x Hx. simpl. apply In_set_add. right. now apply I2.
    - exact I3. }
  apply at_every_point_cons; [exact Hs|].
  apply at_every_point_cons; [exact Hadd|].
  apply at_every_point_nil.
  apply memory_covers_stable; [exact I | exact Hadd].
Qed.

Lemma flush_memory_covers idx s :
  covers s -> at_every_point covers (flush_at idx) s.
Proof.
  intros Hs. apply at_every_point_each; [|exact Hs].
  intros a s' Ha Hs'. apply memory_covers_stable; [|exact Hs'].
  unfold flush_at in Ha. destruct (Nat.modulo idx 10 =? 0)%nat; simpl in Ha.
  - destruct Ha as [<-|[]]. exact I.
  - contradiction.
Qed.

(** A successful turn, from the state [s] that follows the fetch. *)
Lemma memory_covers_success idx row c r sent s :
  In (idx, row) (iterrows (df st0)) ->
  row_channel_id (df st0) row = Ok c ->
  scrape css_select json_dumps http c = (Some r, sent) ->
  mem c (processed_channels s) = false ->
  covers s ->
  at_every_point covers
    ((merge_actions idx (stats_dict json_dumps r) ++ [AddProcessed c; SaveProgress])
       ++ flush_at idx) s.
Proof.
  intros Hin Hc E M Hs.
  assert (Hmerge : at_every_point covers
                     (merge_actions idx (stats_dict json_dumps r)) s).
  { intros k. now apply (memory_covers_merge idx row c r k s). }
  assert (Hidx : idx < List.length (rows (df s))).
  { destruct Hs as [_ [_ L]]. unfold same_rows in L. rewrite L.
    apply iterrows_In in Hin. apply nth_error_Some. congruence. }
  assert (Hblock : at_every_point covers
                     (merge_actions idx (stats_dict json_dumps r)
                        ++ [AddProcessed c; SaveProgress]) s).
  { apply at_every_point_app; [exact Hmerge|].
    apply (memory_covers_record idx row c r sent); try assumption.
    - now apply run_merge_holds.
    - exact (at_every_point_end _ _ _ Hmerge). }
  apply at_every_point_app; [exact Hblock|].
  apply flush_memory_covers. exact (at_every_point_end _ _ _ Hblock).
Qed.

Lemma body_memory_covers idx row c st :
  In (idx, row) (iterrows (df st0)) ->
  row_channel_id (df st0) row = Ok c ->
  covers st ->
  at_every_point covers (body idx c (processed_channels st)) st.
Proof.
  intros Hin Hc H.
  assert (Hfetch : forall sent, covers (apply (Fetch c sent) st)).
  { intros sent. apply memory_covers_stable; [exact I | exact H]. }
  destruct (mem c (processed_channels st)) eqn:M.
  - rewrite loop_body_skip by exact M. now apply at_every_point_nil.
  - destruct (scrape css_select json_dumps http c) as [[r|] sent] eqn:E.
    + rewrite (loop_body_success _ _ _ _ _ _ _ _ M E).
      apply (at_every_point_app _ [Fetch c sent]).
      * apply at_every_point_cons; [exact H|]. apply at_every_point_nil. apply Hfetch.
      * apply (memory_covers_success idx row c r sent); try assumption; apply Hfetch.
    + rewrite (loop_body_failure _ _ _ _ _ _ _ M E).
      apply (at_every_point_app _ [Fetch c sent]).
      * apply at_every_point_cons; [exact H|]. apply at_every_point_nil. apply Hfetch.
      * apply flush_memory_covers. apply Hfetch.
Qed.

End CoverInvariant.

(** *** Terminal states *)

Lemma trace_run (acts : list action) (st : state) :
  trace (run acts st) = trace st ++ acts.
Proof.
  revert st. induction acts as [|a acts IH]; intros st.
  - simpl. now rewrite app_nil_r.
  - change (run (a :: acts) st) with (run acts (apply a st)). rewrite IH.
    destruct a; simpl; now rewrite <- app_assoc.
Qed.

Section Terminal.

Variable css_select : node -> string -> py (list node).
Variable json_dumps : pyval -> string.
Variable http : request -> py response.

Lemma try_block_done st signal st' signal' :
  try_block css_select json_dumps http st signal = Normal st' signal' ->
  persisted_table (disk st') = Some (df st')
  /\ progress_file (disk st') = None
  /\ exists st1 signal1,
      iterate css_select json_dumps http (df st) (iterrows (df st)) st signal
      = Normal st1 signal1
      /\ df st' = df st1
      /\ processed_channels st' = processed_channels st1
      /\ exists final, trace st' = trace st1 ++ final.
Proof.
  unfold try_block.
  destruct (iterate css_select json_dumps http (df st) (iterrows (df st)) st signal)
    as [st1 signal1|st1|e st1]; try discriminate.
  destruct (exec [ToCsv] st1 signal1) as [st2 signal2|st2|e st2] eqn:E2;
    try discriminate.
  apply exec_normal_run in E2. intros H. apply exec_normal_run in H. subst st2.
  destruct (progress_file (disk (run [ToCsv] st1))) eqn:Ep; subst st'.
  - split; [reflexivity|]. split; [reflexivity|].
    exists st1, signal1. split; [reflexivity|]. split; [reflexivity|].
    split; [reflexivity|]. exists [ToCsv; RemoveProgress; LogCompleted].
    rewrite !trace_run. now rewrite <- app_assoc.
  - split; [reflexivity|]. split; [exact Ep|].
    exists st1, signal1. split; [reflexivity|]. split; [reflexivity|].
    split; [reflexivity|]. exists [ToCsv; LogCompleted].
    rewrite !trace_run. now rewrite <- app_assoc.
Qed.

Lemma on_interrupt_flushes st :
  persisted_table (disk (on_interrupt st)) = Some (df st)
  /\ progress_file (disk (on_interrupt st)) = Some (progress_json (processed_channels st))
  /\ checkpoint_ids (disk (on_interrupt st)) = processed_channels st
  /\ df (on_interrupt st) = df st
  /\ processed_channels (on_interrupt st) = processed_channels st
  /\ trace (on_interrupt st) = trace st ++ [ToCsv; SaveProgress].
Proof.
  unfold on_interrupt. simpl. repeat split. now rewrite <- app_assoc.
Qed.

Lemma iterate_unsignalled table its st signal st' signal' :
  iterate css_select json_dumps http table its st signal = Normal st' signal' ->
  iterate css_select json_dumps http table its st None = Normal st' None.
Proof.
  revert st signal. induction its as [|[idx row] its IH]; intros st signal; simpl.
  - intros H. now inversion H.
  - unfold turn. destruct (row_channel_id table row) as [c|e]; [|discriminate].
    destruct (mem c (processed_channels st)); [apply IH|].
    destruct (row_channel_title table row) as [t|e]; [|discriminate].
    destruct (exec (loop_body css_select json_dumps http idx c (processed_channels st))
                   st signal) as [st1 signal1|st1|e st1] eqn:E; try discriminate.
    rewrite (exec_unsignalled _ _ _ _ _ E). apply IH.
Qed.

Lemma try_block_unsignalled st signal st' signal' :
  try_block css_select json_dumps http st signal = Normal st' signal' ->
  try_block css_select json_dumps http st None = Normal st' None.
Proof.
  unfold try_block.
  destruct (iterate css_select json_dumps http (df st) (iterrows (df st)) st signal)
    as [st1 signal1|st1|e st1] eqn:E1; try discriminate.
  rewrite (iterate_unsignalled _ _ _ _ _ _ E1).
  destruct (exec [ToCsv] st1 signal1) as [st2 signal2|st2|e st2] eqn:E2;
    try discriminate.
  rewrite (exec_unsignalled _ _ _ _ _ E2). apply exec_unsignalled.
Qed.

End Terminal.

(** *** C1 *)

Section CheckpointAndDataset.

Variable css_select : node -> string -> py (list node).
Variable json_dumps : pyval -> string.
Variable http : request -> py response.

(** C1 (amended).  At every point of the loop, an identifier that the
    run itself has put in the persisted checkpoint (it was neither in
    the file nor in the loaded set at the start) has, in its row of
    the in-memory dataset, the StatsResult of its fetch.  The
    persisted dataset is the in-memory one at both ends of a run:
    after the flush of an interruption, and after the final save. *)
Theorem recorded_rows_enriched_in_memory :
  forall st0,
    (forall k st,
        try_block css_select json_dumps http st0 (Some k) = Interrupt st ->
        (forall c,
            In c (checkpoint_ids (disk st)) ->
            ~ In c (checkpoint_ids (disk st0)) ->
            ~ In c (processed_channels st0) ->
            exists idx row s sent,
              In (idx, row) (iterrows (df st0))
              /\ row_channel_id (df st0) row = Ok c
              /\ scrape css_select json_dumps http c = (Some s, sent)
              /\ row_holds (df st) idx (stats_dict json_dumps s))
        /\ persisted_table (disk (on_interrupt st)) = Some (df st)
        /\ checkpoint_ids (disk (on_interrupt st)) = processed_channels st)
    /\ (forall signal st signal',
           try_block css_select json_dumps http st0 signal = Normal st signal' ->
           persisted_table (disk st) = Some (df st)
           /\ checkpoint_ids (disk st) = []).
Proof.
  intros st0. split.
  - intros k st Hrun.
    assert (Hcov : memory_covers css_select json_dumps http st0 st).
    { change st with (flow_state (Interrupt st)). rewrite <- Hrun.
      apply try_block_at_every_point.
      - intros idx row c s Hin Hc Hs. now apply (body_memory_covers _ _ _ _ idx row).
      - intros a s Ha Hs. apply memory_covers_stable; [|exact Hs].
        simpl in Ha. destruct Ha as [<-|[<-|[<-|[]]]]; exact I.
      - apply memory_covers_start. }
    destruct Hcov as [H1 [H2 _]].
    split; [|split; apply on_interrupt_flushes].
    intros c Hc Hfile Hloaded.
    destruct H2 as [H2|H2]; [rewrite H2 in Hc; contradiction|].
    destruct (H1 c (H2 c Hc)) as [Hp|Hw]; [contradiction | exact Hw].
  - intros signal st signal' Hrun.
    destruct (try_block_done _ _ _ _ _ _ _ Hrun) as [Hp [Hf _]].
    split; [exact Hp|]. unfold checkpoint_ids. now rewrite Hf.
Qed.

End CheckpointAndDataset.

Lemma sample_point_49 :
  try_block basic_select plain_dumps sample_http (sample_start []) (Some 49)
  = Interrupt (sample_point 49).
Proof. vm_compute. reflexivity. Qed.

(** C1 (as stated) fails: in a fresh run on the sample data, once the
    second subject has been fetched and recorded, the persisted
    checkpoint holds its identifier while the persisted dataset, last
    written at the first subject, has no StatsResult in its row. *)
Lemma checkpoint_runs_ahead : ~ checkpoint_never_ahead.
Proof.
  intros H.
  assert (Hcov : checkpoint_covered plain_dumps (df (sample_start []))
                                    (disk (sample_point 49))).
  { apply (H basic_select plain_dumps sample_http (sample_start []) 49 (sample_point 49)).
    - reflexivity.
    - intros idx row c _ _ [].
    - exact sample_point_49. }
  destruct (Hcov 1 (sample_row "UC_b" "B") (PStr "UC_b")) as [t [s [Ht [row [Hrow Hall]]]]].
  - simpl. auto.
  - reflexivity.
  - vm_compute. auto.
  - vm_compute in Ht. inversion Ht. subst t. clear Ht.
    vm_compute in Hrow. inversion Hrow. subst row. clear Hrow.
    specialize (Hall "avatar" (PStr (SocialBladeStats.avatar s)) (or_introl eq_refl)).
    vm_compute in Hall. discriminate Hall.
Qed.

(** The amended statement on the same run: the row of the second
    subject is enriched in memory at that point. *)
Lemma recorded_rows_enriched_in_memory_witness :
  try_block basic_select plain_dumps sample_http (sample_start []) (Some 49)
  = Interrupt (sample_point 49)
  /\ In (PStr "UC_b") (checkpoint_ids (disk (sample_point 49)))
  /\ exists idx row s sent,
      In (idx, row) (iterrows (df (sample_start [])))
      /\ row_channel_id (df (sample_start [])) row = Ok (PStr "UC_b")
      /\ scrape basic_select plain_dumps sample_http (PStr "UC_b") = (Some s, sent)
      /\ row_holds (df (sample_point 49)) idx (stats_dict plain_dumps s).
Proof.
  split; [exact sample_point_49|]. split; [vm_compute; auto|].
  apply (proj1 (proj1 (recorded_rows_enriched_in_memory
                         basic_select plain_dumps sample_http (sample_start []))
                      49 (sample_point 49) sample_point_49)
               (PStr "UC_b")).
  - vm_compute. auto.
  - simpl. tauto.
  - simpl. tauto.
Defined.

(** *** What a turn of the loop can do *)

Section Turn.

Variable css_select : node -> string -> py (list node).
Variable json_dumps : pyval -> string.
Variable http : request -> py response.

Local Notation body := (loop_body css_select json_dumps http).
Local Notation scraped := (scrape css_select json_dumps http).

Lemma loop_body_actions idx c processed a :
  In a (body idx c processed) ->
  match a with
  | Fetch c' _ => c' = c
  | SetCell idx' _ _ => idx' = idx /\ exists s sent, scraped c = (Some s, sent)
  | AddProcessed c' => c' = c /\ exists s sent, scraped c = (Some s, sent)
  | SaveProgress => exists s sent, scraped c = (Some s, sent)
  | ToCsv => Nat.modulo idx 10 = 0
  | RemoveProgress | LogCompleted => False
  end.
Proof.
  assert (Hflush : In a (flush_at idx) -> a = ToCsv /\ Nat.modulo idx 10 = 0).
  { unfold flush_at. destruct (Nat.modulo idx 10 =? 0)%nat eqn:E; simpl.
    - apply Nat.eqb_eq in E. intros [<-|[]]. auto.
    - contradiction. }
  destruct (mem c processed) eqn:M.
  - rewrite loop_body_skip by exact M. contradiction.
  - destruct (scraped c) as [[s|] sent] eqn:E.
    + rewrite (loop_body_success _ _ _ _ _ _ _ _ M E). intros H.
      apply in_app_or in H. destruct H as [[<-|[]]|H]; [reflexivity|].
      apply in_app_or in H. destruct H as [H|H].
      * apply in_app_or in H. destruct H as [H|[<-|[<-|[]]]].
        -- unfold merge_actions in H. apply in_map_iff in H.
           destruct H as [[k v] [<- _]]. eauto.
        -- eauto.
        -- eauto.
      * destruct (Hflush H) as [-> Hm]. exact Hm.
    + rewrite (loop_body_failure _ _ _ _ _ _ _ M E). intros H.
      apply in_app_or in H. destruct H as [[<-|[]]|H]; [reflexivity|].
      destruct (Hflush H) as [-> Hm]. exact Hm.
Qed.

Lemma loop_body_visited idx c processed :
  mem c processed = false ->
  exists sent rest, body idx c processed = Fetch c sent :: rest.
Proof.
  intros M. destruct (scraped c) as [[s|] sent] eqn:E.
  - rewrite (loop_body_success _ _ _ _ _ _ _ _ M E). simpl. eauto.
  - rewrite (loop_body_failure _ _ _ _ _ _ _ M E). simpl. eauto.
Qed.

(** The identifiers in the set after any part of a turn: those that
    were there, and the identifier of the turn if it was visited and
    its fetch succeeded. *)
Lemma body_processed idx c st :
  at_every_point
    (fun s => forall x,
         In x (processed_channels s) ->
         In x (processed_channels st)
         \/ (x = c /\ mem c (processed_channels st) = false
             /\ exists r sent, scraped c = (Some r, sent)))
    (body idx c (processed_channels st)) st.
Proof.
  apply at_every_point_each; [|intros x Hx; now left].
  intros a s Ha Hs x Hx.
  assert (Hshape := loop_body_actions _ _ _ _ Ha).
  destruct a; simpl in Hx; try (now apply Hs).
  apply In_set_add in Hx. destruct Hx as [->|Hx]; [|now apply Hs].
  destruct Hshape as [-> Hsome]. right. repeat split; [|exact Hsome].
  destruct (mem c (processed_channels st)) eqn:M; [|reflexivity].
  rewrite loop_body_skip in Ha by exact M. contradiction.
Qed.

Lemma existsb_eqb_In (x : string) (l : list string) :
  existsb (String.eqb x) l = true <-> In x l.
Proof.
  rewrite existsb_exists. split.
  - intros [y [Hy E]]. apply String.eqb_eq in E. now subst.
  - intros H. exists x. split; [exact H | apply String.eqb_refl].
Qed.

(** C4 (amended).  A turn of the loop that is not interrupted flushes
    the dataset exactly when the position of its subject is a multiple
    of ten and the subject is visited, whether its fetch succeeds or
    fails; the flush is the last action of the turn and writes the whole
    in-memory dataset.  A subject skipped as already checkpointed
    triggers no action, and a subject that is not skipped on a table
    without the [channel_title] column of the log line stops the turn
    with [KeyError] before any action. *)
Theorem flush_on_visited_tenth :
  forall table idx row c st,
    row_channel_id table row = Ok c ->
    (mem c (processed_channels st) = true ->
     turn css_select json_dumps http table idx row st None = Normal st None)
    /\ (mem c (processed_channels st) = false ->
        ~ In "channel_title" (columns table) ->
        turn css_select json_dumps http table idx row st None = Raise KeyError st)
    /\ (mem c (processed_channels st) = false ->
        In "channel_title" (columns table) ->
        turn css_select json_dumps http table idx row st None
        = Normal (run (body idx c (processed_channels st)) st) None
        /\ (In ToCsv (body idx c (processed_channels st)) <-> Nat.modulo idx 10 = 0)
        /\ (Nat.modulo idx 10 = 0 ->
            (exists before, body idx c (processed_channels st) = before ++ [ToCsv])
            /\ enhanced_file (disk (run (body idx c (processed_channels st)) st))
               = Some (CsvText (df (run (body idx c (processed_channels st)) st))))).
Proof.
  intros table idx row c st Hc.
  assert (Hlast : forall p, Nat.modulo idx 10 = 0 -> mem c p = false ->
                            exists before, body idx c p = before ++ [ToCsv]).
  { intros p Hm M. apply Nat.eqb_eq in Hm.
    destruct (scraped c) as [[s|] sent] eqn:E.
    - rewrite (loop_body_success _ _ _ _ _ _ _ _ M E). unfold flush_at. rewrite Hm.
      eexists. rewrite app_assoc. reflexivity.
    - rewrite (loop_body_failure _ _ _ _ _ _ _ M E). unfold flush_at. rewrite Hm.
      eexists. reflexivity. }
  split; [|split].
  - intros M. unfold turn. now rewrite Hc, M.
  - intros M Ht. unfold turn, row_channel_title. rewrite Hc, M.
    destruct (existsb (String.eqb "channel_title") (columns table)) eqn:E; [|reflexivity].
    apply existsb_eqb_In in E. contradiction.
  - intros M Ht. split; [|split].
    + unfold turn, row_channel_title. rewrite Hc, M.
      apply existsb_eqb_In in Ht. rewrite Ht.
      destruct (exec_cases (body idx c (processed_channels st)) st None)
        as [[s' H]|[k [_ [Hs _]]]]; [|discriminate Hs].
      exact (exec_unsignalled _ _ _ _ _ H).
    + split.
      * intros H. exact (loop_body_actions _ _ _ _ H).
      * intros Hm. destruct (Hlast _ Hm M) as [before ->].
        apply in_or_app. right. now left.
    + intros Hm. split; [now apply Hlast|].
      destruct (Hlast (processed_channels st) Hm M) as [before ->].
      rewrite run_app. reflexivity.
Qed.

End Turn.

(** C4 (as stated) fails: a subject at position 0 that is already in the
    checkpoint is skipped, and its turn does not flush. *)
Lemma skipped_tenth_not_flushed : ~ flushed_at_every_tenth.
Proof.
  intros H.
  exact (H basic_select plain_dumps sample_http 0 (PStr "UC_a") [PStr "UC_a"] eq_refl).
Qed.

(** On the sample data: the subject at position 0, not yet recorded, is
    visited and its turn ends with the flush of the dataset. *)
Lemma flush_on_visited_tenth_witness :
  row_channel_id sample_table (sample_row "UC_a" "A") = Ok (PStr "UC_a")
  /\ mem (PStr "UC_a") (processed_channels (sample_start [])) = false
  /\ In "channel_title" (columns sample_table)
  /\ Nat.modulo 0 10 = 0
  /\ turn basic_select plain_dumps sample_http sample_table 0 (sample_row "UC_a" "A")
          (sample_start []) None
     = Normal (run (loop_body basic_select plain_dumps sample_http 0 (PStr "UC_a")
                              (processed_channels (sample_start [])))
                   (sample_start []))
              None
  /\ (exists before,
         loop_body basic_select plain_dumps sample_http 0 (PStr "UC_a")
                   (processed_channels (sample_start []))
         = before ++ [ToCsv])
  /\ enhanced_file
       (disk (run (loop_body basic_select plain_dumps sample_http 0 (PStr "UC_a")
                             (processed_channels (sample_start [])))
                  (sample_start [])))
     = Some (CsvText
               (df (run (loop_body basic_select plain_dumps sample_http 0 (PStr "UC_a")
                                   (processed_channels (sample_start [])))
                        (sample_start [])))).
Proof.
  assert (Ht : In "channel_title" (columns sample_table)) by (right; left; reflexivity).
  assert (H := proj2 (proj2 (flush_on_visited_tenth
                               basic_select plain_dumps sample_http
                               sample_table 0 (sample_row "UC_a" "A") (PStr "UC_a")
                               (sample_start []) eq_refl))
                     eq_refl Ht).
  split; [reflexivity|]. split; [reflexivity|]. split; [exact Ht|].
  split; [reflexivity|]. split; [exact (proj1 H)|].
  exact (proj2 (proj2 H) eq_refl).
Defined.

(** *** C3 *)

Lemma trace_apply (a : action) (st : state) : trace (apply a st) = trace st ++ [a].
Proof. destruct a; reflexivity. Qed.

Section FailedSubjectLemmas.

Variable css_select : node -> string -> py (list node).
Variable json_dumps : pyval -> string.
Variable http : request -> py response.

Local Notation body := (loop_body css_select json_dumps http).
Local Notation scraped := (scrape css_select json_dumps http).




Lemma trace_kept a table its st signal :
  In a (trace st) ->
  In a (trace (flow_state (iterate css_select json_dumps http table its st signal))).
Proof.
  intros H.
  apply (iterate_at_every_point css_select json_dumps http (fun s => In a (trace s)));
    [|exact H].
  intros idx row c s _ _ Hs. apply at_every_point_stable; [|exact Hs].
  intros a' s' Hs'. rewrite trace_apply. apply in_or_app. now left.
Qed.

(** A loop that runs to its end has fetched every subject that was not
    in the set when the loop started. *)
Lemma iterate_fetches table its st signal st' signal' :
  iterate css_select json_dumps http table its st signal = Normal st' signal' ->
  forall idx row c,
    In (idx, row) its -> row_channel_id table row = Ok c ->
    In c (processed_channels st) \/ exists sent, In (Fetch c sent) (trace st').
Proof.
  revert st signal. induction its as [|[i r] its IH]; intros st signal Hrun idx row c Hin Hc.
  - contradiction.
  - simpl in Hrun.
    destruct (turn_cases css_select json_dumps http table i r st signal)
      as [[e Ht]|[c0 [E0 Ht]]]; rewrite Ht in Hrun; [discriminate|].
    destruct (exec (body i c0 (processed_channels st)) st signal)
      as [st1 signal1|st1|e st1] eqn:Ex; try discriminate.
    assert (Hst1 := exec_normal_run _ _ _ _ _ Ex).
    assert (Hkept : forall a, In a (trace st1) -> In a (trace st')).
    { intros a Ha. change st' with (flow_state (Normal st' signal')).
      rewrite <- Hrun. now apply trace_kept. }
    assert (Hvisit : mem c0 (processed_channels st) = false ->
                     exists sent, In (Fetch c0 sent) (trace st')).
    { intros M. destruct (loop_body_visited css_select json_dumps http i c0 _ M)
        as [sent [rest Hb]].
      exists sent. apply Hkept. rewrite Hst1, trace_run, Hb.
      apply in_or_app. right. now left. }
    destruct Hin as [Heq|Hin].
    + inversion Heq. subst i r. rewrite Hc in E0. inversion E0. subst c0.
      destruct (mem c (processed_channels st)) eqn:M.
      * left. now apply mem_In.
      * right. now apply Hvisit.
    + destruct (IH st1 signal1 Hrun idx row c Hin Hc) as [Hp|Hf]; [|now right].
      assert (Hb := at_every_point_end _ _ _
                      (body_processed css_select json_dumps http i c0 st)).
      rewrite <- Hst1 in Hb. destruct (Hb c Hp) as [H|[-> [M _]]].
      * now left.
      * right. now apply Hvisit.
Qed.

End FailedSubjectLemmas.


Section FailedSubject.

Variable css_select : node -> string -> py (list node).
Variable json_dumps : pyval -> string.
Variable http : request -> py response.
Variable pd_read_csv : csv_file -> py DataFrame.
Variable pd_merge : DataFrame -> DataFrame -> py DataFrame.

Local Notation body := (loop_body css_select json_dumps http).





End FailedSubject.

Lemma sample_completed_run :
  try_block basic_select plain_dumps sample_http (sample_start []) None
  = Normal sample_completed None.
Proof. vm_compute. reflexivity. Qed.










(** *** C2 *)

Lemma set_of_list_In (x : pyval) (l : list pyval) : In x l -> In x (set_of_list l).
Proof.
  unfold set_of_list.
  assert (G : forall acc, In x acc \/ In x l ->
                          In x (fold_left (fun a y => set_add y a) l acc)).
  { induction l as [|y l IH]; intros acc H; simpl.
    - destruct H as [H|[]]. exact H.
    - apply IH. destruct H as [H|[->|H]].
      + left. apply In_set_add. now right.
      + left. apply In_set_add. now left.
      + now right. }
  intros H. apply G. now right.
Qed.

Section Interruption.

Variable css_select : node -> string -> py (list node).
Variable json_dumps : pyval -> string.
Variable http : request -> py response.
Variable pd_read_csv : csv_file -> py DataFrame.
Variable pd_merge : DataFrame -> DataFrame -> py DataFrame.

Local Notation run_pipeline :=
  (enhance_data css_select json_dumps http pd_read_csv pd_merge).

Lemma load_checkpoint_covers d processed :
  load_checkpoint d true = Ok processed -> incl (checkpoint_ids d) processed.
Proof.
  unfold load_checkpoint, load_progress, checkpoint_ids.
  destruct (progress_file d) as [[v| |]|]; simpl; try (intros _ x []).
  destruct v; simpl; try (intros _ x []).
  destruct (assoc "processed_channels" entries) as [[| | | | | |ids|]|]; simpl;
    try (intros _ x []).
  destruct (forallb hashable ids); [|discriminate].
  intros H x Hx. inversion H. now apply set_of_list_In.
Qed.

Lemma checkpoint_kept_in_memory st signal :
  incl (checkpoint_ids (disk st)) (processed_channels st) ->
  incl (checkpoint_ids (disk (flow_state (try_block css_select json_dumps http
                                                    st signal))))
       (processed_channels (flow_state (try_block css_select json_dumps http
                                                  st signal))).
Proof.
  assert (Hstep : forall a s,
             incl (checkpoint_ids (disk s)) (processed_channels s) ->
             incl (checkpoint_ids (disk (apply a s))) (processed_channels (apply a s))).
  { intros a s H. destruct a; simpl; try exact H.
    - intros x Hx. apply In_set_add. right. now apply H.
    - unfold checkpoint_ids. simpl. apply incl_refl.
    - unfold checkpoint_ids. simpl. intros x []. }
  intros H.
  apply (try_block_at_every_point css_select json_dumps http
           (fun s => incl (checkpoint_ids (disk s)) (processed_channels s))).
  - intros idx row c s _ _ Hs. now apply at_every_point_stable.
  - intros a s _ Hs. now apply Hstep.
  - exact H.
Qed.

Lemma exec_signal_count (acts : list action) (st : state) (k : nat) :
  match exec acts st (Some k) with
  | Normal st' signal' =>
      exists k', signal' = Some k'
                 /\ List.length (trace st') + k' = List.length (trace st) + k
  | Interrupt cut => List.length (trace cut) = List.length (trace st) + k
  | Raise _ _ => False
  end.
Proof.
  revert st k. induction acts as [|a acts IH]; intros st k; simpl.
  - exists k. auto.
  - destruct k as [|k]; [simpl; lia|].
    specialize (IH (apply a st) k).
    destruct (exec acts (apply a st) (Some k)) as [st' signal'|cut|e st'].
    + destruct IH as [k' [-> Hk]]. exists k'. split; [reflexivity|].
      rewrite trace_apply, length_app in Hk. simpl in Hk. lia.
    + rewrite trace_apply, length_app in IH. simpl in IH. lia.
    + exact IH.
Qed.

Lemma iterate_signal_count table its st k :
  match iterate css_select json_dumps http table its st (Some k) with
  | Normal st' signal' =>
      exists k', signal' = Some k'
                 /\ List.length (trace st') + k' = List.length (trace st) + k
  | Interrupt cut => List.length (trace cut) = List.length (trace st) + k
  | Raise _ _ => True
  end.
Proof.
  revert st k. induction its as [|[idx row] its IH]; intros st k; simpl.
  - exists k. auto.
  - destruct (turn_cases css_select json_dumps http table idx row st (Some k))
      as [[e Ht]|[c [_ Ht]]]; rewrite Ht; [exact I|].
    assert (H := exec_signal_count
                   (loop_body css_select json_dumps http idx c (processed_channels st))
                   st k).
    destruct (exec (loop_body css_select json_dumps http idx c (processed_channels st))
                   st (Some k)) as [st' signal'|cut|e st'].
    + destruct H as [k' [-> Hk]]. specialize (IH st' k').
      destruct (iterate css_select json_dumps http table its st' (Some k'))
        as [st2 signal2|cut|e st2].
      * destruct IH as [k2 [-> Hk2]]. exists k2. split; [reflexivity | lia].
      * lia.
      * exact I.
    + exact H.
    + exact I.
Qed.

Lemma try_block_signal_flow st k :
  match try_block css_select json_dumps http st (Some k) with
  | Normal st' signal' =>
      exists k', signal' = Some k'
                 /\ List.length (trace st') + k' = List.length (trace st) + k
  | Interrupt cut => List.length (trace cut) = List.length (trace st) + k
  | Raise _ _ => True
  end.
Proof.
  unfold try_block.
  assert (H1 := iterate_signal_count (df st) (iterrows (df st)) st k).
  destruct (iterate css_select json_dumps http (df st) (iterrows (df st)) st (Some k))
    as [st1 signal1|cut1|e st1]; [|exact H1|exact I].
  destruct H1 as [k1 [-> Hk1]].
  assert (H2 := exec_signal_count [ToCsv] st1 k1).
  destruct (exec [ToCsv] st1 (Some k1)) as [st2 signal2|cut2|e st2];
    [|lia|exact I].
  destruct H2 as [k2 [-> Hk2]].
  assert (H3 := exec_signal_count
                  (match progress_file (disk st2) with
                   | Some _ => [RemoveProgress]
                   | None => []
                   end ++ [LogCompleted]) st2 k2).
  destruct (exec (match progress_file (disk st2) with
                  | Some _ => [RemoveProgress]
                  | None => []
                  end ++ [LogCompleted]) st2 (Some k2)) as [st3 signal3|cut3|e st3];
    [|lia|exact I].
  destruct H3 as [k3 [-> Hk3]]. exists k3. split; [reflexivity | lia].
Qed.

Lemma try_block_signal_count st k cut :
  try_block css_select json_dumps http st (Some k) = Interrupt cut ->
  List.length (trace cut) = List.length (trace st) + k.
Proof.
  intros H. assert (F := try_block_signal_flow st k). now rewrite H in F.
Qed.

Lemma iterate_raise_unsignalled table its st signal e s :
  iterate css_select json_dumps http table its st signal = Raise e s ->
  iterate css_select json_dumps http table its st None = Raise e s.
Proof.
  revert st signal. induction its as [|[idx row] its IH]; intros st signal; simpl.
  - discriminate.
  - unfold turn. destruct (row_channel_id table row) as [c|e0]; [|auto].
    destruct (mem c (processed_channels st)); [apply IH|].
    destruct (row_channel_title table row) as [t|e0]; [|auto].
    destruct (exec (loop_body css_select json_dumps http idx c (processed_channels st))
                   st signal) as [st1 signal1|st1|e1 st1] eqn:E.
    + rewrite (exec_unsignalled _ _ _ _ _ E). apply IH.
    + discriminate.
    + now elim (exec_never_raises _ _ _ _ _ E).
Qed.

Lemma try_block_raise_unsignalled st signal e s :
  try_block css_select json_dumps http st signal = Raise e s ->
  try_block css_select json_dumps http st None = Raise e s.
Proof.
  unfold try_block.
  destruct (iterate css_select json_dumps http (df st) (iterrows (df st)) st signal)
    as [st1 signal1|st1|e1 st1] eqn:E1.
  - rewrite (iterate_unsignalled _ _ _ _ _ _ _ _ _ E1).
    destruct (exec [ToCsv] st1 signal1) as [st2 signal2|st2|e2 st2] eqn:E2.
    + intros H. now elim (exec_never_raises _ _ _ _ _ H).
    + discriminate.
    + now elim (exec_never_raises _ _ _ _ _ E2).
  - discriminate.
  - intros H. inversion H. subst. now rewrite (iterate_raise_unsignalled _ _ _ _ _ _ E1).
Qed.

Lemma loaded_set_kept st signal :
  incl (processed_channels st)
       (processed_channels (flow_state (try_block css_select json_dumps http st signal))).
Proof.
  assert (Hstep : forall a s,
             incl (processed_channels st) (processed_channels s) ->
             incl (processed_channels st) (processed_channels (apply a s))).
  { intros a s H. destruct a; try exact H.
    intros x Hx. simpl. apply In_set_add. right. now apply H. }
  apply (try_block_at_every_point css_select json_dumps http
           (fun s => incl (processed_channels st) (processed_channels s))).
  - intros idx row c s _ _ Hs. now apply at_every_point_stable.
  - intros a s _ Hs. now apply Hstep.
  - apply incl_refl.
Qed.

(** C2.  When the cancellation signal reaches a run during its [try]
    block, after [k] actions: the run ends as interrupted, with the
    flush of the whole in-memory dataset followed by the flush of the
    checkpoint, and nothing after them; the enriched file holds the
    dataset and the progress file holds the in-memory set as they were
    when the signal arrived; the set holds every identifier that was
    loaded, the progress file is not removed, and in a resumed run every
    identifier that the file held at the signal is still in it.  A run
    that reaches its end under a pending signal is a run that the
    signal did not reach, and a signal set for a point before the end
    of the run does reach it. *)
Theorem interruption_flushes_both :
  forall d resume k f base processed table,
    input_file d = Some f ->
    read_csv_pandas pd_read_csv f = Some base ->
    load_checkpoint d resume = Ok processed ->
    merge_existing pd_read_csv pd_merge d base = Ok table ->
    (forall cut,
        try_block css_select json_dumps http (mk_state table processed d []) (Some k)
        = Interrupt cut ->
        List.length (trace cut) = k
        /\ incl processed (processed_channels cut)
        /\ exists st,
            run_pipeline d resume (Some k) = Interrupted st
            /\ trace st = trace cut ++ [ToCsv; SaveProgress]
            /\ enhanced_file (disk st) = Some (CsvText (df cut))
            /\ progress_file (disk st) = Some (progress_json (processed_channels cut))
            /\ df st = df cut
            /\ processed_channels st = processed_channels cut
            /\ (resume = true ->
                incl (checkpoint_ids (disk cut)) (checkpoint_ids (disk st))))
    /\ (forall st signal',
           try_block css_select json_dumps http (mk_state table processed d []) (Some k)
           = Normal st signal' ->
           run_pipeline d resume (Some k) = Done st
           /\ run_pipeline d resume None = Done st)
    /\ (forall st,
           try_block css_select json_dumps http (mk_state table processed d []) None
           = Normal st None ->
           k < List.length (trace st) ->
           exists cut,
             try_block css_select json_dumps http (mk_state table processed d []) (Some k)
             = Interrupt cut).
Proof.
  intros d resume k f base processed table Hi Hb Hl Hm.
  set (st0 := mk_state table processed d []).
  split; [|split].
  - intros cut Hrun. split; [|split].
    + now rewrite (try_block_signal_count st0 k cut Hrun).
    + change cut with (flow_state (Interrupt cut)). rewrite <- Hrun.
      exact (loaded_set_kept st0 (Some k)).
    + exists (on_interrupt cut).
      destruct (on_interrupt_flushes cut) as [_ [Hp [Hck [Hdf [Hpr Htr]]]]].
      split.
      { unfold enhance_data. rewrite Hi, Hb, Hl, Hm. fold st0. now rewrite Hrun. }
      split; [exact Htr|]. split; [reflexivity|]. split; [exact Hp|].
      split; [exact Hdf|]. split; [exact Hpr|].
      intros ->. rewrite Hck.
      change cut with (flow_state (Interrupt cut)). rewrite <- Hrun.
      apply checkpoint_kept_in_memory. simpl. now apply load_checkpoint_covers.
  - intros st signal' Hrun. split.
    + unfold enhance_data. rewrite Hi, Hb, Hl, Hm. fold st0. now rewrite Hrun.
    + unfold enhance_data. rewrite Hi, Hb, Hl, Hm. fold st0.
      now rewrite (try_block_unsignalled _ _ _ _ _ _ _ Hrun).
  - intros st Hrun Hk.
    assert (F := try_block_signal_flow st0 k).
    destruct (try_block css_select json_dumps http st0 (Some k))
      as [st' signal'|cut|e st'] eqn:E.
    + exfalso. destruct F as [k' [_ Hk']].
      rewrite (try_block_unsignalled _ _ _ _ _ _ _ E) in Hrun.
      inversion Hrun. subst st'. simpl in Hk'. lia.
    + eauto.
    + rewrite (try_block_raise_unsignalled _ _ _ _ E) in Hrun. discriminate Hrun.
Qed.

End Interruption.

Lemma sample_point_30 :
  try_block basic_select plain_dumps sample_http
            (mk_state sample_base [] sample_files []) (Some 30)
  = Interrupt (sample_point 30).
Proof. vm_compute. reflexivity. Qed.

(** On the sample data: a resumed run cut after thirty actions, when
    the first subject has been recorded, ends with the two flushes. *)
Lemma interruption_flushes_both_witness :
  read_csv_pandas reread (CsvText sample_table) = Some sample_base
  /\ try_block basic_select plain_dumps sample_http
               (mk_state sample_base [] sample_files []) (Some 30)
     = Interrupt (sample_point 30)
  /\ List.length (trace (sample_point 30)) = 30
  /\ exists st,
      enhance_data basic_select plain_dumps sample_http reread left_join
                   sample_files true (Some 30)
      = Interrupted st
      /\ trace st = trace (sample_point 30) ++ [ToCsv; SaveProgress]
      /\ enhanced_file (disk st) = Some (CsvText (df (sample_point 30)))
      /\ progress_file (disk st)
         = Some (progress_json (processed_channels (sample_point 30)))
      /\ df st = df (sample_point 30)
      /\ processed_channels st = processed_channels (sample_point 30)
      /\ (true = true ->
          incl (checkpoint_ids (disk (sample_point 30))) (checkpoint_ids (disk st))).
Proof.
  assert (H := proj1 (interruption_flushes_both
                        basic_select plain_dumps sample_http reread left_join
                        sample_files true 30 (CsvText sample_table) sample_base []
                        sample_base eq_refl eq_refl eq_refl eq_refl)
                     (sample_point 30) sample_point_30).
  split; [reflexivity|]. split; [exact sample_point_30|].
  split; [exact (proj1 H)|]. exact (proj2 (proj2 H)).
Defined.

(** ** Examples on the scraper *)

(** On the sample page: the country element has no [href] attribute, and
    no element has the identifier [missing]. *)
Lemma field_extractor_total_witness :
  unavailable basic_select (Some sample_page) "#youtube-user-page-country"
              (Some "href") false
  /\ _get_text basic_select (Some sample_page) "#youtube-user-page-country"
               (Some "href") false
     = Ok "N/A"
  /\ first_text_unavailable basic_select (Some sample_page) "#missing"
  /\ _get_first_text basic_select (Some sample_page) "#missing" = Ok "N/A".
Proof.
  assert (H1 : unavailable basic_select (Some sample_page) "#youtube-user-page-country"
                           (Some "href") false).
  { apply (attribute_absent basic_select _ _ _ _ "span" "href"
                            [("id", "youtube-user-page-country")]
                            [NavigableString " US "]).
    - reflexivity.
    - reflexivity.
    - discriminate.
    - reflexivity. }
  assert (H2 : first_text_unavailable basic_select (Some sample_page) "#missing").
  { apply ft_no_match. reflexivity. }
  split; [exact H1|]. split.
  - exact (proj1 (proj2 (proj2 (field_extractor_total basic_select (Some sample_page)
                                  "#youtube-user-page-country" (Some "href") false)))
                 H1).
  - split; [exact H2|].
    exact (proj2 (proj2 (proj2 (field_extractor_total basic_select (Some sample_page)
                                  "#missing" None false)))
                 H2).
Defined.

(** On the sample page, whose container has 22 blocks: the recent daily
    stats are those of blocks 7 to 20. *)
Lemma recent_daily_stats_window_witness :
  select basic_select (Some sample_page) "#socialblade-user-content > div"
  = Ok (map sample_block sample_labels)
  /\ _extract_recent_daily_stats basic_select (Some sample_page)
     = Ok (map (daily_record basic_select)
               (firstn 14 (skipn 6 (map sample_block sample_labels)))).
Proof.
  split; [reflexivity|].
  exact (proj1 (recent_daily_stats_window basic_select (Some sample_page))
               (map sample_block sample_labels) eq_refl).
Defined.

Lemma sample_fetch_without_videos :
  fetch_channel_stats basic_select plain_dumps sample_http (PStr "UC_b") []
  = (Ok (Some (page_stats basic_select sample_page)),
     [ProfilePage (PStr "UC_b"); VideoList (PStr "UC_b")]).
Proof. vm_compute. reflexivity. Qed.

(** C6 (as stated) fails: when the video-list call answers 500 the fetch
    succeeds and [last_50_videos_stats_json] is None. *)
Lemma video_attribute_is_null : ~ every_attribute_non_null.
Proof.
  intros H.
  apply (H basic_select plain_dumps sample_http (PStr "UC_b") [] _ _
           sample_fetch_without_videos "last_50_videos_stats_json" PNone).
  - apply nth_error_In with (n := 20). reflexivity.
  - reflexivity.
Qed.

(** On the sample data: the fetch of [UC_b] succeeds, and its profile
    attributes are strings. *)
Lemma profile_attributes_never_null_witness :
  fetch_channel_stats basic_select plain_dumps sample_http (PStr "UC_b") []
  = (Ok (Some (page_stats basic_select sample_page)),
     [ProfilePage (PStr "UC_b"); VideoList (PStr "UC_b")])
  /\ forall attribute value,
      In (attribute, value)
         (firstn 15 (stats_dict plain_dumps (page_stats basic_select sample_page))) ->
      exists text, value = PStr text.
Proof.
  split; [exact sample_fetch_without_videos|].
  exact (proj1 (proj2 (profile_attributes_never_null basic_select plain_dumps sample_http
                         (PStr "UC_b") [] _ _ sample_fetch_without_videos))).
Defined.


(** ** The checkpoint file and the command *)

Section CheckpointFile.

Variable css_select : node -> string -> py (list node).
Variable json_dumps : pyval -> string.
Variable http : request -> py response.
Variable pd_read_csv : csv_file -> py DataFrame.
Variable pd_merge : DataFrame -> DataFrame -> py DataFrame.

(** C7 (amended).  The checkpoint is loaded as the empty set when no
    progress file exists and when its content is not JSON
    ([json.load] raises [JSONDecodeError]); the run then goes on to
    the loop with an empty set, whenever the input file and the merge
    allow it. *)
Theorem absent_or_malformed_checkpoint_starts_fresh :
  forall d,
    progress_file d = None
    \/ (exists f, progress_file d = Some f /\ json_load f = Exc JSONDecodeError) ->
    load_progress d = Ok (PDict [("processed_channels", PList [])])
    /\ load_checkpoint d true = Ok []
    /\ forall f base table signal,
        input_file d = Some f ->
        read_csv_pandas pd_read_csv f = Some base ->
        merge_existing pd_read_csv pd_merge d base = Ok table ->
        enhance_data css_select json_dumps http pd_read_csv pd_merge d true signal
        = match try_block css_select json_dumps http (mk_state table [] d []) signal with
          | Normal st _ => Done st
          | Interrupt st => Interrupted (on_interrupt st)
          | Raise e st => Failed e (disk st) (trace st)
          end.
Proof.
  intros d H.
  assert (Hp : load_progress d = Ok (PDict [("processed_channels", PList [])])).
  { unfold load_progress. destruct H as [->|[f [-> Hf]]]; [reflexivity|].
    now rewrite Hf. }
  assert (Hc : load_checkpoint d true = Ok []).
  { unfold load_checkpoint. now rewrite Hp. }
  split; [exact Hp|]. split; [exact Hc|].
  intros f base table signal Hi Hr Hm. unfold enhance_data.
  now rewrite Hi, Hr, Hc, Hm.
Qed.

(** C10 (amended).  The command runs the pipeline, with the [resume]
    flag it was given, when no enriched file exists.  When one exists:
    if it cannot be read the command stops on [AttributeError], and if
    the table it reads as has no row or no column it stops on
    [IndexError], in both cases without running the pipeline;
    otherwise, with the last cell of the last row, the command returns
    at once with the outcome [AlreadyCompleted], which carries no
    action and no file, if that cell is not None and the table has more
    than five columns, and it runs the pipeline if the cell is None or
    the table has at most five columns. *)
Theorem completion_heuristic_on_table :
  forall d resume signal,
    (enhanced_file d = None ->
     enhance css_select json_dumps http pd_read_csv pd_merge d resume signal
     = Ran (enhance_data css_select json_dumps http pd_read_csv pd_merge d resume signal))
    /\ (forall f,
           enhanced_file d = Some f ->
           (read_csv_pandas pd_read_csv f = None ->
            enhance css_select json_dumps http pd_read_csv pd_merge d resume signal
            = CommandFailed AttributeError)
           /\ (forall table,
                  read_csv_pandas pd_read_csv f = Some table ->
                  (rows table = [] \/ columns table = [] ->
                   enhance css_select json_dumps http pd_read_csv pd_merge d resume signal
                   = CommandFailed IndexError)
                  /\ (forall rs row cs col,
                         rows table = rs ++ [row] ->
                         columns table = cs ++ [col] ->
                         (cell row col <> PNone /\ 5 < List.length (columns table) ->
                          enhance css_select json_dumps http pd_read_csv pd_merge
                                  d resume signal
                          = AlreadyCompleted)
                         /\ (cell row col = PNone \/ List.length (columns table) <= 5 ->
                             enhance css_select json_dumps http pd_read_csv pd_merge
                                     d resume signal
                             = Ran (enhance_data css_select json_dumps http
                                                 pd_read_csv pd_merge
                                                 d resume signal))))).
Proof.
  intros d resume signal. split.
  - intros Hf. unfold enhance, completion_check. now rewrite Hf.
  - intros f Hf. split.
    + intros Hr. unfold enhance, completion_check. now rewrite Hf, Hr.
    + intros table Hr. split.
      * intros H. unfold enhance, completion_check, last_row_last_value.
        rewrite Hf, Hr. simpl. destruct H as [-> | ->]; simpl; [reflexivity|].
        now destruct (rev (rows table)).
      * intros rs row cs col Hrows Hcols.
        assert (Hl : last_row_last_value table = Ok (cell row col)).
        { unfold last_row_last_value.
          now rewrite Hrows, Hcols, !rev_app_distr. }
        split.
        -- intros [Hv Hn]. apply Nat.ltb_lt in Hn.
           unfold enhance, completion_check. rewrite Hf, Hr. simpl. rewrite Hl. simpl.
           destruct (cell row col); try contradiction; now rewrite Hn.
        -- intros H. unfold enhance, completion_check. rewrite Hf, Hr. simpl.
           rewrite Hl. simpl. destruct H as [-> |Hn]; [reflexivity|].
           apply Nat.ltb_ge in Hn. destruct (cell row col); now rewrite ?Hn.
Qed.

End CheckpointFile.

(** C7 (as stated) fails: a progress file holding the JSON text of an
    empty object cannot be read back as a set of identifiers, and its
    load raises [KeyError] instead of yielding the empty set. *)
Lemma empty_object_checkpoint_is_fatal : ~ unreadable_checkpoint_starts_fresh.
Proof.
  intros H.
  assert (E : load_checkpoint empty_object_progress true = Ok []).
  { apply (H empty_object_progress (JsonText (PDict []))).
    - reflexivity.
    - exists KeyError. reflexivity. }
  discriminate E.
Qed.

(** On the sample data, with a progress file that is not JSON. *)
Lemma absent_or_malformed_checkpoint_starts_fresh_witness :
  json_load MalformedJson = Exc JSONDecodeError
  /\ load_checkpoint malformed_progress true = Ok [].
Proof.
  split; [reflexivity|].
  exact (proj1 (proj2 (absent_or_malformed_checkpoint_starts_fresh
                         basic_select plain_dumps sample_http reread left_join
                         malformed_progress
                         (or_intror (ex_intro _ MalformedJson
                                              (conj eq_refl eq_refl)))))).
Defined.

(** On an enriched file that holds a header and no row the command
    stops on the [IndexError] of [df.iloc[-1]], which it logs: it neither
    declares the enhancement completed nor runs the pipeline. *)
Lemma header_only_file_stops_the_command :
  enhance basic_select plain_dumps sample_http reread left_join header_only true None
  = CommandFailed IndexError.
Proof. reflexivity. Qed.

(** C10 (as stated) fails: on an enriched file that holds a header and
    no row there is no last row, so the file does not look complete,
    and yet the command does not proceed with the pipeline: it stops on
    the [IndexError] of [df.iloc[-1]]. *)
Lemma header_only_file_is_fatal : ~ heuristic_decides.
Proof.
  intros H.
  assert (E : enhance basic_select plain_dumps sample_http reread left_join
                      header_only true None
              = Ran (enhance_data basic_select plain_dumps sample_http reread left_join
                                  header_only true None)).
  { apply (H basic_select plain_dumps sample_http reread left_join header_only true None
             (CsvText (mk_df base_columns []))); [reflexivity|].
    intros [table [v [Hr [Hl _]]]]. inversion Hr. subst table. discriminate Hl. }
  rewrite header_only_file_stops_the_command in E. discriminate E.
Qed.

Lemma retry_done_file :
  enhanced_file (disk retry_done) = Some (CsvText (df retry_done)).
Proof. vm_compute. reflexivity. Qed.

Lemma retry_done_rows :
  rows (replace (PStr "--") PNone (replace PNaN PNone (df retry_done)))
  = removelast (rows (replace (PStr "--") PNone (replace PNaN PNone (df retry_done))))
      ++ [last (rows (replace (PStr "--") PNone (replace PNaN PNone (df retry_done)))) []].
Proof. vm_compute. reflexivity. Qed.

Lemma retry_done_columns :
  columns (replace (PStr "--") PNone (replace PNaN PNone (df retry_done)))
  = removelast (columns (replace (PStr "--") PNone (replace PNaN PNone (df retry_done))))
      ++ [last (columns (replace (PStr "--") PNone (replace PNaN PNone (df retry_done))))
               EmptyString].
Proof. vm_compute. reflexivity. Qed.

Lemma retry_done_last_cell :
  cell (last (rows (replace (PStr "--") PNone (replace PNaN PNone (df retry_done)))) [])
       (last (columns (replace (PStr "--") PNone (replace PNaN PNone (df retry_done))))
             EmptyString)
  <> PNone
  /\ 5 < List.length (columns (replace (PStr "--") PNone
                                       (replace PNaN PNone (df retry_done)))).
Proof. split; [vm_compute; discriminate | vm_compute; lia]. Qed.

(** On the file left by the run on [retry_table], whose last subject
    was enriched: the last cell of the last row is not null and the
    table has more than five columns, so the command declares the
    enhancement completed. *)
Lemma completion_heuristic_on_table_witness :
  enhanced_file (disk retry_done) = Some (CsvText (df retry_done))
  /\ (cell (last (rows (replace (PStr "--") PNone (replace PNaN PNone (df retry_done))))
                 [])
           (last (columns (replace (PStr "--") PNone (replace PNaN PNone (df retry_done))))
                 EmptyString)
      <> PNone
      /\ 5 < List.length (columns (replace (PStr "--") PNone
                                           (replace PNaN PNone (df retry_done)))))
  /\ enhance basic_select plain_dumps sample_http reread left_join
             (disk retry_done) true None
     = AlreadyCompleted.
Proof.
  split; [exact retry_done_file|]. split; [exact retry_done_last_cell|].
  exact (proj1 (proj2 (proj2 (proj2 (completion_heuristic_on_table
                                       basic_select plain_dumps sample_http
                                       reread left_join (disk retry_done) true None)
                                    (CsvText (df retry_done)) retry_done_file)
                             (replace (PStr "--") PNone
                                      (replace PNaN PNone (df retry_done)))
                             eq_refl)
                      _ _ _ _ retry_done_rows retry_done_columns)
               retry_done_last_cell).
Defined.

(** * Further properties *)

(** ** The scraper *)

Section ScraperFurther.

Variable css_select : node -> string -> py (list node).
Variable json_dumps : pyval -> string.
Variable http : request -> py response.

(** X1.  [fetch_channel_stats] never raises and sends at most two
    requests: it returns a StatsResult exactly when the profile page
    answers 200, after the profile request and then the video-list
    request; in every other case it returns None after the profile
    request alone. *)
Theorem fetch_follows_profile_status :
  forall c log,
  exists result sent,
    fetch_channel_stats css_select json_dumps http c log = (Ok result, log ++ sent)
    /\ (result <> None
        <-> exists r, http (ProfilePage c) = Ok r /\ status_code r = 200%Z)
    /\ (result = None -> sent = [ProfilePage c])
    /\ (result <> None -> sent = [ProfilePage c; VideoList c]).
Proof.
  intros c log. destruct (http (ProfilePage c)) as [r|e] eqn:E.
  - destruct (Z.eq_dec (status_code r) 200) as [Hs|Hs].
    + rewrite (fetch_served _ _ _ _ _ _ E Hs).
      eexists. eexists. split; [reflexivity|]. repeat split.
      * intros _. exists r. auto.
      * discriminate.
      * discriminate.
    + rewrite (fetch_refused _ _ _ _ _ _ E Hs).
      eexists. eexists. split; [reflexivity|]. repeat split.
      * intros H. now elim H.
      * intros [r' [Hr' Hs']]. inversion Hr'. subst r'. contradiction.
      * intros H. now elim H.
  - rewrite (fetch_unreachable _ _ _ _ _ _ E).
    eexists. eexists. split; [reflexivity|]. repeat split.
    + intros H. now elim H.
    + intros [r' [Hr' _]]. discriminate Hr'.
    + intros H. now elim H.
Qed.

Lemma video_result_of_records c r first rest created :
  http (VideoList c) = Ok r -> status_code r = 200%Z ->
  json r = Ok (PList (PDict first :: rest)) ->
  assoc "created_at" first = Some created ->
  video_result http c = Some (created, PList (PDict first :: rest)).
Proof.
  intros E Hs Hj Ha. apply Z.eqb_eq in Hs.
  unfold video_result, fetch_video_stats, net_try, net_bind, send, net_lift, net_ret.
  simpl. rewrite E. simpl. rewrite Hs. simpl. rewrite Hj. simpl. now rewrite Ha.
Qed.

Lemma video_result_of_falsy c r v :
  http (VideoList c) = Ok r -> status_code r = 200%Z ->
  json r = Ok v -> truthy v = false ->
  video_result http c = Some (PStr "N/A", v).
Proof.
  intros E Hs Hj Ht. apply Z.eqb_eq in Hs.
  unfold video_result, fetch_video_stats, net_try, net_bind, send, net_lift, net_ret.
  simpl. rewrite E. simpl. rewrite Hs. simpl. rewrite Hj. simpl. now rewrite Ht.
Qed.

(** X2.  When the profile page and the video list are served and the
    video list is a list whose first record has a [created_at] entry,
    the fetch returns the StatsResult of the page with that entry,
    whatever its value, as [last_video_upload_date] and the serialised
    whole list as [last_50_videos_stats_json]. *)
Theorem last_upload_is_first_record :
  forall c log r rv first rest created,
    http (ProfilePage c) = Ok r -> status_code r = 200%Z ->
    http (VideoList c) = Ok rv -> status_code rv = 200%Z ->
    json rv = Ok (PList (PDict first :: rest)) ->
    assoc "created_at" first = Some created ->
    fetch_channel_stats css_select json_dumps http c log
    = (Ok (Some (SocialBladeStats.set_videos
                   (page_stats css_select (html r)) created
                   (Some (json_dumps (PList (PDict first :: rest)))))),
       log ++ [ProfilePage c; VideoList c]).
Proof.
  intros c log r rv first rest created E Hs Ev Hsv Hj Ha.
  rewrite (fetch_served _ _ _ _ _ _ E Hs). unfold fetched.
  now rewrite (video_result_of_records _ _ _ _ _ Ev Hsv Hj Ha).
Qed.

(** X3.  A video list that is served with a falsy JSON body (an empty
    list, null, an empty object) is not a failure: the fetch records the
    serialised body as [last_50_videos_stats_json] and keeps the
    sentinel as [last_video_upload_date]. *)
Theorem empty_video_list_is_recorded :
  forall c log r rv v,
    http (ProfilePage c) = Ok r -> status_code r = 200%Z ->
    http (VideoList c) = Ok rv -> status_code rv = 200%Z ->
    json rv = Ok v -> truthy v = false ->
    fetch_channel_stats css_select json_dumps http c log
    = (Ok (Some (SocialBladeStats.set_videos
                   (page_stats css_select (html r)) (PStr "N/A")
                   (Some (json_dumps v)))),
       log ++ [ProfilePage c; VideoList c]).
Proof.
  intros c log r rv v E Hs Ev Hsv Hj Ht.
  rewrite (fetch_served _ _ _ _ _ _ E Hs). unfold fetched.
  now rewrite (video_result_of_falsy _ _ _ Ev Hsv Hj Ht).
Qed.

End ScraperFurther.

Section ExtractorsFurther.

Variable css_select : node -> string -> py (list node).

Lemma average_record_of_block block sel1 sel2 sel3 sel4 :
  exists a,
    (name <- _get_first_text css_select block sel1 ;;
     subscriber_growth <- _get_text css_select block sel2 None false ;;
     view_growth <- _get_text css_select block sel3 None false ;;
     estimated_earnings <- _get_text css_select block sel4 None false ;;
     Ok (Some (AverageStats.mk name subscriber_growth view_growth estimated_earnings)))
    = Ok (Some a).
Proof.
  destruct (get_first_text_value css_select block sel1) as [s ->].
  rewrite !get_text_value. simpl. eauto.
Qed.

(** X4.  The three average blocks: [_extract_daily_average] and
    [_extract_average] return None only when the selection of the block
    raises; when it does not they return a record, and when no block
    matches, the record holds the sentinel in its four fields.  Any
    period other than ["weekly"] reads the monthly block. *)
Theorem average_blocks_default_to_sentinels :
  forall soup period,
    (forall e,
        select_one css_select soup "#socialblade-user-content > div:nth-child(21)" = Exc e ->
        _extract_daily_average css_select soup = Ok None)
    /\ (forall block,
           select_one css_select soup "#socialblade-user-content > div:nth-child(21)"
           = Ok block ->
           exists a, _extract_daily_average css_select soup = Ok (Some a))
    /\ (select_one css_select soup "#socialblade-user-content > div:nth-child(21)" = Ok None ->
        _extract_daily_average css_select soup
        = Ok (Some (AverageStats.mk "N/A" "N/A" "N/A" "N/A")))
    /\ (forall e,
           select_one css_select soup
                      ("#socialblade-user-content > "
                         ++ (if period =? "weekly" then "div:nth-child(22)"
                             else "div:nth-child(23)"))%string = Exc e ->
           _extract_average css_select soup period = Ok None)
    /\ (forall block,
           select_one css_select soup
                      ("#socialblade-user-content > "
                         ++ (if period =? "weekly" then "div:nth-child(22)"
                             else "div:nth-child(23)"))%string = Ok block ->
           exists a, _extract_average css_select soup period = Ok (Some a))
    /\ (select_one css_select soup
                   ("#socialblade-user-content > "
                      ++ (if period =? "weekly" then "div:nth-child(22)"
                          else "div:nth-child(23)"))%string = Ok None ->
        _extract_average css_select soup period
        = Ok (Some (AverageStats.mk "N/A" "N/A" "N/A" "N/A")))
    /\ (period <> "weekly" ->
        _extract_average css_select soup period
        = _extract_average css_select soup "monthly").
Proof.
  intros soup period. repeat split.
  - intros e H. unfold _extract_daily_average. now rewrite H.
  - intros block H. unfold _extract_daily_average. rewrite H. simpl.
    destruct (average_record_of_block block "div:nth-child(1)" "#averagedailysubs span"
                "#averagedailyviews span" "div:nth-child(4)") as [a Ha].
    exists a. now rewrite Ha.
  - intros H. unfold _extract_daily_average. now rewrite H.
  - intros e H. unfold _extract_average. now rewrite H.
  - intros block H. unfold _extract_average. rewrite H. simpl.
    destruct (average_record_of_block block "div:nth-child(1)" "div:nth-child(2) span"
                "div:nth-child(3) span" "div:nth-child(4) span") as [a Ha].
    exists a. now rewrite Ha.
  - intros H. unfold _extract_average. now rewrite H.
  - intros H. unfold _extract_average.
    destruct (period =? "weekly") eqn:E; [|reflexivity].
    apply String.eqb_eq in E. contradiction.
Qed.

Lemma or_dashes_not_empty (s : string) : or_dashes s <> EmptyString.
Proof.
  unfold or_dashes. destruct (s =? EmptyString) eqn:E.
  - discriminate.
  - intros ->. now rewrite String.eqb_refl in E.
Qed.

(** X5.  The growth of subscribers in the recent daily stats: no entry
    has an empty [subscriber_growth], and every block of the window
    gives an entry whose [subscriber_growth] is ["--"] when the text
    extracted for its growth element is empty, and that text
    otherwise. *)
Theorem daily_subscriber_growth_not_empty :
  forall soup l,
    _extract_recent_daily_stats css_select soup = Ok l ->
    (forall d, In d l -> DailyStats.subscriber_growth d <> EmptyString)
    /\ (forall divs element,
           select css_select soup "#socialblade-user-content > div" = Ok divs ->
           In element (firstn 14 (skipn 6 divs)) ->
           exists d,
             In d l
             /\ (text_at css_select (Some element)
                         "div:nth-child(3) div:nth-child(1) span" None false
                 = EmptyString ->
                 DailyStats.subscriber_growth d = "--")
             /\ (text_at css_select (Some element)
                         "div:nth-child(3) div:nth-child(1) span" None false
                 <> EmptyString ->
                 DailyStats.subscriber_growth d
                 = text_at css_select (Some element)
                           "div:nth-child(3) div:nth-child(1) span" None false)).
Proof.
  intros soup l H. unfold _extract_recent_daily_stats in H. split.
  - intros d Hin.
    destruct (select css_select soup "#socialblade-user-content > div") as [divs|e];
      simpl in H.
    + rewrite (mapM_pure _ _ _ (daily_stat_value css_select)) in H. simpl in H.
      inversion H. subst l. apply in_map_iff in Hin. destruct Hin as [el [<- _]].
      apply or_dashes_not_empty.
    + inversion H. subst l. contradiction.
  - intros divs element Hsel Hin. rewrite Hsel in H. simpl in H.
    rewrite (mapM_pure _ _ _ (daily_stat_value css_select)) in H. simpl in H.
    inversion H. subst l. exists (daily_record css_select element).
    split; [now apply in_map|]. simpl. unfold or_dashes. split.
    + intros ->. reflexivity.
    + intros Hne.
      destruct (text_at css_select (Some element)
                        "div:nth-child(3) div:nth-child(1) span" None false
                =? EmptyString) eqn:E; [|reflexivity].
      apply String.eqb_eq in E. contradiction.
Qed.

End ExtractorsFurther.

(** ** Reading tables *)

Lemma assoc_map_key {A : Type} (g : string -> A) (cols : list string) (col : string) :
  In col cols -> assoc col (map (fun c => (c, g c)) cols) = Some (g col).
Proof.
  induction cols as [|c cols IH]; intros H; [contradiction|].
  simpl. destruct (c =? col) eqn:E.
  - apply String.eqb_eq in E. now subst.
  - destruct H as [->|H]; [now rewrite String.eqb_refl in E | now apply IH].
Qed.

Lemma replace_cell (a b : pyval) (t : DataFrame) (row : list (string * pyval))
      (col : string) :
  In row (rows (replace a b t)) -> In col (columns t) ->
  exists old, In old (rows t)
              /\ cell row col = if pyval_eqb (cell old col) a then b else cell old col.
Proof.
  intros Hrow Hcol. unfold replace in Hrow. simpl in Hrow.
  apply in_map_iff in Hrow. destruct Hrow as [old [<- Hold]].
  exists old. split; [exact Hold|]. unfold cell at 1.
  now rewrite (assoc_map_key (fun c => if pyval_eqb (cell old c) a then b else cell old c)).
Qed.

(** X6.  [read_csv_pandas] never raises: it returns None when the read
    fails, and otherwise a table with the columns and the number of rows
    that were read, in which no cell of a column is NaN or the string
    ["--"]. *)
Theorem read_csv_pandas_has_no_nan :
  forall (pd_read_csv : csv_file -> py DataFrame) f,
    (forall e, pd_read_csv f = Exc e -> read_csv_pandas pd_read_csv f = None)
    /\ (forall raw,
           pd_read_csv f = Ok raw ->
           exists t,
             read_csv_pandas pd_read_csv f = Some t
             /\ columns t = columns raw
             /\ List.length (rows t) = List.length (rows raw)
             /\ forall row col,
                 In row (rows t) -> In col (columns t) ->
                 cell row col <> PNaN /\ cell row col <> PStr "--").
Proof.
  intros pd_read_csv f. split.
  - intros e H. unfold read_csv_pandas. now rewrite H.
  - intros raw H. unfold read_csv_pandas. rewrite H. eexists. split; [reflexivity|].
    split; [reflexivity|]. split; [simpl; now rewrite !length_map|].
    intros row col Hrow Hcol.
    destruct (replace_cell _ _ _ _ _ Hrow Hcol) as [mid [Hmid Hc]].
    destruct (replace_cell _ _ _ _ _ Hmid Hcol) as [old [_ Hc']].
    rewrite Hc. destruct (pyval_eqb (cell mid col) (PStr "--")) eqn:E.
    + split; discriminate.
    + split.
      * rewrite Hc'. destruct (pyval_eqb (cell old col) PNaN) eqn:E'; [discriminate|].
        intros Heq. rewrite Heq in E'. discriminate E'.
      * intros Heq. rewrite Heq in E. discriminate E.
Qed.

(** ** The enrichment loop, further *)

Lemma nth_error_update_nth_eq {A : Type} (n : nat) (f : A -> A) (l : list A) :
  nth_error (update_nth n f l) n = option_map f (nth_error l n).
Proof.
  revert n. induction l as [|x l IH]; intros [|n]; simpl; auto.
Qed.

Lemma enrichment_column_prefixed (k : string) :
  enrichment_column ("socialblade_" ++ k) = true.
Proof. reflexivity. Qed.

Section TurnFurther.

Variable css_select : node -> string -> py (list node).
Variable json_dumps : pyval -> string.
Variable http : request -> py response.

Local Notation body := (loop_body css_select json_dumps http).
Local Notation scraped := (scrape css_select json_dumps http).

Lemma scrape_requests c :
  snd (scraped c) = [ProfilePage c] \/ snd (scraped c) = [ProfilePage c; VideoList c].
Proof.
  unfold scrape. destruct (http (ProfilePage c)) as [r|e] eqn:E.
  - destruct (Z.eq_dec (status_code r) 200) as [Hs|Hs].
    + rewrite (fetch_served _ _ _ _ _ _ E Hs). now right.
    + rewrite (fetch_refused _ _ _ _ _ _ E Hs). now left.
  - rewrite (fetch_unreachable _ _ _ _ _ _ E). now left.
Qed.

Lemma loop_body_fetch idx c processed c' sent :
  In (Fetch c' sent) (body idx c processed) ->
  c' = c /\ mem c processed = false /\ sent = snd (scraped c).
Proof.
  intros H. destruct (mem c processed) eqn:M.
  - rewrite loop_body_skip in H by exact M. contradiction.
  - destruct (scraped c) as [[s|] sent0] eqn:E.
    + rewrite (loop_body_success _ _ _ _ _ _ _ _ M E) in H.
      apply in_app_or in H. destruct H as [[H|[]]|H]; [now inversion H|].
      exfalso. apply in_app_or in H. destruct H as [H|H].
      * apply in_app_or in H. destruct H as [H|[H|[H|[]]]]; try discriminate H.
        unfold merge_actions in H. apply in_map_iff in H.
        destruct H as [kv [H _]]. discriminate H.
      * unfold flush_at in H. destruct (Nat.modulo idx 10 =? 0)%nat; simpl in H.
        -- destruct H as [H|[]]. discriminate H.
        -- contradiction.
    + rewrite (loop_body_failure _ _ _ _ _ _ _ M E) in H.
      apply in_app_or in H. destruct H as [[H|[]]|H]; [now inversion H|].
      exfalso. unfold flush_at in H. destruct (Nat.modulo idx 10 =? 0)%nat; simpl in H.
      * destruct H as [H|[]]. discriminate H.
      * contradiction.
Qed.

Lemma loop_body_columns idx c processed i col v :
  In (SetCell i col v) (body idx c processed) ->
  i = idx /\ enrichment_column col = true.
Proof.
  intros H. destruct (mem c processed) eqn:M.
  - rewrite loop_body_skip in H by exact M. contradiction.
  - destruct (scraped c) as [[s|] sent0] eqn:E.
    + rewrite (loop_body_success _ _ _ _ _ _ _ _ M E) in H.
      apply in_app_or in H. destruct H as [[H|[]]|H]; [discriminate H|].
      apply in_app_or in H. destruct H as [H|H].
      * apply in_app_or in H. destruct H as [H|[H|[H|[]]]]; try discriminate H.
        unfold merge_actions in H. apply in_map_iff in H.
        destruct H as [kv [H _]]. inversion H. split; [reflexivity|].
        apply enrichment_column_prefixed.
      * exfalso. unfold flush_at in H.
        destruct (Nat.modulo idx 10 =? 0)%nat; simpl in H.
        -- destruct H as [H|[]]. discriminate H.
        -- contradiction.
    + rewrite (loop_body_failure _ _ _ _ _ _ _ M E) in H.
      apply in_app_or in H. destruct H as [[H|[]]|H]; [discriminate H|].
      exfalso. unfold flush_at in H. destruct (Nat.modulo idx 10 =? 0)%nat; simpl in H.
      * destruct H as [H|[]]. discriminate H.
      * contradiction.
Qed.

(** X7.  The loop writes enrichment columns only: at every point of a
    run, interrupted or not, the table has the rows it started with,
    every cell of a column whose name does not start with
    [socialblade_] reads as it did, every column it had is still there,
    and every new column is an enrichment column. *)
Theorem original_columns_preserved :
  forall st0 signal,
    List.length (rows (df (flow_state (try_block css_select json_dumps http st0 signal))))
    = List.length (rows (df st0))
    /\ (forall idx col,
           enrichment_column col = false ->
           option_map (fun row => cell row col)
                      (nth_error
                         (rows (df (flow_state
                                      (try_block css_select json_dumps http st0 signal))))
                         idx)
           = option_map (fun row => cell row col) (nth_error (rows (df st0)) idx))
    /\ (forall col,
           In col (columns (df st0)) ->
           In col (columns (df (flow_state
                                  (try_block css_select json_dumps http st0 signal)))))
    /\ (forall col,
           In col (columns (df (flow_state
                                  (try_block css_select json_dumps http st0 signal)))) ->
           In col (columns (df st0)) \/ enrichment_column col = true).
Proof.
  intros st0 signal.
  set (Q := fun s : state =>
              List.length (rows (df s)) = List.length (rows (df st0))
              /\ (forall idx col,
                     enrichment_column col = false ->
                     option_map (fun row => cell row col) (nth_error (rows (df s)) idx)
                     = option_map (fun row => cell row col)
                                  (nth_error (rows (df st0)) idx))
              /\ (forall col, In col (columns (df st0)) -> In col (columns (df s)))
              /\ (forall col, In col (columns (df s)) ->
                              In col (columns (df st0)) \/ enrichment_column col = true)).
  assert (Hstep : forall a s,
             match a with
             | SetCell _ col _ => enrichment_column col = true
             | _ => True
             end -> Q s -> Q (apply a s)).
  { intros a s Ha Hs. destruct a; try exact Hs.
    destruct Hs as [H1 [H2 [H3 H4]]]. unfold Q. simpl. repeat split.
    - rewrite update_nth_length. exact H1.
    - intros i c Hc. rewrite <- (H2 i c Hc).
      destruct (Nat.eq_dec idx i) as [->|Hne].
      + rewrite nth_error_update_nth_eq.
        destruct (nth_error (rows (df s)) i) as [row|]; [|reflexivity].
        simpl. unfold cell. rewrite assoc_set_other; [reflexivity|].
        intros ->. congruence.
      + now rewrite nth_error_update_nth_other.
    - intros c Hc. destruct (existsb (String.eqb col) (columns (df s)));
        [|apply in_or_app; left]; now apply H3.
    - intros c Hc. destruct (existsb (String.eqb col) (columns (df s))).
      + now apply H4.
      + apply in_app_or in Hc. destruct Hc as [Hc|[<-|[]]]; [now apply H4 | now right]. }
  apply (try_block_at_every_point css_select json_dumps http Q).
  - intros idx row c s _ _ Hs. apply at_every_point_each; [|exact Hs].
    intros a s' Ha Hs'. apply Hstep; [|exact Hs'].
    destruct a; try exact I. now apply (loop_body_columns _ _ _ _ _ _ Ha).
  - intros a s Ha Hs. apply Hstep; [|exact Hs].
    simpl in Ha. destruct Ha as [<-|[<-|[<-|[]]]]; exact I.
  - unfold Q. repeat split; auto.
Qed.

Lemma fetches_of_a_run :
  forall st0 signal c sent,
    trace st0 = [] ->
    In (Fetch c sent)
       (trace (flow_state (try_block css_select json_dumps http st0 signal))) ->
    ~ In c (processed_channels st0)
    /\ (exists idx row,
           In (idx, row) (iterrows (df st0)) /\ row_channel_id (df st0) row = Ok c)
    /\ (sent = [ProfilePage c] \/ sent = [ProfilePage c; VideoList c]).
Proof.
  intros st0 signal c sent Htr.
  set (R := fun s : state =>
              incl (processed_channels st0) (processed_channels s)
              /\ forall c sent,
                  In (Fetch c sent) (trace s) ->
                  ~ In c (processed_channels st0)
                  /\ (exists idx row,
                         In (idx, row) (iterrows (df st0))
                         /\ row_channel_id (df st0) row = Ok c)
                  /\ (sent = [ProfilePage c] \/ sent = [ProfilePage c; VideoList c])).
  assert (HR : R (flow_state (try_block css_select json_dumps http st0 signal))).
  { apply (try_block_at_every_point css_select json_dumps http R).
    - intros idx row c0 s Hin Hc [Hs1 Hs2].
      apply at_every_point_each; [|split; assumption].
      intros a s' Ha [Hs1' Hs2']. split.
      + destruct a; try exact Hs1'.
        intros x Hx. simpl. apply In_set_add. right. now apply Hs1'.
      + intros c' sent' Hin'. rewrite trace_apply in Hin'.
        apply in_app_or in Hin'. destruct Hin' as [Hin'|[->|[]]]; [now apply Hs2'|].
        destruct (loop_body_fetch _ _ _ _ _ Ha) as [-> [M ->]].
        repeat split.
        * intros Hc0. apply mem_false_not_In in M. apply M. now apply Hs1.
        * exists idx, row. now split.
        * apply scrape_requests.
    - intros a s Ha [Hs1 Hs2]. split.
      + simpl in Ha. destruct Ha as [<-|[<-|[<-|[]]]]; exact Hs1.
      + intros c' sent' Hin'. rewrite trace_apply in Hin'.
        apply in_app_or in Hin'. destruct Hin' as [Hin'|[Heq|[]]]; [now apply Hs2|].
        subst a. simpl in Ha. destruct Ha as [Ha|[Ha|[Ha|[]]]]; discriminate Ha.
    - split; [apply incl_refl|]. intros c' sent' Hin'. rewrite Htr in Hin'.
      contradiction. }
  intros Hin. exact (proj2 HR c sent Hin).
Qed.

(** X8.  A run never fetches a subject whose identifier is in the set
    it loaded: every fetch recorded in the trace of a run, interrupted
    or not, is that of a row of the table whose identifier was not in
    the set at the start, and its requests are the profile page of that
    identifier, followed or not by its video list. *)
Theorem checkpointed_subjects_not_fetched :
  forall st0 signal c sent,
    trace st0 = [] ->
    In (Fetch c sent)
       (trace (flow_state (try_block css_select json_dumps http st0 signal))) ->
    ~ In c (processed_channels st0)
    /\ (exists idx row,
           In (idx, row) (iterrows (df st0)) /\ row_channel_id (df st0) row = Ok c)
    /\ (sent = [ProfilePage c] \/ sent = [ProfilePage c; VideoList c]).
Proof. exact fetches_of_a_run. Qed.

End TurnFurther.

Section RunFurther.

Variable css_select : node -> string -> py (list node).
Variable json_dumps : pyval -> string.
Variable http : request -> py response.

(** X9.  A run that reaches its end has fetched every subject of the
    table whose identifier was not in the set it loaded. *)
Theorem completed_run_fetches_the_rest :
  forall st0 signal st signal' idx row c,
    try_block css_select json_dumps http st0 signal = Normal st signal' ->
    In (idx, row) (iterrows (df st0)) ->
    row_channel_id (df st0) row = Ok c ->
    ~ In c (processed_channels st0) ->
    exists sent, In (Fetch c sent) (trace st).
Proof.
  intros st0 signal st signal' idx row c Hrun Hin Hc H0.
  destruct (try_block_done _ _ _ _ _ _ _ Hrun)
    as [_ [_ [st1 [signal1 [Hit [_ [_ [final Htr]]]]]]]].
  destruct (iterate_fetches css_select json_dumps http _ _ _ _ _ _ Hit idx row c Hin Hc)
    as [Hp|[sent Hf]].
  - contradiction.
  - exists sent. rewrite Htr. apply in_or_app. now left.
Qed.

Lemma iterate_all_skipped table its st signal :
  (forall idx row,
      In (idx, row) its ->
      exists c, row_channel_id table row = Ok c /\ In c (processed_channels st)) ->
  iterate css_select json_dumps http table its st signal = Normal st signal.
Proof.
  induction its as [|[idx row] its IH]; intros H; [reflexivity|].
  simpl. destruct (H idx row (or_introl eq_refl)) as [c [Hc Hin]].
  unfold turn. rewrite Hc. apply mem_In in Hin. rewrite Hin.
  apply IH. intros idx' row' Hin'. apply (H idx' row'). now right.
Qed.

(** X10.  When every subject of the table is in the loaded set, the run
    sends no request: it rewrites the enriched file with the table as
    it was loaded, removes the progress file if there is one, and ends;
    the table and the set are unchanged. *)
Theorem fully_checkpointed_run_only_saves :
  forall st0,
    (forall idx row,
        In (idx, row) (iterrows (df st0)) ->
        exists c, row_channel_id (df st0) row = Ok c /\ In c (processed_channels st0)) ->
    exists st,
      try_block css_select json_dumps http st0 None = Normal st None
      /\ df st = df st0
      /\ processed_channels st = processed_channels st0
      /\ enhanced_file (disk st) = Some (CsvText (df st0))
      /\ progress_file (disk st) = None
      /\ trace st
         = trace st0
             ++ ToCsv :: match progress_file (disk st0) with
                         | Some _ => [RemoveProgress]
                         | None => []
                         end
             ++ [LogCompleted].
Proof.
  intros st0 H. unfold try_block.
  rewrite (iterate_all_skipped _ _ _ _ H). simpl.
  destruct (progress_file (disk st0)) eqn:Ep; simpl.
  - eexists. split; [reflexivity|]. simpl.
    split; [reflexivity|]. split; [reflexivity|]. split; [reflexivity|].
    split; [reflexivity|]. now rewrite <- !app_assoc.
  - eexists. split; [reflexivity|]. simpl.
    split; [reflexivity|]. split; [reflexivity|]. split; [reflexivity|].
    split; [reflexivity|]. now rewrite <- !app_assoc.
Qed.

End RunFurther.

(** ** The checkpoint across runs *)

Lemma set_add_NoDup (x : pyval) (s : list pyval) : NoDup s -> NoDup (set_add x s).
Proof.
  intros H. unfold set_add. destruct (mem x s) eqn:M; [exact H|].
  apply mem_false_not_In in M. apply NoDup_app; [exact H | repeat constructor; auto |].
  intros a Ha [<-|[]]. contradiction.
Qed.

Lemma set_of_list_NoDup (l : list pyval) : NoDup (set_of_list l).
Proof.
  unfold set_of_list.
  assert (G : forall acc, NoDup acc ->
                          NoDup (fold_left (fun a x => set_add x a) l acc)).
  { induction l as [|x l IH]; intros acc H; simpl; [exact H|].
    apply IH. now apply set_add_NoDup. }
  apply G. constructor.
Qed.

Lemma set_of_list_fixed (l : list pyval) : NoDup l -> set_of_list l = l.
Proof.
  unfold set_of_list.
  assert (G : forall acc, NoDup (acc ++ l) ->
                          fold_left (fun a x => set_add x a) l acc = acc ++ l).
  { induction l as [|x l IH]; intros acc H; simpl.
    - now rewrite app_nil_r.
    - assert (Hx : ~ In x acc).
      { intros Hin. apply (NoDup_remove_2 _ _ _ H). apply in_or_app. now left. }
      apply mem_false_not_In in Hx. unfold set_add at 2. rewrite Hx.
      rewrite IH; rewrite <- app_assoc; [reflexivity | exact H]. }
  intros H. exact (G [] H).
Qed.

Lemma load_checkpoint_NoDup d resume processed :
  load_checkpoint d resume = Ok processed -> NoDup processed.
Proof.
  unfold load_checkpoint. intros H.
  destruct (if resume then load_progress d
            else Ok (PDict [("processed_channels", PList [])])) as [v|e];
    [|discriminate H].
  simpl in H. destruct (getitem_str v "processed_channels") as [ids|e];
    [|discriminate H].
  simpl in H. unfold py_set in H.
  destruct ids; try discriminate H.
  - inversion H. apply set_of_list_NoDup.
  - destruct (forallb hashable items); [|discriminate H].
    inversion H. apply set_of_list_NoDup.
  - inversion H. apply set_of_list_NoDup.
Qed.

Lemma saved_checkpoint_loads d processed :
  progress_file d = Some (progress_json processed) ->
  NoDup processed -> forallb hashable processed = true ->
  load_checkpoint d true = Ok processed.
Proof.
  intros Hp Hn Hh. unfold load_checkpoint, load_progress. rewrite Hp. simpl.
  rewrite Hh. now rewrite set_of_list_fixed.
Qed.

Section ResumeFurther.

Variable css_select : node -> string -> py (list node).
Variable json_dumps : pyval -> string.
Variable http : request -> py response.
Variable pd_read_csv : csv_file -> py DataFrame.
Variable pd_merge : DataFrame -> DataFrame -> py DataFrame.

Lemma processed_stays_NoDup st signal :
  NoDup (processed_channels st) ->
  NoDup (processed_channels (flow_state (try_block css_select json_dumps http st signal))).
Proof.
  assert (Hstep : forall a s, NoDup (processed_channels s) ->
                              NoDup (processed_channels (apply a s))).
  { intros a s H. destruct a; try exact H. simpl. now apply set_add_NoDup. }
  intros H.
  apply (try_block_at_every_point css_select json_dumps http
           (fun s => NoDup (processed_channels s))).
  - intros idx row c s _ _ Hs. now apply at_every_point_stable.
  - intros a s _ Hs. now apply Hstep.
  - exact H.
Qed.

Lemma interrupted_run_cut d resume k st :
  enhance_data css_select json_dumps http pd_read_csv pd_merge d resume (Some k)
  = Interrupted st ->
  exists table processed cut,
    load_checkpoint d resume = Ok processed
    /\ try_block css_select json_dumps http (mk_state table processed d []) (Some k)
       = Interrupt cut
    /\ st = on_interrupt cut.
Proof.
  intros H. unfold enhance_data in H.
  destruct (input_file d) as [f|]; [|discriminate H].
  destruct (read_csv_pandas pd_read_csv f) as [base|]; [|discriminate H].
  destruct (load_checkpoint d resume) as [processed|e]; [|discriminate H].
  destruct (merge_existing pd_read_csv pd_merge d base) as [table|e];
    [|discriminate H].
  destruct (try_block css_select json_dumps http (mk_state table processed d [])
                      (Some k)) as [st1 signal1|cut|e st1] eqn:Hrun;
    try discriminate H.
  inversion H. exists table, processed, cut. auto.
Qed.

Lemma interrupted_checkpoint_loads d resume k st :
  enhance_data css_select json_dumps http pd_read_csv pd_merge d resume (Some k)
  = Interrupted st ->
  forallb hashable (processed_channels st) = true ->
  load_checkpoint (disk st) true = Ok (processed_channels st).
Proof.
  intros H Hh.
  destruct (interrupted_run_cut _ _ _ _ H) as [table [processed [cut [Hl [Hrun ->]]]]].
  destruct (on_interrupt_flushes cut) as [_ [Hp [_ [_ [Hpr _]]]]].
  rewrite Hpr in *. apply saved_checkpoint_loads; [exact Hp| |exact Hh].
  change cut with (flow_state (Interrupt cut)). rewrite <- Hrun.
  apply processed_stays_NoDup. simpl. exact (load_checkpoint_NoDup _ _ _ Hl).
Qed.

(** X11.  The checkpoint an interrupted run leaves is read back whole:
    when the identifiers are hashable values, the set that a following
    resumed run loads is the set the interrupted run had in memory when
    the signal arrived, and the enriched file holds the table it had. *)
Theorem interrupted_checkpoint_round_trip :
  forall d resume k st,
    enhance_data css_select json_dumps http pd_read_csv pd_merge d resume (Some k)
    = Interrupted st ->
    forallb hashable (processed_channels st) = true ->
    load_checkpoint (disk st) true = Ok (processed_channels st)
    /\ enhanced_file (disk st) = Some (CsvText (df st)).
Proof.
  intros d resume k st H Hh. split; [now apply (interrupted_checkpoint_loads d resume k)|].
  destruct (interrupted_run_cut _ _ _ _ H) as [table [processed [cut [_ [_ ->]]]]].
  reflexivity.
Qed.

(** X12.  An enriched file that exists but cannot be read, or that lacks
    one of the four base columns the merge drops, makes a run that is
    not interrupted fail before the loop, with [AttributeError] and
    [KeyError]: no subject is fetched and the files are left as they
    were. *)
Theorem unusable_enriched_file_fails_early :
  forall d resume f base processed fe,
    input_file d = Some f ->
    read_csv_pandas pd_read_csv f = Some base ->
    load_checkpoint d resume = Ok processed ->
    enhanced_file d = Some fe ->
    (read_csv_pandas pd_read_csv fe = None ->
     enhance_data css_select json_dumps http pd_read_csv pd_merge d resume None
     = Failed AttributeError d [])
    /\ (forall t col,
           read_csv_pandas pd_read_csv fe = Some t ->
           In col ["channel_title"; "youtube_url"; "social_blade_url"; "fetch_date"] ->
           ~ In col (columns t) ->
           enhance_data css_select json_dumps http pd_read_csv pd_merge d resume None
           = Failed KeyError d []).
Proof.
  intros d resume f base processed fe Hi Hb Hl He. split.
  - intros Hr. unfold enhance_data, merge_existing. now rewrite Hi, Hb, Hl, He, Hr.
  - intros t col Hr Hin Hcol. unfold enhance_data, merge_existing.
    rewrite Hi, Hb, Hl, He, Hr. simpl.
    assert (Hd : drop ["channel_title"; "youtube_url"; "social_blade_url"; "fetch_date"] t
                 = Exc KeyError).
    { unfold drop.
      destruct (forallb (fun c => existsb (String.eqb c) (columns t))
                        ["channel_title"; "youtube_url"; "social_blade_url"; "fetch_date"])
               eqn:E; [|reflexivity].
      exfalso. rewrite forallb_forall in E. specialize (E col Hin).
      apply existsb_exists in E. destruct E as [c' [Hc' Heq]].
      apply String.eqb_eq in Heq. subst c'. contradiction. }
    now rewrite Hd.
Qed.

(** X13.  An input table that has rows and no [channel_id] column makes
    a run without enriched file, not interrupted, fail at the first row
    with [KeyError]: no subject is fetched and no file is written. *)
Theorem input_without_channel_id_fails :
  forall d resume f base processed,
    input_file d = Some f ->
    read_csv_pandas pd_read_csv f = Some base ->
    load_checkpoint d resume = Ok processed ->
    enhanced_file d = None ->
    rows base <> [] ->
    ~ In "channel_id" (columns base) ->
    enhance_data css_select json_dumps http pd_read_csv pd_merge d resume None
    = Failed KeyError d [].
Proof.
  intros d resume f base processed Hi Hb Hl He Hrows Hcol.
  unfold enhance_data, merge_existing. rewrite Hi, Hb, Hl, He.
  unfold try_block, iterrows. simpl.
  destruct (rows base) as [|row rest]; [contradiction|]. simpl.
  unfold turn, row_channel_id.
  destruct (existsb (String.eqb "channel_id") (columns base)) eqn:E; [|reflexivity].
  exfalso. apply existsb_exists in E. destruct E as [c [Hc Heq]].
  apply String.eqb_eq in Heq. subst c. contradiction.
Qed.

End ResumeFurther.

(** ** Runs, end to end *)

Section EndToEnd.

Variable css_select : node -> string -> py (list node).
Variable json_dumps : pyval -> string.
Variable http : request -> py response.
Variable pd_read_csv : csv_file -> py DataFrame.
Variable pd_merge : DataFrame -> DataFrame -> py DataFrame.

Local Notation enhanced :=
  (enhance_data css_select json_dumps http pd_read_csv pd_merge).

Lemma enhance_data_cases d resume signal :
  (outcome_trace (enhanced d resume signal) = []
   /\ outcome_files (enhanced d resume signal) = d)
  \/ exists table processed,
      load_checkpoint d resume = Ok processed
      /\ ((exists st signal',
              try_block css_select json_dumps http (mk_state table processed d []) signal
              = Normal st signal'
              /\ enhanced d resume signal = Done st)
          \/ (exists cut,
                 try_block css_select json_dumps http (mk_state table processed d []) signal
                 = Interrupt cut
                 /\ enhanced d resume signal = Interrupted (on_interrupt cut))
          \/ (exists e st,
                 try_block css_select json_dumps http (mk_state table processed d []) signal
                 = Raise e st
                 /\ enhanced d resume signal = Failed e (disk st) (trace st))).
Proof.
  unfold enhance_data.
  destruct (input_file d) as [f|]; [|now left].
  destruct (read_csv_pandas pd_read_csv f) as [base|]; [|now left].
  destruct (load_checkpoint d resume) as [processed|e]; [|now left].
  destruct (merge_existing pd_read_csv pd_merge d base) as [table|e]; [|now left].
  right. exists table, processed. split; [reflexivity|].
  destruct (try_block css_select json_dumps http (mk_state table processed d []) signal)
    as [st signal'|cut|e st].
  - left. eauto.
  - right. left. eauto.
  - right. right. eauto.
Qed.

(** X14.  A resumed run does not fetch again what an interrupted run
    recorded: after a run that was interrupted, whose set holds hashable
    values, no fetch of a following resumed run, however it ends, is for
    an identifier of that set. *)
Theorem resumed_run_skips_recorded_subjects :
  forall d resume k st signal c sent,
    enhanced d resume (Some k) = Interrupted st ->
    forallb hashable (processed_channels st) = true ->
    In (Fetch c sent) (outcome_trace (enhanced (disk st) true signal)) ->
    ~ In c (processed_channels st).
Proof.
  intros d resume k st signal c sent Hrun Hh Hin.
  assert (Hload : load_checkpoint (disk st) true = Ok (processed_channels st))
    by exact (interrupted_checkpoint_loads css_select json_dumps http pd_read_csv pd_merge
                                           d resume k st Hrun Hh).
  destruct (enhance_data_cases (disk st) true signal)
    as [[Ht _]|[table [processed [Hl Hcases]]]].
  - rewrite Ht in Hin. contradiction.
  - rewrite Hload in Hl. inversion Hl. subst processed.
    assert (G : forall s,
               s = flow_state (try_block css_select json_dumps http
                                         (mk_state table (processed_channels st)
                                                   (disk st) []) signal) ->
               In (Fetch c sent) (trace s) -> ~ In c (processed_channels st)).
    { intros s -> H.
      exact (proj1 (fetches_of_a_run css_select json_dumps http
                                     (mk_state table (processed_channels st) (disk st) [])
                                     signal c sent eq_refl H)). }
    destruct Hcases as [[s [s' [Hc E]]]|[[cut [Hc E]]|[e [s [Hc E]]]]];
      rewrite E in Hin; simpl in Hin.
    + apply (G s); [now rewrite Hc | exact Hin].
    + apply (G cut); [now rewrite Hc|].
      apply in_app_or in Hin. destruct Hin as [Hin|[Hin|[]]]; [|discriminate Hin].
      apply in_app_or in Hin. destruct Hin as [Hin|[Hin|[]]]; [exact Hin|discriminate Hin].
    + apply (G s); [now rewrite Hc | exact Hin].
Qed.

End EndToEnd.

(** ** Fetching the subscriptions *)

Section SubsFurther.

Variable youtube_list : pyval -> py pyval.
Variable now_isoformat : nat -> string.
Variable str_of : pyval -> string.

Local Notation records_of := (add_items now_isoformat str_of).
Local Notation record_of := (channel_data now_isoformat str_of).
Local Notation turn := (page_turn youtube_list now_isoformat str_of).
Local Notation pages := (fetch_pages youtube_list now_isoformat str_of).

Lemma add_items_app items items' acc :
  records_of (items ++ items') acc
  = (mid <- records_of items acc ;; records_of items' mid).
Proof.
  revert acc. induction items as [|item items IH]; intros acc; simpl; [reflexivity|].
  destruct (record_of item (List.length acc)); simpl; [apply IH | reflexivity].
Qed.

Lemma add_items_rows items acc rows :
  records_of items acc = Ok rows ->
  exists recs,
    rows = acc ++ recs
    /\ List.length recs = List.length items
    /\ forall i item,
        nth_error items i = Some item ->
        exists r, nth_error recs i = Some r
                  /\ record_of item (List.length acc + i) = Ok r.
Proof.
  revert acc rows. induction items as [|item items IH]; intros acc rows H; simpl in H.
  - inversion H. exists []. rewrite app_nil_r. repeat split.
    intros i item Hi. destruct i; discriminate Hi.
  - destruct (record_of item (List.length acc)) as [r|e] eqn:E; [|discriminate H].
    simpl in H. destruct (IH _ _ H) as [recs [-> [Hlen Hnth]]].
    exists (r :: recs). rewrite <- app_assoc. split; [reflexivity|].
    split; [simpl; now rewrite Hlen|].
    intros [|i] it Hi; simpl in Hi.
    + inversion Hi. subst it. exists r. rewrite Nat.add_0_r. now split.
    + destruct (Hnth i it Hi) as [r' [Hr' Hc]]. exists r'. split; [exact Hr'|].
      rewrite length_app in Hc. simpl in Hc.
      now replace (List.length acc + S i) with (List.length acc + 1 + i) by lia.
Qed.

Lemma fetch_pages_breaks k :
  forall token subscriptions calls fuel,
    breaks youtube_list now_isoformat str_of token subscriptions k ->
    k <= fuel ->
    exists e sent,
      pages fuel token subscriptions calls = Some (PageFailed e (calls ++ token :: sent))
      /\ S (List.length sent) = k.
Proof.
  intros token subscriptions calls fuel H. revert calls fuel.
  induction H as [token subscriptions e He
                 |token subscriptions subscriptions' next k Ht Hn _ IH];
    intros calls fuel Hk.
  - destruct fuel as [|fuel]; [lia|]. simpl. rewrite He.
    exists e, []. now split.
  - destruct fuel as [|fuel]; [lia|]. simpl. rewrite Ht, Hn.
    destruct (IH (calls ++ [token]) fuel ltac:(lia)) as [e [sent [Hp Hl]]].
    exists e, (next :: sent). rewrite Hp, <- app_assoc. simpl. split; [reflexivity|].
    now rewrite Hl.
Qed.

Lemma fetch_pages_served k :
  forall token items subscriptions calls fuel rows,
    served youtube_list token items k ->
    records_of items subscriptions = Ok rows ->
    k <= fuel ->
    exists sent,
      pages fuel token subscriptions calls = Some (Collected rows (calls ++ token :: sent))
      /\ S (List.length sent) = k.
Proof.
  intros token items subscriptions calls fuel rows H.
  revert subscriptions calls fuel rows.
  induction H as [token response next items Hy Hi Hd Hn
                 |token response next items items' k Hy Hi Hd Hn _ IH];
    intros subscriptions calls fuel rows Hr Hk.
  - destruct fuel as [|fuel]; [lia|]. simpl. unfold page_turn. rewrite Hy. simpl.
    destruct (getitem_str response "items") as [v|e]; [|discriminate Hi].
    simpl in Hi |- *. rewrite Hi. simpl. rewrite Hr. simpl. rewrite Hd. simpl.
    rewrite Hn. exists []. now split.
  - destruct fuel as [|fuel]; [lia|]. simpl. unfold page_turn. rewrite Hy. simpl.
    destruct (getitem_str response "items") as [v|e]; [|discriminate Hi].
    simpl in Hi |- *. rewrite Hi. simpl.
    rewrite add_items_app in Hr.
    destruct (records_of items subscriptions) as [mid|e]; [|discriminate Hr].
    simpl in Hr |- *. rewrite Hd. simpl. rewrite Hn.
    destruct (IH mid (calls ++ [token]) fuel rows Hr ltac:(lia)) as [sent [Hp Hl]].
    exists (next :: sent). rewrite Hp, <- app_assoc. simpl. split; [reflexivity|].
    now rewrite Hl.
Qed.

(** X16.  The fetch of the subscriptions is all or nothing: when the
    [k]-th page fails, whether on the request, on the shape of the
    answer or on one of its items, the rows collected from the pages
    before it are dropped and the subscription file is left as it was,
    after [k] requests. *)
Theorem failed_page_discards_everything :
  forall fuel resume subs_file k,
    breaks youtube_list now_isoformat str_of PNone [] k ->
    k <= fuel ->
    resume = false \/ subs_file = None ->
    exists calls,
      fetch_subscriptions youtube_list now_isoformat str_of fuel resume subs_file
      = Some (subs_file, PNone :: calls)
      /\ S (List.length calls) = k.
Proof.
  intros fuel resume subs_file k Hb Hk Hr.
  destruct (fetch_pages_breaks k PNone [] [] fuel Hb Hk) as [e [sent [Hp Hl]]].
  exists sent. split; [|exact Hl]. unfold fetch_subscriptions.
  destruct Hr as [->| ->]; [|destruct resume]; now rewrite Hp.
Qed.

(** X17.  When the service serves all the pages, [k] of them, and every
    item has the entries read from it, the subscription file is
    overwritten with one row per item, in the order of the answers
    across pages: the row of the [i]-th item is its record, stamped with
    the [i]-th reading of the clock; [k] requests are sent, the first
    one without page token. *)
Theorem subscriptions_saved_in_api_order :
  forall fuel resume subs_file items k rows,
    served youtube_list PNone items k ->
    add_items now_isoformat str_of items [] = Ok rows ->
    k <= fuel ->
    resume = false \/ subs_file = None ->
    (exists calls,
        fetch_subscriptions youtube_list now_isoformat str_of fuel resume subs_file
        = Some (Some (CsvText (dataframe_of_records rows)), PNone :: calls)
        /\ S (List.length calls) = k)
    /\ List.length rows = List.length items
    /\ forall i item,
        nth_error items i = Some item ->
        exists r, nth_error rows i = Some r
                  /\ channel_data now_isoformat str_of item i = Ok r.
Proof.
  intros fuel resume subs_file items k rows Hs Ha Hk Hr. split.
  - destruct (fetch_pages_served k PNone items [] [] fuel rows Hs Ha Hk)
      as [sent [Hp Hl]].
    exists sent. split; [|exact Hl]. unfold fetch_subscriptions.
    destruct Hr as [->| ->]; [|destruct resume]; now rewrite Hp.
  - destruct (add_items_rows _ _ _ Ha) as [recs [-> [Hlen Hnth]]]. simpl.
    split; [exact Hlen|]. exact Hnth.
Qed.

End SubsFurther.

(** ** Credentials *)

Section CredentialsFurther.

Import YouTubeAuth.

Variable from_authorized_user_file : token_text -> py Credentials.
Variable refresh : Credentials -> py Credentials.
Variable run_local_server : string -> py Credentials.

Local Notation credentials_of :=
  (get_credentials from_authorized_user_file refresh run_local_server).


(** X19.  What [get_credentials] does to the token file: credentials
    that are returned are those of the token file, loaded and returned
    with the files untouched, or they are saved as the token file; on a
    failure the files are as they were, or the token file could not be
    loaded and has been removed. *)
Theorem returned_credentials_are_saved :
  forall fs result fs',
    credentials_of fs = (result, fs') ->
    match result with
    | inl c =>
        (exists t,
            token_file fs = Some t /\ from_authorized_user_file t = Ok c /\ fs' = fs)
        \/ token_file fs' = Some (SavedToken c)
    | inr _ =>
        fs' = fs
        \/ (exists t e,
               token_file fs = Some t /\ from_authorized_user_file t = Exc e
               /\ token_file fs' = None)
    end.
Proof.
  intros fs result fs' H. unfold get_credentials, load_token in H.
  destruct fs as [tok secrets]. simpl in *.
  destruct tok as [t|].
  - destruct (from_authorized_user_file t) as [c|e] eqn:El; simpl in H.
    + destruct (valid c) eqn:Ev; simpl in H.
      * inversion H. subst. left. exists t. auto.
      * destruct (expired c && truthy (refresh_token c)) eqn:Ex; simpl in H.
        -- destruct (refresh c) as [c'|e'] eqn:Er; simpl in H.
           ++ inversion H. subst. now right.
           ++ destruct secrets as [sec|]; simpl in H.
              ** destruct (run_local_server sec) as [c'|e''] eqn:Ef.
                 --- inversion H. subst. now right.
                 --- inversion H. subst. now left.
              ** inversion H. subst. now left.
        -- inversion H. subst. left. exists t. auto.
    + destruct secrets as [sec|]; simpl in H.
      * destruct (run_local_server sec) as [c'|e''] eqn:Ef.
        -- inversion H. subst. now right.
        -- inversion H. subst. right. exists t, e. auto.
      * inversion H. subst. right. exists t, e. auto.
  - simpl in H. destruct secrets as [sec|]; simpl in H.
    + destruct (run_local_server sec) as [c'|e''] eqn:Ef.
      * inversion H. subst. now right.
      * inversion H. subst. now left.
    + inversion H. subst. now left.
Qed.

(** X20.  Credentials loaded from the token file that are not both
    expired and provided with a refresh token are returned as they are,
    valid or not: nothing is refreshed, the interactive flow is not run
    and the files are untouched. *)
Theorem unrefreshable_credentials_returned_as_loaded :
  forall fs t c,
    token_file fs = Some t ->
    from_authorized_user_file t = Ok c ->
    expired c && truthy (refresh_token c) = false ->
    credentials_of fs = (inl c, fs).
Proof.
  intros fs t c Ht Hl Hx. unfold get_credentials, load_token, try_refresh.
  rewrite Ht, Hl. simpl. rewrite Hx. now destruct (valid c).
Qed.

End CredentialsFurther.

(** ** Examples for the further properties *)

(** On the sample data: the video list of [UC_a] holds one record. *)
Lemma last_upload_is_first_record_witness :
  sample_http (ProfilePage (PStr "UC_a"))
  = Ok (mk_response 200 sample_page (Exc JSONDecodeError))
  /\ sample_http (VideoList (PStr "UC_a"))
     = Ok (mk_response 200 empty_page
             (Ok (PList [PDict [("created_at", PStr "2024-01-02"); ("title", PStr "t")]])))
  /\ fetch_channel_stats basic_select plain_dumps sample_http (PStr "UC_a") []
     = (Ok (Some (SocialBladeStats.set_videos
                    (page_stats basic_select sample_page) (PStr "2024-01-02")
                    (Some (plain_dumps
                             (PList [PDict [("created_at", PStr "2024-01-02");
                                            ("title", PStr "t")]]))))),
        [ProfilePage (PStr "UC_a"); VideoList (PStr "UC_a")]).
Proof.
  split; [reflexivity|]. split; [reflexivity|].
  exact (last_upload_is_first_record
           basic_select plain_dumps sample_http (PStr "UC_a") []
           (mk_response 200 sample_page (Exc JSONDecodeError))
           (mk_response 200 empty_page
              (Ok (PList [PDict [("created_at", PStr "2024-01-02"); ("title", PStr "t")]])))
           [("created_at", PStr "2024-01-02"); ("title", PStr "t")] [] (PStr "2024-01-02")
           eq_refl eq_refl eq_refl eq_refl eq_refl eq_refl).
Defined.

(** On a service whose video lists are empty. *)
Lemma empty_video_list_is_recorded_witness :
  quiet_http (VideoList (PStr "UC_a")) = Ok (mk_response 200 empty_page (Ok (PList [])))
  /\ truthy (PList []) = false
  /\ fetch_channel_stats basic_select plain_dumps quiet_http (PStr "UC_a") []
     = (Ok (Some (SocialBladeStats.set_videos
                    (page_stats basic_select sample_page) (PStr "N/A")
                    (Some (plain_dumps (PList []))))),
        [ProfilePage (PStr "UC_a"); VideoList (PStr "UC_a")]).
Proof.
  split; [reflexivity|]. split; [reflexivity|].
  exact (empty_video_list_is_recorded
           basic_select plain_dumps quiet_http (PStr "UC_a") []
           (mk_response 200 sample_page (Exc JSONDecodeError))
           (mk_response 200 empty_page (Ok (PList []))) (PList [])
           eq_refl eq_refl eq_refl eq_refl eq_refl eq_refl).
Defined.

(** On the empty page no block matches. *)
Lemma average_blocks_default_to_sentinels_witness :
  select_one basic_select (Some empty_page) "#socialblade-user-content > div:nth-child(21)"
  = Ok None
  /\ _extract_daily_average basic_select (Some empty_page)
     = Ok (Some (AverageStats.mk "N/A" "N/A" "N/A" "N/A")).
Proof.
  split; [reflexivity|].
  exact (proj1 (proj2 (proj2 (average_blocks_default_to_sentinels
                                basic_select (Some empty_page) "weekly")))
               eq_refl).
Defined.

Lemma growth_recent_daily_stats :
  _extract_recent_daily_stats growth_select (Some growth_page)
  = Ok (map (daily_record growth_select)
            (firstn 14 (skipn 6 (map growth_block sample_labels)))).
Proof. vm_compute. reflexivity. Qed.

(** On a page whose blocks have an empty growth element: the block
    [b7], the first of the window, gives an entry that holds ["--"]. *)
Lemma daily_subscriber_growth_not_empty_witness :
  _extract_recent_daily_stats growth_select (Some growth_page)
  = Ok (map (daily_record growth_select)
            (firstn 14 (skipn 6 (map growth_block sample_labels))))
  /\ select growth_select (Some growth_page) "#socialblade-user-content > div"
     = Ok (map growth_block sample_labels)
  /\ In (growth_block "b7") (firstn 14 (skipn 6 (map growth_block sample_labels)))
  /\ text_at growth_select (Some (growth_block "b7"))
             "div:nth-child(3) div:nth-child(1) span" None false
     = EmptyString
  /\ exists d,
      In d (map (daily_record growth_select)
                (firstn 14 (skipn 6 (map growth_block sample_labels))))
      /\ DailyStats.subscriber_growth d = "--".
Proof.
  assert (Hin : In (growth_block "b7")
                   (firstn 14 (skipn 6 (map growth_block sample_labels))))
    by (left; reflexivity).
  assert (Hraw : text_at growth_select (Some (growth_block "b7"))
                         "div:nth-child(3) div:nth-child(1) span" None false
                 = EmptyString) by reflexivity.
  split; [exact growth_recent_daily_stats|]. split; [reflexivity|].
  split; [exact Hin|]. split; [exact Hraw|].
  destruct (proj2 (daily_subscriber_growth_not_empty
                     growth_select (Some growth_page) _ growth_recent_daily_stats)
                  (map growth_block sample_labels) (growth_block "b7") eq_refl Hin)
    as [d [Hd [Hdash _]]].
  exists d. split; [exact Hd | exact (Hdash Hraw)].
Defined.

(** On the sample table, read as it was written. *)
Lemma read_csv_pandas_has_no_nan_witness :
  reread (CsvText sample_table) = Ok sample_table
  /\ exists t,
      read_csv_pandas reread (CsvText sample_table) = Some t
      /\ columns t = columns sample_table
      /\ List.length (rows t) = List.length (rows sample_table)
      /\ forall row col,
          In row (rows t) -> In col (columns t) ->
          cell row col <> PNaN /\ cell row col <> PStr "--".
Proof.
  split; [reflexivity|].
  exact (proj2 (read_csv_pandas_has_no_nan reread (CsvText sample_table))
               sample_table eq_refl).
Defined.

Lemma sample_resumed_fetch :
  In (Fetch (PStr "UC_b") [ProfilePage (PStr "UC_b"); VideoList (PStr "UC_b")])
     (trace (flow_state (try_block basic_select plain_dumps sample_http
                                   (sample_start [PStr "UC_a"]) None))).
Proof. vm_compute. left. reflexivity. Qed.

(** On the sample data, with [UC_a] in the loaded set: the first fetch of
    the run is that of [UC_b]. *)
Lemma checkpointed_subjects_not_fetched_witness :
  trace (sample_start [PStr "UC_a"]) = []
  /\ In (Fetch (PStr "UC_b") [ProfilePage (PStr "UC_b"); VideoList (PStr "UC_b")])
        (trace (flow_state (try_block basic_select plain_dumps sample_http
                                      (sample_start [PStr "UC_a"]) None)))
  /\ ~ In (PStr "UC_b") (processed_channels (sample_start [PStr "UC_a"])).
Proof.
  split; [reflexivity|]. split; [exact sample_resumed_fetch|].
  exact (proj1 (checkpointed_subjects_not_fetched
                  basic_select plain_dumps sample_http
                  (sample_start [PStr "UC_a"]) None (PStr "UC_b")
                  [ProfilePage (PStr "UC_b"); VideoList (PStr "UC_b")]
                  eq_refl sample_resumed_fetch)).
Defined.

(** On the sample data: a fresh run that reaches its end has fetched
    [UC_b]. *)
Lemma completed_run_fetches_the_rest_witness :
  try_block basic_select plain_dumps sample_http (sample_start []) None
  = Normal sample_completed None
  /\ In (1, sample_row "UC_b" "B") (iterrows sample_table)
  /\ row_channel_id sample_table (sample_row "UC_b" "B") = Ok (PStr "UC_b")
  /\ exists sent, In (Fetch (PStr "UC_b") sent) (trace sample_completed).
Proof.
  assert (Hin : In (1, sample_row "UC_b" "B") (iterrows sample_table))
    by (right; left; reflexivity).
  split; [exact sample_completed_run|]. split; [exact Hin|]. split; [reflexivity|].
  exact (completed_run_fetches_the_rest
           basic_select plain_dumps sample_http (sample_start []) None
           sample_completed None 1 (sample_row "UC_b" "B") (PStr "UC_b")
           sample_completed_run Hin eq_refl (fun H : In (PStr "UC_b") [] => H)).
Defined.

Lemma sample_all_checkpointed :
  forall idx row,
    In (idx, row) (iterrows (df (sample_start sample_all))) ->
    exists c, row_channel_id (df (sample_start sample_all)) row = Ok c
              /\ In c (processed_channels (sample_start sample_all)).
Proof.
  intros idx row H. simpl in H.
  destruct H as [H|[H|[H|[]]]]; inversion H; subst; eexists;
    (split; [reflexivity | simpl; tauto]).
Qed.

(** On the sample data, with the three identifiers in the loaded set. *)
Lemma fully_checkpointed_run_only_saves_witness :
  (forall idx row,
      In (idx, row) (iterrows (df (sample_start sample_all))) ->
      exists c, row_channel_id (df (sample_start sample_all)) row = Ok c
                /\ In c (processed_channels (sample_start sample_all)))
  /\ exists st,
      try_block basic_select plain_dumps sample_http (sample_start sample_all) None
      = Normal st None
      /\ df st = sample_table
      /\ processed_channels st = sample_all
      /\ enhanced_file (disk st) = Some (CsvText sample_table)
      /\ progress_file (disk st) = None
      /\ trace st = [ToCsv; LogCompleted].
Proof.
  split; [exact sample_all_checkpointed|].
  exact (fully_checkpointed_run_only_saves
           basic_select plain_dumps sample_http (sample_start sample_all)
           sample_all_checkpointed).
Defined.

Lemma sample_cut_run :
  enhance_data basic_select plain_dumps sample_http reread left_join
               sample_files true (Some 30)
  = Interrupted (sample_cut 30).
Proof. vm_compute. reflexivity. Qed.

Lemma sample_cut_set : processed_channels (sample_cut 30) = [PStr "UC_a"].
Proof. vm_compute. reflexivity. Qed.

(** On the sample data: a run cut after thirty actions, when [UC_a] has
    been recorded, leaves a checkpoint that loads as that set. *)
Lemma interrupted_checkpoint_round_trip_witness :
  enhance_data basic_select plain_dumps sample_http reread left_join
               sample_files true (Some 30)
  = Interrupted (sample_cut 30)
  /\ processed_channels (sample_cut 30) = [PStr "UC_a"]
  /\ load_checkpoint (disk (sample_cut 30)) true = Ok (processed_channels (sample_cut 30)).
Proof.
  split; [exact sample_cut_run|]. split; [exact sample_cut_set|].
  apply (interrupted_checkpoint_round_trip
           basic_select plain_dumps sample_http reread left_join
           sample_files true 30 (sample_cut 30) sample_cut_run).
  rewrite sample_cut_set. reflexivity.
Defined.

(** On the sample table, with an enriched file that cannot be read. *)
Lemma unusable_enriched_file_fails_early_witness :
  read_csv_pandas reread (CsvRaw "garbled") = None
  /\ enhance_data basic_select plain_dumps sample_http reread left_join
                  unreadable_enriched true None
     = Failed AttributeError unreadable_enriched [].
Proof.
  split; [reflexivity|].
  exact (proj1 (unusable_enriched_file_fails_early
                  basic_select plain_dumps sample_http reread left_join
                  unreadable_enriched true (CsvText sample_table)
                  (replace (PStr "--") PNone (replace PNaN PNone sample_table))
                  [] (CsvRaw "garbled") eq_refl eq_refl eq_refl eq_refl)
               eq_refl).
Defined.

(** On an input table that holds titles only. *)
Lemma input_without_channel_id_fails_witness :
  ~ In "channel_id" ["channel_title"]
  /\ enhance_data basic_select plain_dumps sample_http reread left_join
                  titles_only true None
     = Failed KeyError titles_only [].
Proof.
  assert (Hcol : ~ In "channel_id" ["channel_title"])
    by (intros [H|[]]; discriminate H).
  split; [exact Hcol|].
  exact (input_without_channel_id_fails
           basic_select plain_dumps sample_http reread left_join
           titles_only true
           (CsvText (mk_df ["channel_title"] [[("channel_title", PStr "A")]]))
           (replace (PStr "--") PNone
                    (replace PNaN PNone
                             (mk_df ["channel_title"] [[("channel_title", PStr "A")]])))
           [] eq_refl eq_refl eq_refl eq_refl
           ltac:(discriminate) Hcol).
Defined.

(** On a service whose second page fails: the two rows of the first
    page are dropped. *)
Lemma failed_page_discards_everything_witness :
  breaks broken_youtube sample_clock plain_dumps PNone [] 2
  /\ exists calls,
      fetch_subscriptions broken_youtube sample_clock plain_dumps 5 true None
      = Some (None, PNone :: calls)
      /\ S (List.length calls) = 2.
Proof.
  assert (Hb : breaks broken_youtube sample_clock plain_dumps PNone [] 2).
  { apply (breaks_later broken_youtube sample_clock plain_dumps PNone []
                        [sample_subscription "UC_a" "A" 0; sample_subscription "UC_b" "B" 1]
                        (PStr "page2") 1); [reflexivity | reflexivity |].
    apply (breaks_here broken_youtube sample_clock plain_dumps _ _ RequestException).
    reflexivity. }
  split; [exact Hb|].
  apply (failed_page_discards_everything
           broken_youtube sample_clock plain_dumps 5 true None 2 Hb); [lia | now right].
Defined.

(** On a service with three subscriptions on two pages. *)
Lemma subscriptions_saved_in_api_order_witness :
  served sample_youtube PNone
         [sample_item "UC_a" "A"; sample_item "UC_b" "B"; sample_item "UC_down" "D"] 2
  /\ exists calls,
      fetch_subscriptions sample_youtube sample_clock plain_dumps 5 false
                          (Some (CsvRaw "old"))
      = Some (Some (CsvText (dataframe_of_records
                               [sample_subscription "UC_a" "A" 0;
                                sample_subscription "UC_b" "B" 1;
                                sample_subscription "UC_down" "D" 2])),
              PNone :: calls)
      /\ S (List.length calls) = 2.
Proof.
  assert (Hs : served sample_youtube PNone
                      [sample_item "UC_a" "A"; sample_item "UC_b" "B";
                       sample_item "UC_down" "D"] 2).
  { apply (served_more sample_youtube PNone
                       (PDict [("items", PList [sample_item "UC_a" "A";
                                                sample_item "UC_b" "B"]);
                               ("nextPageToken", PStr "page2")])
                       (PStr "page2")
                       [sample_item "UC_a" "A"; sample_item "UC_b" "B"]
                       [sample_item "UC_down" "D"] 1);
      try reflexivity.
    apply (served_last sample_youtube (PStr "page2")
                       (PDict [("items", PList [sample_item "UC_down" "D"])])
                       PNone [sample_item "UC_down" "D"]);
      reflexivity. }
  split; [exact Hs|].
  apply (proj1 (subscriptions_saved_in_api_order
                  sample_youtube sample_clock plain_dumps 5 false (Some (CsvRaw "old"))
                  _ 2 _ Hs eq_refl ltac:(lia) (or_introl eq_refl))).
Defined.


(** On expired credentials that are refreshed: the refreshed
    credentials are returned and saved. *)
Lemma returned_credentials_are_saved_witness :
  YouTubeAuth.get_credentials sample_loader sample_refresh sample_flow expired_token
  = (inl (YouTubeAuth.mk_credentials true false (PStr "refresh-0")),
     YouTubeAuth.mk_auth_files
       (Some (YouTubeAuth.SavedToken
                (YouTubeAuth.mk_credentials true false (PStr "refresh-0"))))
       (Some "secrets"))
  /\ ((exists t,
          YouTubeAuth.token_file expired_token = Some t
          /\ sample_loader t = Ok (YouTubeAuth.mk_credentials true false (PStr "refresh-0"))
          /\ YouTubeAuth.mk_auth_files
               (Some (YouTubeAuth.SavedToken
                        (YouTubeAuth.mk_credentials true false (PStr "refresh-0"))))
               (Some "secrets")
             = expired_token)
      \/ YouTubeAuth.token_file
           (YouTubeAuth.mk_auth_files
              (Some (YouTubeAuth.SavedToken
                       (YouTubeAuth.mk_credentials true false (PStr "refresh-0"))))
              (Some "secrets"))
         = Some (YouTubeAuth.SavedToken
                   (YouTubeAuth.mk_credentials true false (PStr "refresh-0")))).
Proof.
  split; [reflexivity|].
  exact (returned_credentials_are_saved
           sample_loader sample_refresh sample_flow expired_token
           (inl (YouTubeAuth.mk_credentials true false (PStr "refresh-0")))
           (YouTubeAuth.mk_auth_files
              (Some (YouTubeAuth.SavedToken
                       (YouTubeAuth.mk_credentials true false (PStr "refresh-0"))))
              (Some "secrets"))
           eq_refl).
Defined.

(** On credentials that are neither valid nor expired: they are
    returned, invalid. *)
Lemma unrefreshable_credentials_returned_as_loaded_witness :
  sample_loader (YouTubeAuth.SavedToken stale_credentials) = Ok stale_credentials
  /\ YouTubeAuth.valid stale_credentials = false
  /\ YouTubeAuth.get_credentials sample_loader sample_refresh sample_flow stale_token
     = (inl stale_credentials, stale_token).
Proof.
  split; [reflexivity|]. split; [reflexivity|].
  exact (unrefreshable_credentials_returned_as_loaded
           sample_loader sample_refresh sample_flow stale_token
           (YouTubeAuth.SavedToken stale_credentials) stale_credentials
           eq_refl eq_refl eq_refl).
Defined.

Lemma sample_resumed_run_fetch :
  In (Fetch (PStr "UC_b") [ProfilePage (PStr "UC_b"); VideoList (PStr "UC_b")])
     (outcome_trace (enhance_data basic_select plain_dumps sample_http reread left_join
                                  (disk (sample_cut 30)) true None)).
Proof. vm_compute. left. reflexivity. Qed.

(** On the sample data: the run that follows the one cut after thirty
    actions fetches [UC_b], which is not in the set that was saved. *)
Lemma resumed_run_skips_recorded_subjects_witness :
  enhance_data basic_select plain_dumps sample_http reread left_join
               sample_files true (Some 30)
  = Interrupted (sample_cut 30)
  /\ In (Fetch (PStr "UC_b") [ProfilePage (PStr "UC_b"); VideoList (PStr "UC_b")])
        (outcome_trace (enhance_data basic_select plain_dumps sample_http reread left_join
                                     (disk (sample_cut 30)) true None))
  /\ ~ In (PStr "UC_b") (processed_channels (sample_cut 30)).
Proof.
  split; [exact sample_cut_run|]. split; [exact sample_resumed_run_fetch|].
  apply (resumed_run_skips_recorded_subjects
           basic_select plain_dumps sample_http reread left_join
           sample_files true 30 (sample_cut 30) None (PStr "UC_b")
           [ProfilePage (PStr "UC_b"); VideoList (PStr "UC_b")]
           sample_cut_run).
  - rewrite sample_cut_set. reflexivity.
  - exact sample_resumed_run_fetch.
Defined.
